(** * env-payment-forge: the payment orchestrator and its error contract

    A shallow embedding of [src/core/payment_processor.ts] (class
    [PaymentProcessor]) and of the error classes and [toPaymentError] of
    [src/errors], together with the types of [src/types] they use.

    - JavaScript numbers are IEEE 754 doubles: Rocq's primitive [float].
    - [async] methods run sequentially; a method is a function from the state
      of the processor and of its collaborators to an outcome (a returned
      value or a thrown value) and the next state.
    - The collaborators whose code is not part of the orchestrator (managers,
      fraud detector, validation, provider adapters) are the fields of a
      record [Collaborators.t] over an arbitrary state [Ext]; every call the
      orchestrator makes to one of them is recorded, in order, in the [calls]
      log of the state. The logger only adds to that log. *)

From Stdlib Require Import ZArith Floats.
From stdpp Require Import gmap strings list.

Open Scope string_scope.
Open Scope list_scope.

(** ** JavaScript numbers *)

Module Js.

(** [ToBoolean] on a number: [+0], [-0] and [NaN] are falsy. *)
Definition number_truthy (n : float) : bool :=
  negb (PrimFloat.eqb n 0%float) && negb (is_nan n).

(** [ToBoolean] on a string: only the empty string is falsy. *)
Definition string_truthy (s : string) : bool :=
  match s with EmptyString => false | _ => true end.

(** [a >= b] on numbers: false when either side is [NaN]. *)
Definition ge (a b : float) : bool := PrimFloat.leb b a.

Definition is_pzero (n : float) : bool :=
  match classify n with PZero => true | _ => false end.

Definition is_nzero (n : float) : bool :=
  match classify n with NZero => true | _ => false end.

(** [Math.max] (ECMAScript 21.3.2.24): [NaN] if any argument is [NaN];
    otherwise fold from [-Infinity], where [+0] beats [-0]. *)
Fixpoint Math_max_from (highest : float) (args : list float) : float :=
  match args with
  | [] => highest
  | n :: rest =>
      if is_nan n then nan
      else
        let highest := if is_pzero n && is_nzero highest then 0%float else highest in
        let highest := if PrimFloat.ltb highest n then n else highest in
        Math_max_from highest rest
  end.

Definition Math_max (a b : float) : float := Math_max_from neg_infinity [a; b].

(** [a || b] on strings and on numbers. *)
Definition string_or (a : option string) (b : string) : string :=
  match a with
  | Some s => if string_truthy s then s else b
  | None => b
  end.

Definition number_or (a : option float) (b : float) : float :=
  match a with
  | Some n => if number_truthy n then n else b
  | None => b
  end.

(** [a ?? b]: only [undefined] and [null] are replaced. *)
Definition nullish {A} (a : option A) (b : A) : A :=
  match a with Some x => x | None => b end.

End Js.

(** ** Values that can be thrown, and the error classes *)

(** A value of type [unknown]. [JsError] is an [Error] that is not a
    [PaymentError] ([TypeError], ...); [JsPaymentError] is an instance of
    [PaymentError] or of one of its subclasses, told apart by [name]. The
    [stack] of an error is not modelled. The remaining kinds of value
    (functions, symbols, bigints) are treated by [toPaymentError] as a
    boolean or a number is. *)
#[warnings="-register-all"]
Inductive JsValue :=
  | JsUndefined
  | JsNull
  | JsBoolean (b : bool)
  | JsNumber (n : float)
  | JsString (s : string)
  | JsObject (props : list (string * JsValue))
  | JsError (ename emessage : string)
  | JsPaymentError (e : PaymentError)
with PaymentError :=
  | mkPaymentError (name message code : string) (statusCode : float)
      (retryable : bool) (details : option (list (string * JsValue)))
      (cause : option JsValue).

Definition name (e : PaymentError) := let 'mkPaymentError n _ _ _ _ _ _ := e in n.
Definition message (e : PaymentError) := let 'mkPaymentError _ m _ _ _ _ _ := e in m.
Definition code (e : PaymentError) := let 'mkPaymentError _ _ c _ _ _ _ := e in c.
Definition statusCode (e : PaymentError) := let 'mkPaymentError _ _ _ s _ _ _ := e in s.
Definition retryable (e : PaymentError) := let 'mkPaymentError _ _ _ _ r _ _ := e in r.
Definition details (e : PaymentError) := let 'mkPaymentError _ _ _ _ _ d _ := e in d.
Definition cause (e : PaymentError) := let 'mkPaymentError _ _ _ _ _ _ c := e in c.

(** The [options] argument of the [PaymentError] constructors. *)
Record ErrorOptions := {
  opt_code : option string;
  opt_statusCode : option float;
  opt_retryable : option bool;
  opt_details : option (list (string * JsValue));
  opt_cause : option JsValue;
}.

Definition no_options : ErrorOptions :=
  {| opt_code := None; opt_statusCode := None; opt_retryable := None;
     opt_details := None; opt_cause := None |}.

(** [new C(message, options)] for a class [C] whose constructor is the one of
    [PaymentError]; [cls] is [this.constructor.name]. *)
Definition new_PaymentError_as (cls message : string) (options : ErrorOptions)
  : PaymentError :=
  mkPaymentError cls message
    (Js.string_or (opt_code options) "payment_error")
    (Js.number_or (opt_statusCode options) 500%float)
    (match opt_retryable options with Some true => true | _ => false end)
    (opt_details options)
    (opt_cause options).

Definition new_PaymentError := new_PaymentError_as "PaymentError".

Definition new_ValidationError (message : string) details cause :=
  new_PaymentError_as "ValidationError" message
    {| opt_code := Some "validation_error"; opt_statusCode := Some 400%float;
       opt_retryable := None; opt_details := details; opt_cause := cause |}.

Definition new_AuthenticationError (message : string) details cause :=
  new_PaymentError_as "AuthenticationError" message
    {| opt_code := Some "authentication_error"; opt_statusCode := Some 401%float;
       opt_retryable := None; opt_details := details; opt_cause := cause |}.

Definition new_AuthorizationError (message : string) details cause :=
  new_PaymentError_as "AuthorizationError" message
    {| opt_code := Some "authorization_error"; opt_statusCode := Some 403%float;
       opt_retryable := None; opt_details := details; opt_cause := cause |}.

Definition new_NotFoundError (message : string) details cause :=
  new_PaymentError_as "NotFoundError" message
    {| opt_code := Some "not_found_error"; opt_statusCode := Some 404%float;
       opt_retryable := None; opt_details := details; opt_cause := cause |}.

Definition new_ProviderError (message : string) (options : ErrorOptions) :=
  new_PaymentError_as "ProviderError" message
    {| opt_code := Some (Js.nullish (opt_code options) "provider_error");
       opt_statusCode := Some (Js.nullish (opt_statusCode options) 502%float);
       opt_retryable := Some (Js.nullish (opt_retryable options) true);
       opt_details := opt_details options; opt_cause := opt_cause options |}.

Definition new_PaymentDeclinedError (message : string) (options : ErrorOptions) :=
  new_PaymentError_as "PaymentDeclinedError" message
    {| opt_code := Some (Js.nullish (opt_code options) "payment_declined");
       opt_statusCode := Some 402%float; opt_retryable := Some false;
       opt_details := opt_details options; opt_cause := opt_cause options |}.

Definition new_RateLimitError (message : string) (retryAfter : option float) cause :=
  new_PaymentError_as "RateLimitError" message
    {| opt_code := Some "rate_limit_error"; opt_statusCode := Some 429%float;
       opt_retryable := Some true;
       opt_details :=
         match retryAfter with
         | Some r => if Js.number_truthy r then Some [("retryAfter", JsNumber r)] else None
         | None => None
         end;
       opt_cause := cause |}.

Definition new_TimeoutError (message : string) cause :=
  new_PaymentError_as "TimeoutError" message
    {| opt_code := Some "timeout_error"; opt_statusCode := Some 504%float;
       opt_retryable := Some true; opt_details := None; opt_cause := cause |}.

Definition new_DuplicateError (message : string) (existingId : option string) cause :=
  new_PaymentError_as "DuplicateError" message
    {| opt_code := Some "duplicate_error"; opt_statusCode := Some 409%float;
       opt_retryable := Some false;
       opt_details :=
         match existingId with
         | Some i => if Js.string_truthy i then Some [("existingId", JsString i)] else None
         | None => None
         end;
       opt_cause := cause |}.

Definition new_PaymentMethodError (message : string) (options : ErrorOptions) :=
  new_PaymentError_as "PaymentMethodError" message
    {| opt_code := Some (Js.nullish (opt_code options) "payment_method_error");
       opt_statusCode := Some 400%float; opt_retryable := Some false;
       opt_details := opt_details options; opt_cause := opt_cause options |}.

Definition new_FraudError (message : string) (riskScore : option float) cause :=
  new_PaymentError_as "FraudError" message
    {| opt_code := Some "fraud_error"; opt_statusCode := Some 403%float;
       opt_retryable := Some false;
       opt_details :=
         match riskScore with
         | Some r => Some [("riskScore", JsNumber r)]
         | None => None
         end;
       opt_cause := cause |}.

Definition new_InsufficientFundsError (message : string) cause :=
  new_PaymentError_as "InsufficientFundsError" message
    {| opt_code := Some "insufficient_funds"; opt_statusCode := Some 402%float;
       opt_retryable := Some false; opt_details := None; opt_cause := cause |}.

Definition new_ConfigurationError (message : string) cause :=
  new_PaymentError_as "ConfigurationError" message
    {| opt_code := Some "configuration_error"; opt_statusCode := Some 500%float;
       opt_retryable := Some false; opt_details := None; opt_cause := cause |}.

(** The codes the error classes assign by default, in declaration order. *)
Definition error_class_codes : list string :=
  map code
    [ new_PaymentError "" no_options;
      new_ValidationError "" None None;
      new_AuthenticationError "" None None;
      new_AuthorizationError "" None None;
      new_NotFoundError "" None None;
      new_ProviderError "" no_options;
      new_PaymentDeclinedError "" no_options;
      new_RateLimitError "" None None;
      new_TimeoutError "" None;
      new_DuplicateError "" None None;
      new_PaymentMethodError "" no_options;
      new_FraudError "" None None;
      new_InsufficientFundsError "" None;
      new_ConfigurationError "" None ].

(** [error instanceof PaymentError]. *)
Definition instanceof_PaymentError (v : JsValue) : bool :=
  match v with JsPaymentError _ => true | _ => false end.

Definition default_unknown_message : string := "An unknown error occurred".

(** [toPaymentError(error, defaultMessage)]. *)
Definition toPaymentError (error : JsValue) (defaultMessage : string) : PaymentError :=
  match error with
  | JsPaymentError e => e
  | JsError _ m =>
      new_PaymentError (if Js.string_truthy m then m else defaultMessage)
        {| opt_code := None; opt_statusCode := None; opt_retryable := None;
           opt_details := None; opt_cause := Some error |}
  | JsString s => new_PaymentError s no_options
  | JsObject _ =>
      new_PaymentError defaultMessage
        {| opt_code := None; opt_statusCode := None; opt_retryable := None;
           opt_details := Some [("originalError", error)]; opt_cause := None |}
  | JsUndefined | JsNull | JsBoolean _ | JsNumber _ =>
      new_PaymentError defaultMessage no_options
  end.

(** ** Shared types ([src/types])

    Records keep the fields the orchestrator, the providers' results and the
    risk merge read or write; optional fields that nothing here touches
    (metadata, addresses, descriptors, fees, refunds) are left out. An
    optional field is an [option]. *)

Inductive Environment := development | sandbox | production.

Inductive PaymentMethodType := card | bank_account | ach | sepa | digital_wallet | crypto.

Inductive TransactionStatus :=
  | initialized | pending | authorized | captured | failed | declined
  | refunded | partially_refunded | disputed | canceled | expired.

Inductive RiskLevel := low | medium | high.

(** The enumerations are string literal types; these are their values. *)
Definition PaymentMethodType_string (t : PaymentMethodType) : string :=
  match t with
  | card => "card" | bank_account => "bank_account" | ach => "ach"
  | sepa => "sepa" | digital_wallet => "digital_wallet" | crypto => "crypto"
  end.

Definition TransactionStatus_string (st : TransactionStatus) : string :=
  match st with
  | initialized => "initialized" | pending => "pending"
  | authorized => "authorized" | captured => "captured" | failed => "failed"
  | declined => "declined" | refunded => "refunded"
  | partially_refunded => "partially_refunded" | disputed => "disputed"
  | canceled => "canceled" | expired => "expired"
  end.

#[global] Instance PaymentMethodType_eq_dec : EqDecision PaymentMethodType.
Proof. solve_decision. Defined.

#[global] Instance TransactionStatus_eq_dec : EqDecision TransactionStatus.
Proof. solve_decision. Defined.

#[global] Instance RiskLevel_eq_dec : EqDecision RiskLevel.
Proof. solve_decision. Defined.

Definition PaymentMethodType_code (t : PaymentMethodType) : positive :=
  match t with
  | card => 1 | bank_account => 2 | ach => 3
  | sepa => 4 | digital_wallet => 5 | crypto => 6
  end%positive.

Definition PaymentMethodType_of_code (p : positive) : option PaymentMethodType :=
  match p with
  | 1 => Some card | 2 => Some bank_account | 3 => Some ach
  | 4 => Some sepa | 5 => Some digital_wallet | 6 => Some crypto
  | _ => None
  end%positive.

#[global] Program Instance PaymentMethodType_countable : Countable PaymentMethodType :=
  {| encode := PaymentMethodType_code; decode := PaymentMethodType_of_code |}.
Next Obligation. by intros []. Qed.

(** [Result<T>]: the envelope every operation returns. *)
Module Result.
Record t (T : Type) := mk {
  success : bool;
  data : option T;
  error : option JsValue;
  errorCode : option string;
  errorMessage : option string;
}.
Arguments mk {T}.
Arguments success {T}.
Arguments data {T}.
Arguments error {T}.
Arguments errorCode {T}.
Arguments errorMessage {T}.

(** [{ success: true, data }] *)
Definition ok {T} (d : T) : t T :=
  mk true (Some d) None None None.

(** [{ success: false, errorCode, errorMessage }] *)
Definition fail {T} (c m : string) : t T :=
  mk false None None (Some c) (Some m).

(** [{ success: false, error, errorCode: error.code, errorMessage: error.message }] *)
Definition of_error {T} (e : PaymentError) : t T :=
  mk false None (Some (JsPaymentError e)) (Some (code e)) (Some (message e)).

(** The same envelope with its payload seen at another type (a TypeScript
    cast: no field changes). *)
Definition cast {T U} (f : T -> U) (r : t T) : t U :=
  mk (success r) (f <$> data r) (error r) (errorCode r) (errorMessage r).
End Result.

Module PaymentMethod.
Record t := mk {
  id : string;
  type : PaymentMethodType;
  customerId : string;
  isDefault : bool;
  isValidated : bool;
}.
End PaymentMethod.

Module PaymentRequest.
Record t := mk {
  amount : float;
  currency : string;
  paymentMethodId : string;
  customerId : string;
  description : option string;
  authorizeOnly : option bool;
  idempotencyKey : option string;
}.

(** [{ ...request, authorizeOnly: true }] *)
Definition with_authorizeOnly (r : t) : t :=
  mk (amount r) (currency r) (paymentMethodId r) (customerId r)
     (description r) (Some true) (idempotencyKey r).
End PaymentRequest.

Module RiskFactor.
Record t := mk { name : string; description : string; impact : float }.
End RiskFactor.

Inductive RecommendationType := block | review | additional_verification | allow.

Module Recommendation.
Record t := mk { type : RecommendationType; description : string }.
End Recommendation.

Module RiskAssessment.
Record t := mk {
  score : float;
  level : RiskLevel;
  factors : list RiskFactor.t;
  recommendations : list Recommendation.t;
  triggeredRules : list string;
}.
End RiskAssessment.

Module TransactionEvent.
Record t := mk {
  type : string;
  timestamp : string;
  status : TransactionStatus;
}.
End TransactionEvent.

Module Transaction.
Record t := mk {
  id : string;
  createdAt : string;
  updatedAt : string;
  status : TransactionStatus;
  amount : float;
  originalAmount : float;
  currency : string;
  paymentMethodId : string;
  paymentMethodType : PaymentMethodType;
  customerId : string;
  isAuthorizedOnly : bool;
  riskAssessment : option RiskAssessment.t;
  timeline : list TransactionEvent.t;
}.
End Transaction.

(** What the [data] of a [Result<Transaction>] returned by [processPayment]
    can hold: a transaction, or the object
    [{ riskAssessment } as unknown as Transaction] of a high-risk rejection. *)
Inductive TransactionData :=
  | IsTransaction (tx : Transaction.t)
  | RiskOnly (riskAssessment : RiskAssessment.t).

Module Thresholds.
Record t := mk { highRisk : option float; mediumRisk : option float }.
End Thresholds.

Module FraudDetection.
Record t := mk {
  enabled : bool;
  thresholds : option Thresholds.t;
  highRiskCountries : option (list string);
  maxAmountWithoutVerification : option float;
}.
End FraudDetection.

Module ApiKeys.
Record t := mk {
  plaidClientId : option string;
  plaidSecret : option string;
  stripeKey : option string;
}.
End ApiKeys.

Module PaymentConfiguration.
Record t := mk {
  environment : Environment;
  defaultCurrency : string;
  apiKeys : ApiKeys.t;
  fraudDetection : option FraudDetection.t;
}.

(** [config.fraudDetection?.enabled] *)
Definition fraud_enabled (c : t) : bool :=
  match fraudDetection c with
  | Some fd => FraudDetection.enabled fd
  | None => false
  end.

(** [config.fraudDetection.thresholds?.highRisk] and [...?.mediumRisk] *)
Definition highRisk (c : t) : option float :=
  fd ← fraudDetection c; th ← FraudDetection.thresholds fd; Thresholds.highRisk th.

Definition mediumRisk (c : t) : option float :=
  fd ← fraudDetection c; th ← FraudDetection.thresholds fd; Thresholds.mediumRisk th.
End PaymentConfiguration.

(** ** Outcomes, collaborator calls and the call log *)

(** How a call ends: it returns, or it throws (an [async] call rejects). *)
Inductive Outcome (A : Type) :=
  | Returned (a : A)
  | Thrown (e : JsValue).
Arguments Returned {A}.
Arguments Thrown {A}.

(** A call into a collaborator, over the collaborators' own state [Ext]. *)
Definition Action (Ext A : Type) : Type := Ext -> Outcome A * Ext.

(** [PaymentProvider]: the interface a payment backend implements;
    [assessRisk] is optional. *)
Module PaymentProvider.
Record t (Ext : Type) := mk {
  id : string;
  processPayment : PaymentRequest.t -> Action Ext (Result.t Transaction.t);
  authorizePayment : PaymentRequest.t -> Action Ext (Result.t Transaction.t);
  capturePayment : string -> option float -> Action Ext (Result.t Transaction.t);
  cancelPayment : string -> Action Ext (Result.t Transaction.t);
  assessRisk : option (PaymentRequest.t -> Action Ext (Result.t RiskAssessment.t));
}.
Arguments mk {Ext}.
Arguments id {Ext}.
Arguments processPayment {Ext}.
Arguments authorizePayment {Ext}.
Arguments capturePayment {Ext}.
Arguments cancelPayment {Ext}.
Arguments assessRisk {Ext}.
End PaymentProvider.

Module ProviderRegistry.
(** Modelled from the spec: the provider registry, whose class is not among
    the sources, maps a payment-method type to the provider bound to it, one
    provider per type. [getProvider] returns the bound provider or nothing. *)
Definition getProvider {Ext} (registry : gmap PaymentMethodType (PaymentProvider.t Ext))
    (paymentMethodType : PaymentMethodType) : option (PaymentProvider.t Ext) :=
  registry !! paymentMethodType.

(** Modelled from the spec: [registerProvider] overwrites any binding the
    type already has (last write wins). *)
Definition registerProvider {Ext} (registry : gmap PaymentMethodType (PaymentProvider.t Ext))
    (paymentMethodType : PaymentMethodType) (provider : PaymentProvider.t Ext)
  : gmap PaymentMethodType (PaymentProvider.t Ext) :=
  <[paymentMethodType := provider]> registry.
End ProviderRegistry.

(** The provider classes [registerProviders] imports and instantiates. *)
Inductive AdapterClass :=
  | StripeCardAdapter | GenericCardProvider | PlaidBankAdapter | SEPAProvider.

(** The option object passed to an adapter's constructor. *)
Module AdapterOptions.
Record t := mk {
  apiKey : option string;
  clientId : option string;
  secret : option string;
  environment : Environment;
}.
End AdapterOptions.

(** The components [initialize] starts, in this order. *)
Inductive Component :=
  | TransactionManager | PaymentMethodManager | RecurringBillingManager
  | RefundProcessor | DisputeManager | FraudDetector.

(** One entry of the call log: a call the orchestrator made. Providers are
    named by their [id]. *)
Inductive Call :=
  | LoggerInfo (msg : string)
  | LoggerError (msg : string)
  | GetPaymentMethod (paymentMethodId : string)
  | FraudDetectorAssessRisk (request : PaymentRequest.t)
  | ProviderAssessRisk (provider : string) (request : PaymentRequest.t)
  | ProviderProcessPayment (provider : string) (request : PaymentRequest.t)
  | ProviderAuthorizePayment (provider : string) (request : PaymentRequest.t)
  | ProviderCapturePayment (provider : string) (transactionId : string) (amount : option float)
  | ProviderCancelPayment (provider : string) (transactionId : string)
  | GetTransaction (transactionId : string)
  | SaveTransaction (tx : Transaction.t)
  | UpdateTransaction (tx : Transaction.t)
  | NewAdapter (cls : AdapterClass) (options : AdapterOptions.t)
  | RegisterProvider (type : PaymentMethodType) (provider : string)
  | InitializeComponent (c : Component).

(** A call of any method of a payment provider. *)
Definition is_provider_call (c : Call) : bool :=
  match c with
  | ProviderAssessRisk _ _ | ProviderProcessPayment _ _
  | ProviderAuthorizePayment _ _ | ProviderCapturePayment _ _ _
  | ProviderCancelPayment _ _ => true
  | _ => false
  end.

(** A call of one of the provider verbs that move money. *)
Definition is_dispatch (c : Call) : bool :=
  match c with
  | ProviderProcessPayment _ _ | ProviderAuthorizePayment _ _
  | ProviderCapturePayment _ _ _ | ProviderCancelPayment _ _ => true
  | _ => false
  end.

(** A write to the transaction store. *)
Definition is_persist (c : Call) : bool :=
  match c with
  | SaveTransaction _ | UpdateTransaction _ => true
  | _ => false
  end.

(** A call that registers a provider or initializes a component. *)
Definition is_setup (c : Call) : bool :=
  match c with
  | NewAdapter _ _ | RegisterProvider _ _ | InitializeComponent _ => true
  | _ => false
  end.

(** ** The state of a [PaymentProcessor] *)

Module Processor.
Record t (Ext : Type) := mk {
  config : PaymentConfiguration.t;
  providerRegistry : gmap PaymentMethodType (PaymentProvider.t Ext);
  initialized : bool;
  ext : Ext;
  calls : list Call;
}.
Arguments mk {Ext}.
Arguments config {Ext}.
Arguments providerRegistry {Ext}.
Arguments initialized {Ext}.
Arguments ext {Ext}.
Arguments calls {Ext}.
End Processor.

(** A method of the processor. *)
Definition M (Ext A : Type) : Type := Processor.t Ext -> Outcome A * Processor.t Ext.

Section Monad.
Context {Ext : Type}.

Definition ret {A} (a : A) : M Ext A := fun s => (Returned a, s).

Definition throw {A} (e : JsValue) : M Ext A := fun s => (Thrown e, s).

Definition bind {A B} (m : M Ext A) (k : A -> M Ext B) : M Ext B :=
  fun s =>
    match m s with
    | (Returned a, s') => k a s'
    | (Thrown e, s') => (Thrown e, s')
    end.

(** [try { m } catch (error) { h(error) }] *)
Definition try_catch {A} (m : M Ext A) (h : JsValue -> M Ext A) : M Ext A :=
  fun s =>
    match m s with
    | (Returned a, s') => (Returned a, s')
    | (Thrown e, s') => h e s'
    end.

Definition get_config : M Ext PaymentConfiguration.t :=
  fun s => (Returned (Processor.config s), s).

(** Append an entry to the call log. *)
Definition record (c : Call) : M Ext unit :=
  fun s =>
    (Returned tt,
     Processor.mk (Processor.config s) (Processor.providerRegistry s)
       (Processor.initialized s) (Processor.ext s) (Processor.calls s ++ [c])).

(** Run a collaborator's action on the collaborators' state. *)
Definition perform {A} (a : Action Ext A) : M Ext A :=
  fun s =>
    let '(o, e') := a (Processor.ext s) in
    (o, Processor.mk (Processor.config s) (Processor.providerRegistry s)
          (Processor.initialized s) e' (Processor.calls s)).

(** Call a collaborator: log the call, then run it. *)
Definition call {A} (c : Call) (a : Action Ext A) : M Ext A :=
  bind (record c) (fun _ => perform a).

(** The state after the calls [cs] have been logged and the collaborators
    have moved to [e']. *)
Definition called (cs : list Call) (e' : Ext) (s : Processor.t Ext) : Processor.t Ext :=
  Processor.mk (Processor.config s) (Processor.providerRegistry s)
    (Processor.initialized s) e' (Processor.calls s ++ cs).
End Monad.

Notation "x <- m ;; k" := (bind m (fun x => k))
  (at level 100, m at next level, right associativity).
Notation "m ;;; k" := (bind m (fun _ => k))
  (at level 100, right associativity).

(** ** Collaborators *)

(** The collaborators of the processor whose code lies outside the
    orchestrator. [validatePaymentRequest] is a pure function that returns or
    throws; the others act on the collaborators' state. *)
Module Collaborators.
Record t (Ext : Type) := mk {
  validatePaymentRequest : PaymentRequest.t -> Outcome unit;
  getPaymentMethod : string -> Action Ext (Result.t PaymentMethod.t);
  fraudAssessRisk : PaymentRequest.t -> Action Ext (Result.t RiskAssessment.t);
  getTransaction : string -> Action Ext (Result.t Transaction.t);
  saveTransaction : Transaction.t -> Action Ext (Result.t Transaction.t);
  updateTransaction : Transaction.t -> Action Ext (Result.t Transaction.t);
  newAdapter : AdapterClass -> AdapterOptions.t -> Action Ext (PaymentProvider.t Ext);
  initializeComponent : Component -> Action Ext unit;
}.
Arguments mk {Ext}.
Arguments validatePaymentRequest {Ext}.
Arguments getPaymentMethod {Ext}.
Arguments fraudAssessRisk {Ext}.
Arguments getTransaction {Ext}.
Arguments saveTransaction {Ext}.
Arguments updateTransaction {Ext}.
Arguments newAdapter {Ext}.
Arguments initializeComponent {Ext}.
End Collaborators.

(** ** The orchestrator: [PaymentProcessor] *)

Section Orchestrator.
Context {Ext : Type} (co : Collaborators.t Ext).

Definition not_initialized_error : PaymentError :=
  new_PaymentError
    "Payment processor has not been initialized. Call initialize() first."
    no_options.

(** [ensureInitialized()] *)
Definition ensureInitialized : M Ext unit :=
  fun s =>
    if Processor.initialized s then ret tt s
    else throw (JsPaymentError not_initialized_error) s.

(** [getProviderForPaymentMethod(paymentMethodType)] *)
Definition getProviderForPaymentMethod (paymentMethodType : PaymentMethodType)
  : M Ext (option (PaymentProvider.t Ext)) :=
  fun s =>
    ret (ProviderRegistry.getProvider (Processor.providerRegistry s) paymentMethodType) s.

(** [this.providerRegistry.registerProvider(type, p)] *)
Definition registerProvider (type : PaymentMethodType) (p : PaymentProvider.t Ext)
  : M Ext unit :=
  fun s =>
    (Returned tt,
     Processor.mk (Processor.config s)
       (ProviderRegistry.registerProvider (Processor.providerRegistry s) type p)
       (Processor.initialized s) (Processor.ext s)
       (Processor.calls s ++ [RegisterProvider type (PaymentProvider.id p)])).

Definition set_initialized : M Ext unit :=
  fun s =>
    (Returned tt,
     Processor.mk (Processor.config s) (Processor.providerRegistry s) true
       (Processor.ext s) (Processor.calls s)).

(** The [catch] block shared by the public operations:
    [toPaymentError(error)], log, and a failure envelope. *)
Definition catch_to_envelope {T} (log : string) (error : JsValue)
  : M Ext (Result.t T) :=
  let paymentError := toPaymentError error default_unknown_message in
  record (LoggerError log) ;;;
  ret (Result.of_error paymentError).

(** The thresholds used when the configuration gives none: the doubles
    written [0.8] and [0.5]. *)
#[warnings="-inexact-float"]
Definition default_highRisk : float := 0.8%float.
Definition default_mediumRisk : float := 0.5%float.

(** The assessment returned when fraud detection is disabled. *)
Definition disabled_assessment : RiskAssessment.t :=
  RiskAssessment.mk 0%float low []
    [Recommendation.mk allow "Fraud detection disabled"] [].

(** The merge of the provider's assessment with the internal one. *)
Definition merge_assessments (config : PaymentConfiguration.t)
    (providerRisk ownRisk : RiskAssessment.t) : RiskAssessment.t :=
  let combinedScore :=
    Js.Math_max (RiskAssessment.score providerRisk) (RiskAssessment.score ownRisk) in
  let combinedLevel :=
    if Js.ge combinedScore (Js.nullish (PaymentConfiguration.highRisk config) default_highRisk)
    then high
    else if Js.ge combinedScore
              (Js.nullish (PaymentConfiguration.mediumRisk config) default_mediumRisk)
    then medium
    else low in
  RiskAssessment.mk combinedScore combinedLevel
    (RiskAssessment.factors providerRisk ++ RiskAssessment.factors ownRisk)
    (RiskAssessment.recommendations providerRisk
       ++ RiskAssessment.recommendations ownRisk)
    (RiskAssessment.triggeredRules providerRisk
       ++ RiskAssessment.triggeredRules ownRisk).

(** The provider branch of [assessRisk]: [Some r] when it returns the merged
    assessment, [None] when control falls through to the fallback. *)
Definition assessRisk_combined (request : PaymentRequest.t)
  : M Ext (option (Result.t RiskAssessment.t)) :=
  paymentMethod <-
    call (GetPaymentMethod (PaymentRequest.paymentMethodId request))
      (Collaborators.getPaymentMethod co (PaymentRequest.paymentMethodId request)) ;;
  match Result.success paymentMethod, Result.data paymentMethod with
  | true, Some method =>
      provider <- getProviderForPaymentMethod (PaymentMethod.type method) ;;
      match provider with
      | Some provider =>
          match PaymentProvider.assessRisk provider with
          | Some provider_assessRisk =>
              providerRiskResult <-
                call (ProviderAssessRisk (PaymentProvider.id provider) request)
                  (provider_assessRisk request) ;;
              match Result.success providerRiskResult, Result.data providerRiskResult with
              | true, Some providerRisk =>
                  ownRiskResult <-
                    call (FraudDetectorAssessRisk request)
                      (Collaborators.fraudAssessRisk co request) ;;
                  match Result.success ownRiskResult, Result.data ownRiskResult with
                  | true, Some ownRisk =>
                      config <- get_config ;;
                      ret (Some (Result.ok (merge_assessments config providerRisk ownRisk)))
                  | _, _ => ret None
                  end
              | _, _ => ret None
              end
          | None => ret None
          end
      | None => ret None
      end
  | _, _ => ret None
  end.

(** [assessRisk(request)] *)
Definition assessRisk (request : PaymentRequest.t) : M Ext (Result.t RiskAssessment.t) :=
  ensureInitialized ;;;
  config <- get_config ;;
  if negb (PaymentConfiguration.fraud_enabled config)
  then ret (Result.ok disabled_assessment)
  else
    try_catch
      (combined <- assessRisk_combined request ;;
       match combined with
       | Some r => ret r
       | None =>
           call (FraudDetectorAssessRisk request)
             (Collaborators.fraudAssessRisk co request)
       end)
      (catch_to_envelope "Failed to assess risk").

(** The fraud gate of [processPayment]: [Some r] when it returns [r] early. *)
Definition fraud_gate (request : PaymentRequest.t)
  : M Ext (option (Result.t TransactionData)) :=
  config <- get_config ;;
  if PaymentConfiguration.fraud_enabled config then
    riskAssessment <- assessRisk request ;;
    if negb (Result.success riskAssessment) then
      ret (Some (Result.fail "fraud_detection_error"
                   (Js.string_or (Result.errorMessage riskAssessment)
                      "Could not complete fraud assessment")))
    else
      match Result.data riskAssessment with
      | Some assessment =>
          if bool_decide (RiskAssessment.level assessment = high)
             && match PaymentConfiguration.highRisk config with
                | Some h => Js.number_truthy h
                | None => false
                end
          then
            ret (Some (Result.mk false (Some (RiskOnly assessment)) None
                         (Some "high_risk_payment")
                         (Some "Payment flagged as high risk")))
          else ret None
      | None => ret None
      end
  else ret None.

(** The provider call of [processPayment], chosen by [request.authorizeOnly]. *)
Definition dispatch (provider : PaymentProvider.t Ext) (request : PaymentRequest.t)
  : M Ext (Result.t Transaction.t) :=
  match PaymentRequest.authorizeOnly request with
  | Some true =>
      call (ProviderAuthorizePayment (PaymentProvider.id provider) request)
        (PaymentProvider.authorizePayment provider request)
  | _ =>
      call (ProviderProcessPayment (PaymentProvider.id provider) request)
        (PaymentProvider.processPayment provider request)
  end.

(** The call the dispatch makes, as the log records it. *)
Definition dispatch_call (provider : PaymentProvider.t Ext) (request : PaymentRequest.t)
  : Call :=
  match PaymentRequest.authorizeOnly request with
  | Some true => ProviderAuthorizePayment (PaymentProvider.id provider) request
  | _ => ProviderProcessPayment (PaymentProvider.id provider) request
  end.

(** [processPayment] from the point where the payment method is resolved
    and [paymentMethodType] is bound, to its [return]s. *)
Definition processPayment_resolved (request : PaymentRequest.t)
    (paymentMethodType : PaymentMethodType) : M Ext (Result.t TransactionData) :=
  rejected <- fraud_gate request ;;
  match rejected with
  | Some rejection => ret rejection
  | None =>
      provider <- getProviderForPaymentMethod paymentMethodType ;;
      match provider with
      | None =>
          ret (Result.fail "provider_not_found"
                 ("No provider available for payment method type: "
                    +:+ PaymentMethodType_string paymentMethodType))
      | Some provider =>
          result <- dispatch provider request ;;
          match Result.success result, Result.data result with
          | true, Some tx =>
              call (SaveTransaction tx) (Collaborators.saveTransaction co tx) ;;;
              ret (Result.cast IsTransaction result)
          | _, _ => ret (Result.cast IsTransaction result)
          end
      end
  end.

(** [processPayment(request)] *)
Definition processPayment (request : PaymentRequest.t)
  : M Ext (Result.t TransactionData) :=
  ensureInitialized ;;;
  record (LoggerInfo "Processing payment") ;;;
  try_catch
    ((fun s => (Collaborators.validatePaymentRequest co request, s)) ;;;
     paymentMethod <-
       call (GetPaymentMethod (PaymentRequest.paymentMethodId request))
         (Collaborators.getPaymentMethod co (PaymentRequest.paymentMethodId request)) ;;
     match Result.success paymentMethod, Result.data paymentMethod with
     | true, Some method =>
         let paymentMethodType := PaymentMethod.type method in
         processPayment_resolved request paymentMethodType
     | _, _ =>
         ret (Result.fail "payment_method_error"
                "Invalid payment method ID or payment method not found")
     end)
    (catch_to_envelope "Payment processing failed").

(** [authorizePayment(request)] *)
Definition authorizePayment (request : PaymentRequest.t)
  : M Ext (Result.t TransactionData) :=
  processPayment (PaymentRequest.with_authorizeOnly request).

(** [capturePayment(transactionId, amount)] *)
Definition capturePayment (transactionId : string) (amount : option float)
  : M Ext (Result.t Transaction.t) :=
  ensureInitialized ;;;
  record (LoggerInfo ("Capturing payment for transaction: " +:+ transactionId)) ;;;
  try_catch
    (transactionResult <-
       call (GetTransaction transactionId)
         (Collaborators.getTransaction co transactionId) ;;
     match Result.success transactionResult, Result.data transactionResult with
     | true, Some transaction =>
         if negb (bool_decide (Transaction.status transaction = authorized)) then
           ret (Result.fail "invalid_transaction_state"
                  ("Transaction with ID " +:+ transactionId
                     +:+ " cannot be captured (status: "
                     +:+ TransactionStatus_string (Transaction.status transaction)
                     +:+ ")"))
         else
           provider <-
             getProviderForPaymentMethod (Transaction.paymentMethodType transaction) ;;
           match provider with
           | None =>
               ret (Result.fail "provider_not_found"
                      ("No provider available for payment method type: "
                         +:+ PaymentMethodType_string
                               (Transaction.paymentMethodType transaction)))
           | Some provider =>
               result <-
                 call (ProviderCapturePayment (PaymentProvider.id provider)
                         transactionId amount)
                   (PaymentProvider.capturePayment provider transactionId amount) ;;
               match Result.success result, Result.data result with
               | true, Some tx =>
                   call (UpdateTransaction tx) (Collaborators.updateTransaction co tx) ;;;
                   ret result
               | _, _ => ret result
               end
           end
     | _, _ =>
         ret (Result.fail "transaction_not_found"
                ("Transaction with ID " +:+ transactionId +:+ " not found"))
     end)
    (catch_to_envelope
       ("Failed to capture payment for transaction: " +:+ transactionId)).

(** The guard of [cancelPayment]: the status is none of [initialized],
    [authorized], [pending]. *)
Definition not_cancelable (st : TransactionStatus) : bool :=
  negb (bool_decide (st = initialized))
  && negb (bool_decide (st = authorized))
  && negb (bool_decide (st = pending)).

(** [cancelPayment(transactionId)] *)
Definition cancelPayment (transactionId : string) : M Ext (Result.t Transaction.t) :=
  ensureInitialized ;;;
  record (LoggerInfo ("Canceling payment for transaction: " +:+ transactionId)) ;;;
  try_catch
    (transactionResult <-
       call (GetTransaction transactionId)
         (Collaborators.getTransaction co transactionId) ;;
     match Result.success transactionResult, Result.data transactionResult with
     | true, Some transaction =>
         if not_cancelable (Transaction.status transaction) then
           ret (Result.fail "invalid_transaction_state"
                  ("Transaction with ID " +:+ transactionId
                     +:+ " cannot be canceled (status: "
                     +:+ TransactionStatus_string (Transaction.status transaction)
                     +:+ ")"))
         else
           provider <-
             getProviderForPaymentMethod (Transaction.paymentMethodType transaction) ;;
           match provider with
           | None =>
               ret (Result.fail "provider_not_found"
                      ("No provider available for payment method type: "
                         +:+ PaymentMethodType_string
                               (Transaction.paymentMethodType transaction)))
           | Some provider =>
               result <-
                 call (ProviderCancelPayment (PaymentProvider.id provider) transactionId)
                   (PaymentProvider.cancelPayment provider transactionId) ;;
               match Result.success result, Result.data result with
               | true, Some tx =>
                   call (UpdateTransaction tx) (Collaborators.updateTransaction co tx) ;;;
                   ret result
               | _, _ => ret result
               end
           end
     | _, _ =>
         ret (Result.fail "transaction_not_found"
                ("Transaction with ID " +:+ transactionId +:+ " not found"))
     end)
    (catch_to_envelope
       ("Failed to cancel payment for transaction: " +:+ transactionId)).

(** [new C(options)] followed by [registerProvider(type, ...)]. *)
Definition register_new (type : PaymentMethodType) (cls : AdapterClass)
    (options : AdapterOptions.t) : M Ext unit :=
  p <- call (NewAdapter cls options) (Collaborators.newAdapter co cls options) ;;
  registerProvider type p.

Definition key_truthy (k : option string) : bool :=
  match k with Some s => Js.string_truthy s | None => false end.

(** [registerProviders()] *)
Definition registerProviders : M Ext unit :=
  config <- get_config ;;
  let keys := PaymentConfiguration.apiKeys config in
  let environment := PaymentConfiguration.environment config in
  (if key_truthy (ApiKeys.stripeKey keys) then
     register_new card StripeCardAdapter
       (AdapterOptions.mk (ApiKeys.stripeKey keys) None None environment)
   else
     register_new card GenericCardProvider
       (AdapterOptions.mk None None None environment)) ;;;
  (if key_truthy (ApiKeys.plaidClientId keys) && key_truthy (ApiKeys.plaidSecret keys) then
     register_new ach PlaidBankAdapter
       (AdapterOptions.mk None (ApiKeys.plaidClientId keys) (ApiKeys.plaidSecret keys)
          environment)
   else ret tt) ;;;
  (if key_truthy (ApiKeys.stripeKey keys) then
     register_new sepa SEPAProvider
       (AdapterOptions.mk (ApiKeys.stripeKey keys) None None environment)
   else ret tt).

Definition initialize_component (c : Component) : M Ext unit :=
  call (InitializeComponent c) (Collaborators.initializeComponent co c).

(** [initialize()] *)
Definition initialize : M Ext unit :=
  fun s =>
    if Processor.initialized s then ret tt s
    else
      (record (LoggerInfo "Initializing PaymentProcessor...") ;;;
       try_catch
         (registerProviders ;;;
          initialize_component TransactionManager ;;;
          initialize_component PaymentMethodManager ;;;
          initialize_component RecurringBillingManager ;;;
          initialize_component RefundProcessor ;;;
          initialize_component DisputeManager ;;;
          initialize_component FraudDetector ;;;
          set_initialized ;;;
          record (LoggerInfo "PaymentProcessor initialized successfully"))
         (fun error =>
            record (LoggerError "Failed to initialize PaymentProcessor") ;;;
            throw (JsPaymentError
                     (toPaymentError error "Failed to initialize PaymentProcessor"))))
        s.

(** [n] calls of a method in a row, stopping at the first that throws. *)
Fixpoint repeat_call (m : M Ext unit) (n : nat) : M Ext unit :=
  match n with
  | O => ret tt
  | S n' => m ;;; repeat_call m n'
  end.
End Orchestrator.

(** ** A sample deployment

    An in-memory instance of the collaborators, on which the orchestrator can
    be run: payment methods and transactions are kept in finite maps read by
    id (the lookup-and-save persistence interface), the internal fraud
    detector answers with a fixed envelope, and the transaction store can be
    taken offline, in which case a write throws. *)
Module Demo.
Record World := mkWorld {
  transactions : gmap string Transaction.t;
  paymentMethods : gmap string PaymentMethod.t;
  internalRisk : Result.t RiskAssessment.t;
  storeOnline : bool;
}.

Definition lookup_result {T} (what : string) (found : option T) : Result.t T :=
  match found with
  | Some x => Result.ok x
  | None => Result.fail "not_found_error" (what +:+ " not found")
  end.

Definition write (tx : Transaction.t) : Action World (Result.t Transaction.t) :=
  fun w =>
    if storeOnline w then
      (Returned (Result.ok tx),
       mkWorld (<[Transaction.id tx := tx]> (transactions w)) (paymentMethods w)
         (internalRisk w) (storeOnline w))
    else (Thrown (JsError "Error" "transaction store unavailable"), w).

Definition transaction_for (request : PaymentRequest.t) (st : TransactionStatus)
  : Transaction.t :=
  Transaction.mk "tx_new" "2024-01-01T00:00:00Z" "2024-01-01T00:00:00Z" st
    (PaymentRequest.amount request) (PaymentRequest.amount request)
    (PaymentRequest.currency request) (PaymentRequest.paymentMethodId request) card
    (PaymentRequest.customerId request) (bool_decide (st = authorized)) None
    [TransactionEvent.mk "created" "2024-01-01T00:00:00Z" st].

Definition with_status (tx : Transaction.t) (st : TransactionStatus) : Transaction.t :=
  Transaction.mk (Transaction.id tx) (Transaction.createdAt tx)
    "2024-01-02T00:00:00Z" st (Transaction.amount tx) (Transaction.originalAmount tx)
    (Transaction.currency tx) (Transaction.paymentMethodId tx)
    (Transaction.paymentMethodType tx) (Transaction.customerId tx)
    (Transaction.isAuthorizedOnly tx) (Transaction.riskAssessment tx)
    (Transaction.timeline tx
       ++ [TransactionEvent.mk "status_change" "2024-01-02T00:00:00Z" st]).

(** A provider that accepts every request; [risk], when given, is what its
    own risk assessment answers. *)
Definition provider (id : string) (risk : option (Result.t RiskAssessment.t))
  : PaymentProvider.t World :=
  PaymentProvider.mk id
    (fun request w => (Returned (Result.ok (transaction_for request captured)), w))
    (fun request w => (Returned (Result.ok (transaction_for request authorized)), w))
    (fun transactionId _ w =>
       (Returned
          (lookup_result "Transaction"
             ((fun tx => with_status tx captured) <$> transactions w !! transactionId)),
        w))
    (fun transactionId w =>
       (Returned
          (lookup_result "Transaction"
             ((fun tx => with_status tx canceled) <$> transactions w !! transactionId)),
        w))
    ((fun r => fun (_ : PaymentRequest.t) (w : World) => (Returned r, w)) <$> risk).

Definition adapter_name (cls : AdapterClass) : string :=
  match cls with
  | StripeCardAdapter => "stripe-card"
  | GenericCardProvider => "generic-card"
  | PlaidBankAdapter => "plaid-bank"
  | SEPAProvider => "sepa"
  end.

Definition co : Collaborators.t World :=
  Collaborators.mk
    (fun request =>
       if PrimFloat.ltb 0%float (PaymentRequest.amount request) then Returned tt
       else Thrown (JsPaymentError
                      (new_ValidationError "Amount must be positive" None None)))
    (fun id w => (Returned (lookup_result "Payment method" (paymentMethods w !! id)), w))
    (fun _ w => (Returned (internalRisk w), w))
    (fun id w => (Returned (lookup_result "Transaction" (transactions w !! id)), w))
    write
    write
    (fun cls _ w => (Returned (provider (adapter_name cls) None), w))
    (fun _ w => (Returned tt, w)).

Definition pm_1 : PaymentMethod.t := PaymentMethod.mk "pm_1" card "cust_1" true true.
Definition pm_2 : PaymentMethod.t := PaymentMethod.mk "pm_2" crypto "cust_1" false true.

Definition request : PaymentRequest.t :=
  PaymentRequest.mk 1999%float "USD" "pm_1" "cust_1" None None None.

Definition request_crypto : PaymentRequest.t :=
  PaymentRequest.mk 1999%float "USD" "pm_2" "cust_1" None None None.

Definition tx_1 : Transaction.t :=
  with_status (transaction_for request authorized) captured.

#[warnings="-inexact-float"]
Definition risk (score : float) (lvl : RiskLevel) (rule : string) : RiskAssessment.t :=
  RiskAssessment.mk score lvl
    [RiskFactor.mk rule "sample factor" 0.1%float]
    [Recommendation.mk review rule] [rule].

#[warnings="-inexact-float"]
Definition provider_risk : RiskAssessment.t := risk 0.3%float low "provider_velocity".

#[warnings="-inexact-float"]
Definition internal_risk : RiskAssessment.t := risk 0.9%float high "internal_geo".

Definition world (internal : Result.t RiskAssessment.t) (online : bool) : World :=
  mkWorld {[ "tx_1" := tx_1 ]} {[ "pm_1" := pm_1; "pm_2" := pm_2 ]} internal online.

Definition config (fraud : option FraudDetection.t) : PaymentConfiguration.t :=
  PaymentConfiguration.mk sandbox "USD" (ApiKeys.mk None None None) fraud.

Definition fraud_on (highRisk mediumRisk : option float) : option FraudDetection.t :=
  Some (FraudDetection.mk true (Some (Thresholds.mk highRisk mediumRisk)) None None).

(** A processor that has been initialized, with one provider bound to
    [card]. *)
Definition ready (fraud : option FraudDetection.t)
    (providerRisk : option (Result.t RiskAssessment.t)) (w : World)
  : Processor.t World :=
  Processor.mk (config fraud) {[ card := provider "generic-card" providerRisk ]}
    true w [].

(** A processor as its constructor leaves it. *)
Definition fresh (fraud : option FraudDetection.t) (w : World) : Processor.t World :=
  Processor.mk (config fraud) ∅ false w [].

(** Fraud detection disabled, store online. *)
Definition plain : Processor.t World :=
  ready None None (world (Result.ok internal_risk) true).

(** Fraud detection disabled, store offline. *)
Definition offline : Processor.t World :=
  ready None None (world (Result.ok internal_risk) false).

(** Fraud detection enabled with no threshold given; the provider and the
    internal detector both assess. *)
Definition assessing : Processor.t World :=
  ready (fraud_on None None) (Some (Result.ok provider_risk))
    (world (Result.ok internal_risk) true).

(** As [assessing], with thresholds [{ highRisk: 0, mediumRisk: 0.5 }]. *)
Definition zero_threshold : Processor.t World :=
  ready (fraud_on (Some 0%float) (Some 0.5%float)) (Some (Result.ok provider_risk))
    (world (Result.ok internal_risk) true).

(** Fraud detection enabled; the internal detector is down and the provider
    has no risk assessment. *)
#[warnings="-inexact-float"]
Definition detector_down : Processor.t World :=
  ready (fraud_on (Some 0.8%float) (Some 0.5%float)) None
    (world (Result.fail "fraud_unavailable" "Fraud service unavailable") true).

(** The processor [fresh None] after [initialize]. *)
Definition initialized_plain : Processor.t World :=
  Processor.mk (config None) {[ card := provider "generic-card" None ]} true
    (world (Result.ok internal_risk) true)
    [LoggerInfo "Initializing PaymentProcessor...";
     NewAdapter GenericCardProvider (AdapterOptions.mk None None None sandbox);
     RegisterProvider card "generic-card";
     InitializeComponent TransactionManager;
     InitializeComponent PaymentMethodManager;
     InitializeComponent RecurringBillingManager;
     InitializeComponent RefundProcessor;
     InitializeComponent DisputeManager;
     InitializeComponent FraudDetector;
     LoggerInfo "PaymentProcessor initialized successfully"].
End Demo.

(** ** What a run may touch *)

(** Neither a money-moving provider call nor a write to the store. *)
Definition is_quiet (c : Call) : bool := negb (is_dispatch c) && negb (is_persist c).

(** The calls [assessRisk] can make. *)
Definition is_risk_call (c : Call) : bool :=
  match c with
  | GetPaymentMethod _ | ProviderAssessRisk _ _ | FraudDetectorAssessRisk _
  | LoggerError _ => true
  | _ => false
  end.

(** [s'] differs from [s] at most in the collaborators' state and in calls
    added to the log, all of which satisfy [P]. *)
Definition only_calls {Ext} (P : Call -> bool) (s s' : Processor.t Ext) : Prop :=
  Processor.config s' = Processor.config s
  /\ Processor.providerRegistry s' = Processor.providerRegistry s
  /\ Processor.initialized s' = Processor.initialized s
  /\ exists cs : list Call,
       Processor.calls s' = Processor.calls s ++ cs /\ forallb P cs = true.

(** Every run of [m] makes only calls that satisfy [P]. *)
Definition framed {Ext A} (P : Call -> bool) (m : M Ext A) : Prop :=
  forall s o s', m s = (o, s') -> only_calls P s s'.

(** No method of a provider is called. *)
Definition no_provider_call (c : Call) : bool := negb (is_provider_call c).

(** Every lookup of the payment method [id] that finds one finds a type to
    which the registry of [s] binds no provider. *)
Definition resolves_unbound {Ext} (co : Collaborators.t Ext) (id : string)
    (s : Processor.t Ext) : Prop :=
  forall (e e' : Ext) (r : Result.t PaymentMethod.t) (m : PaymentMethod.t),
    Collaborators.getPaymentMethod co id e = (Returned r, e') ->
    Result.data r = Some m ->
    Processor.providerRegistry s !! PaymentMethod.type m = None.

(** ** More of the processor: lookup, construction *)

Section OrchestratorMore.
Context {Ext : Type} (co : Collaborators.t Ext).

(** [getTransaction(transactionId)] *)
Definition getTransaction (transactionId : string) : M Ext (Result.t Transaction.t) :=
  ensureInitialized ;;;
  record (LoggerInfo ("Retrieving transaction: " +:+ transactionId)) ;;;
  try_catch
    (call (GetTransaction transactionId)
       (Collaborators.getTransaction co transactionId))
    (catch_to_envelope ("Failed to retrieve transaction: " +:+ transactionId)).
End OrchestratorMore.

(** Not a call of a provider's [processPayment]. *)
Definition not_process_call (c : Call) : bool :=
  match c with ProviderProcessPayment _ _ => false | _ => true end.

(** Not a call of a provider's [authorizePayment]. *)
Definition not_authorize_call (c : Call) : bool :=
  match c with ProviderAuthorizePayment _ _ => false | _ => true end.

(** The error [ensureInitialized] throws, field by field. *)
Definition not_initialized_thrown : JsValue :=
  JsPaymentError
    (mkPaymentError "PaymentError"
       "Payment processor has not been initialized. Call initialize() first."
       "payment_error" 500%float false None None).

(** A call that builds an adapter or binds it in the registry. *)
Definition is_registration (c : Call) : bool :=
  match c with
  | NewAdapter _ _ | RegisterProvider _ _ => true
  | _ => false
  end.

(** Every run of [m] leaves the configuration and the [initialized] flag as
    they are and adds to the log only calls that satisfy [P]; the registry
    may change. *)
Definition logs_only {Ext A} (P : Call -> bool) (m : M Ext A) : Prop :=
  forall s o s',
    m s = (o, s') ->
    Processor.config s' = Processor.config s
    /\ Processor.initialized s' = Processor.initialized s
    /\ exists cs : list Call,
         Processor.calls s' = Processor.calls s ++ cs /\ forallb P cs = true.

(** The steps of [initialize] after the registration of providers. *)
Definition after_registration : list Call :=
  [InitializeComponent TransactionManager;
   InitializeComponent PaymentMethodManager;
   InitializeComponent RecurringBillingManager;
   InitializeComponent RefundProcessor;
   InitializeComponent DisputeManager;
   InitializeComponent FraudDetector;
   LoggerInfo "PaymentProcessor initialized successfully"].
(** The [logging] settings of a configuration. *)
Module Logging.
Inductive Level := debug | info | warn | error.
Record t := mk { level : Level; redactSensitiveData : bool }.
End Logging.

(** The object handed to the constructor. Its type asks for [environment],
    [defaultCurrency] and [apiKeys], but [validateConfig] tests at run time
    that they are there: here each may be missing. *)
Module RawConfiguration.
Record t := mk {
  environment : option Environment;
  defaultCurrency : option string;
  apiKeys : option ApiKeys.t;
  fraudDetection : option FraudDetection.t;
  logging : option Logging.t;
}.
End RawConfiguration.

Definition default_logging : Logging.t := Logging.mk Logging.info true.

Definition default_thresholds : Thresholds.t :=
  Thresholds.mk (Some default_highRisk) (Some default_mediumRisk).

(** [fraudDetection] after [validateConfig]: thresholds are filled in when
    detection is enabled and none is given. *)
Definition with_default_thresholds (fd : option FraudDetection.t)
  : option FraudDetection.t :=
  match fd with
  | Some f =>
      if FraudDetection.enabled f
         && match FraudDetection.thresholds f with None => true | Some _ => false end
      then
        Some (FraudDetection.mk (FraudDetection.enabled f) (Some default_thresholds)
                (FraudDetection.highRiskCountries f)
                (FraudDetection.maxAmountWithoutVerification f))
      else Some f
  | None => None
  end.

Definition throw_ConfigurationError {A} (message : string) : Outcome A :=
  Thrown (JsPaymentError (new_ConfigurationError message None)).

(** [validateConfig(config)]. The validated configuration is returned with
    the [logging] settings it ends up with, which [PaymentConfiguration.t]
    leaves out. *)
Definition validateConfig (config : option RawConfiguration.t)
  : Outcome (PaymentConfiguration.t * Logging.t) :=
  match config with
  | None => throw_ConfigurationError "Payment configuration is required"
  | Some config =>
      match RawConfiguration.environment config with
      | None =>
          throw_ConfigurationError "Environment is required in payment configuration"
      | Some environment =>
          match RawConfiguration.defaultCurrency config with
          | Some defaultCurrency =>
              if Js.string_truthy defaultCurrency then
                match RawConfiguration.apiKeys config with
                | None =>
                    throw_ConfigurationError
                      "API keys are required in payment configuration"
                | Some apiKeys =>
                    Returned
                      (PaymentConfiguration.mk environment defaultCurrency apiKeys
                         (with_default_thresholds (RawConfiguration.fraudDetection config)),
                       match RawConfiguration.logging config with
                       | Some logging => logging
                       | None => default_logging
                       end)
                end
              else
                throw_ConfigurationError
                  "Default currency is required in payment configuration"
          | None =>
              throw_ConfigurationError
                "Default currency is required in payment configuration"
          end
      end
  end.

(** A validated configuration, seen again as a constructor argument. *)
Definition raw_of (c : PaymentConfiguration.t) (logging : Logging.t)
  : RawConfiguration.t :=
  RawConfiguration.mk (Some (PaymentConfiguration.environment c))
    (Some (PaymentConfiguration.defaultCurrency c))
    (Some (PaymentConfiguration.apiKeys c))
    (PaymentConfiguration.fraudDetection c) (Some logging).

(** [new PaymentProcessor(config)]: validate, build the collaborators (their
    constructors, which are not the orchestrator's code, leave them in the
    state [ext0]), log one line. The registry is empty and the processor is
    not initialized. *)
Definition new_PaymentProcessor {Ext} (config : option RawConfiguration.t) (ext0 : Ext)
  : Outcome (Processor.t Ext) :=
  match validateConfig config with
  | Returned (config, _) =>
      Returned (Processor.mk config ∅ false ext0
                  [LoggerInfo "PaymentProcessor instance created"])
  | Thrown e => Thrown e
  end.

(** [createPaymentProcessor(config)] *)
Definition createPaymentProcessor {Ext} (config : option RawConfiguration.t) (ext0 : Ext)
  : Outcome (Processor.t Ext) :=
  new_PaymentProcessor config ext0.

(** ** More sample deployments *)

Module Scenarios.
Import Demo.

(** An authorized card transaction, an authorized transaction paid by a
    method type no provider serves, and a pending one. *)
Definition tx_auth : Transaction.t :=
  Transaction.mk "tx_auth" "2024-01-01T00:00:00Z" "2024-01-01T00:00:00Z" authorized
    1999%float 1999%float "USD" "pm_1" card "cust_1" true None
    [TransactionEvent.mk "created" "2024-01-01T00:00:00Z" authorized].

Definition tx_crypto : Transaction.t :=
  Transaction.mk "tx_crypto" "2024-01-01T00:00:00Z" "2024-01-01T00:00:00Z" authorized
    500%float 500%float "USD" "pm_2" crypto "cust_1" true None
    [TransactionEvent.mk "created" "2024-01-01T00:00:00Z" authorized].

Definition tx_pending : Transaction.t :=
  Transaction.mk "tx_pending" "2024-01-01T00:00:00Z" "2024-01-01T00:00:00Z" pending
    700%float 700%float "USD" "pm_1" card "cust_1" false None
    [TransactionEvent.mk "created" "2024-01-01T00:00:00Z" pending].

Definition ledger (online : bool) : World :=
  mkWorld {[ "tx_auth" := tx_auth; "tx_crypto" := tx_crypto; "tx_pending" := tx_pending ]}
    {[ "pm_1" := pm_1; "pm_2" := pm_2 ]} (Result.ok internal_risk) online.

(** An initialized processor over [ledger], fraud detection off. *)
Definition with_ledger (online : bool) : Processor.t World :=
  ready None None (ledger online).

Definition request_zero : PaymentRequest.t :=
  PaymentRequest.mk 0%float "USD" "pm_1" "cust_1" None None None.

Definition request_unknown_method : PaymentRequest.t :=
  PaymentRequest.mk 1999%float "USD" "pm_x" "cust_1" None None None.

Definition declined : JsValue :=
  JsPaymentError (new_PaymentDeclinedError "Card declined" no_options).

(** A provider every method of which throws [declined]. *)
Definition failing_provider : PaymentProvider.t World :=
  PaymentProvider.mk "failing-card"
    (fun _ w => (Thrown declined, w))
    (fun _ w => (Thrown declined, w))
    (fun _ _ w => (Thrown declined, w))
    (fun _ w => (Thrown declined, w))
    (Some (fun _ w => (Thrown declined, w))).

#[warnings="-inexact-float"]
Definition fraud_default : option FraudDetection.t :=
  fraud_on (Some 0.8%float) (Some 0.5%float).

(** Fraud detection on, [card] served by [failing_provider]. *)
Definition with_failing_provider : Processor.t World :=
  Processor.mk (config fraud_default) {[ card := failing_provider ]} true
    (world (Result.ok internal_risk) true) [].

(** Fraud detection off, [card] served by [failing_provider]. *)
Definition with_failing_provider_plain : Processor.t World :=
  Processor.mk (config None) {[ card := failing_provider ]} true (ledger true) [].

(** Fraud detection on; the provider's own assessment comes back failed. *)
Definition provider_assessment_failed : Processor.t World :=
  ready fraud_default (Some (Result.fail "risk_unavailable" "No score"))
    (world (Result.ok internal_risk) true).

(** Fraud detection on; the provider assesses, the internal detector fails. *)
Definition internal_assessment_failed : Processor.t World :=
  ready fraud_default (Some (Result.ok provider_risk))
    (world (Result.fail "fraud_unavailable" "Fraud service unavailable") true).

(** Fraud detection on; the provider has no assessment of its own. *)
Definition internal_only : Processor.t World :=
  ready fraud_default None (world (Result.ok internal_risk) true).




(** A constructor argument with fraud detection enabled and no thresholds. *)
Definition raw_enabled : RawConfiguration.t :=
  RawConfiguration.mk (Some sandbox) (Some "USD") (Some (ApiKeys.mk None None None))
    (Some (FraudDetection.mk true None None None)) None.
End Scenarios.

(** * Properties *)

(** ** Comparison and [Math.max] on doubles *)

Section NumberFacts.
Local Open Scope float_scope.

Lemma SFcompare_antisym x y :
  SFcompare y x = option_map CompOpp (SFcompare x y).
Proof.
  destruct x as [[]|[]| |[] m e], y as [[]|[]| |[] m' e']; simpl; try reflexivity;
    change (Pos.compare_cont Eq m' m) with (Pos.compare m' m);
    change (Pos.compare_cont Eq m m') with (Pos.compare m m');
    rewrite (Z.compare_antisym e e'), (Pos.compare_antisym m m');
    destruct (e ?= e')%Z, (m ?= m')%positive; reflexivity.
Qed.

Lemma SFcompare_refl x : x <> S754_nan -> SFcompare x x = Some Eq.
Proof.
  destruct x as [[]|[]| |[] m e]; simpl; try congruence; intros _;
    change (Pos.compare_cont Eq m m) with (Pos.compare m m);
    rewrite Z.compare_refl, Pos.compare_refl; reflexivity.
Qed.

Lemma is_nan_false x : is_nan x = false <-> Prim2SF x <> S754_nan.
Proof.
  unfold is_nan. rewrite FloatAxioms.eqb_spec. unfold SFeqb. split.
  - intros H E. rewrite E in H. discriminate.
  - intros H. rewrite SFcompare_refl by assumption. reflexivity.
Qed.

Lemma leb_refl x : is_nan x = false -> (x <=? x) = true.
Proof.
  intros H%is_nan_false. rewrite leb_spec. unfold SFleb.
  rewrite SFcompare_refl by assumption. reflexivity.
Qed.

Lemma ltb_leb x y : (x <? y) = true -> (x <=? y) = true.
Proof.
  rewrite ltb_spec, leb_spec. unfold SFltb, SFleb.
  destruct (SFcompare _ _) as [[]|]; congruence.
Qed.

Lemma not_ltb_leb x y :
  is_nan x = false -> is_nan y = false -> (x <? y) = false -> (y <=? x) = true.
Proof.
  intros Hx%is_nan_false Hy%is_nan_false.
  rewrite ltb_spec, leb_spec. unfold SFltb, SFleb.
  rewrite (SFcompare_antisym (Prim2SF x) (Prim2SF y)).
  destruct (Prim2SF x) as [[]|[]| |[] m e], (Prim2SF y) as [[]|[]| |[] m' e'];
    try congruence; simpl; try reflexivity; try discriminate;
    destruct (e ?= e')%Z, (Pos.compare_cont Eq m m'); simpl; congruence.
Qed.

Lemma is_pzero_eq n : Js.is_pzero n = true -> n = 0.
Proof.
  unfold Js.is_pzero. rewrite classify_spec. intros H.
  apply Prim2SF_inj. change (Prim2SF 0) with (S754_zero false).
  unfold SF64classify, SFclassify in H.
  destruct (Prim2SF n) as [[]|[]| |[] m e]; try discriminate; try reflexivity;
    destruct (Z.eqb _ _); discriminate.
Qed.

Lemma is_nzero_eq n : Js.is_nzero n = true -> n = (-0).
Proof.
  unfold Js.is_nzero. rewrite classify_spec. intros H.
  apply Prim2SF_inj. change (Prim2SF (-0)) with (S754_zero true).
  unfold SF64classify, SFclassify in H.
  destruct (Prim2SF n) as [[]|[]| |[] m e]; try discriminate; try reflexivity;
    destruct (Z.eqb _ _); discriminate.
Qed.

Lemma first_highest a :
  is_nan a = false -> (if neg_infinity <? a then a else neg_infinity) = a.
Proof.
  intros Ha%is_nan_false. destruct (neg_infinity <? a) eqn:E; [reflexivity|].
  rewrite ltb_spec in E. change (Prim2SF neg_infinity) with (S754_infinity true) in E.
  symmetry. apply Prim2SF_inj.
  change (Prim2SF neg_infinity) with (S754_infinity true).
  destruct (Prim2SF a) as [[]|[]| |[] m e]; try discriminate; congruence.
Qed.

(** [Math.max] of two numbers, without the fold. *)
Lemma Math_max_unfold a b :
  is_nan a = false -> is_nan b = false ->
  Js.Math_max a b =
    if Js.is_pzero b && Js.is_nzero a then 0
    else if a <? b then b else a.
Proof.
  intros Ha Hb. unfold Js.Math_max, Js.Math_max_from. rewrite Ha, Hb.
  change (Js.is_nzero neg_infinity) with false. rewrite andb_false_r.
  rewrite (first_highest a Ha).
  destruct (Js.is_pzero b && Js.is_nzero a) eqn:Z; [|reflexivity].
  apply andb_prop in Z as [->%is_pzero_eq _]. reflexivity.
Qed.

Lemma Math_max_nan a b :
  is_nan a = true \/ is_nan b = true -> is_nan (Js.Math_max a b) = true.
Proof.
  unfold Js.Math_max, Js.Math_max_from.
  destruct (is_nan a) eqn:Ha; [reflexivity|].
  destruct (is_nan b) eqn:Hb; [reflexivity|]. intros [|]; discriminate.
Qed.

(** [Math.max] returns one of its arguments. *)
Lemma Math_max_cases a b :
  is_nan a = false -> is_nan b = false ->
  Js.Math_max a b = a \/ Js.Math_max a b = b.
Proof.
  intros Ha Hb. rewrite Math_max_unfold by assumption.
  destruct (Js.is_pzero b && Js.is_nzero a) eqn:Z.
  - apply andb_prop in Z as [->%is_pzero_eq _]. now right.
  - destruct (a <? b); auto.
Qed.

(** [Math.max] is at least each argument. *)
Lemma Math_max_ge a b :
  is_nan a = false -> is_nan b = false ->
  Js.ge (Js.Math_max a b) a = true /\ Js.ge (Js.Math_max a b) b = true.
Proof.
  intros Ha Hb. rewrite Math_max_unfold by assumption. unfold Js.ge.
  destruct (Js.is_pzero b && Js.is_nzero a) eqn:Z.
  - apply andb_prop in Z as [->%is_pzero_eq ->%is_nzero_eq]. split; reflexivity.
  - destruct (a <? b) eqn:L.
    + split; [apply ltb_leb, L | apply leb_refl, Hb].
    + split; [apply leb_refl, Ha | now apply not_ltb_leb].
Qed.
End NumberFacts.

(** ** The provider registry *)

Lemma getProvider_registerProvider {Ext}
    (registry : gmap PaymentMethodType (PaymentProvider.t Ext)) type type' provider :
  ProviderRegistry.getProvider (ProviderRegistry.registerProvider registry type provider)
    type'
  = if decide (type = type') then Some provider
    else ProviderRegistry.getProvider registry type'.
Proof.
  unfold ProviderRegistry.getProvider, ProviderRegistry.registerProvider.
  apply lookup_insert.
Qed.

(** ** Error normalization *)

(** C6. [toPaymentError] is total and idempotent: every value, [Error] or
    not, is turned into an instance of [PaymentError]; converting the result
    again, with any default message, gives the same error; and a value that
    already is a [PaymentError] is returned as it is, so its [code],
    [statusCode] and [retryable] are unchanged. *)
Theorem toPaymentError_total_idempotent :
  forall (error : JsValue) (defaultMessage defaultMessage' : string),
    instanceof_PaymentError (JsPaymentError (toPaymentError error defaultMessage)) = true
    /\ toPaymentError (JsPaymentError (toPaymentError error defaultMessage)) defaultMessage'
       = toPaymentError error defaultMessage
    /\ (forall e : PaymentError,
          toPaymentError (JsPaymentError e) defaultMessage = e
          /\ code (toPaymentError (JsPaymentError e) defaultMessage) = code e
          /\ statusCode (toPaymentError (JsPaymentError e) defaultMessage) = statusCode e
          /\ retryable (toPaymentError (JsPaymentError e) defaultMessage) = retryable e).
Proof.
  intros error d d'. split; [reflexivity|]. split; [reflexivity|].
  intros e. simpl. auto.
Qed.

(** X27. What [toPaymentError] builds from a value that is not a [PaymentError]:
    the generic error, with the original message kept. *)
Lemma toPaymentError_generic error d :
  instanceof_PaymentError error = false ->
  name (toPaymentError error d) = "PaymentError"
  /\ code (toPaymentError error d) = "payment_error"
  /\ statusCode (toPaymentError error d) = 500%float
  /\ retryable (toPaymentError error d) = false
  /\ (forall n m, error = JsError n m -> m <> "" ->
        message (toPaymentError error d) = m
        /\ cause (toPaymentError error d) = Some error)
  /\ (forall m, error = JsString m -> message (toPaymentError error d) = m).
Proof.
  destruct error as [| |?|?|?|?|? ?|?]; simpl; try discriminate; intros _;
    do 4 (split; [reflexivity|]); (split; [intros en m E Hm | intros m E]);
    simplify_eq; try reflexivity.
  destruct m; [congruence | split; reflexivity].
Qed.

(** ** Running the orchestrator *)

Section Run.
Context {Ext : Type}.
Implicit Types s : Processor.t Ext.

Lemma bind_returned {A B} (m : M Ext A) (k : A -> M Ext B) s a s1 :
  m s = (Returned a, s1) -> bind m k s = k a s1.
Proof. unfold bind. now intros ->. Qed.

Lemma bind_thrown {A B} (m : M Ext A) (k : A -> M Ext B) s e s1 :
  m s = (Thrown e, s1) -> bind m k s = (Thrown e, s1).
Proof. unfold bind. now intros ->. Qed.

Lemma bind_returned_inv {A B} (m : M Ext A) (k : A -> M Ext B) s b s' :
  bind m k s = (Returned b, s') ->
  exists a s1, m s = (Returned a, s1) /\ k a s1 = (Returned b, s').
Proof.
  unfold bind. destruct (m s) as [[a|e] s1]; [eauto | discriminate].
Qed.

Lemma try_returned {A} (m : M Ext A) h s a s1 :
  m s = (Returned a, s1) -> try_catch m h s = (Returned a, s1).
Proof. unfold try_catch. now intros ->. Qed.

Lemma try_thrown {A} (m : M Ext A) h s e s1 :
  m s = (Thrown e, s1) -> try_catch m h s = h e s1.
Proof. unfold try_catch. now intros ->. Qed.

Lemma call_run {A} (c : Call) (a : Action Ext A) s o e' :
  a (Processor.ext s) = (o, e') -> call c a s = (o, called [c] e' s).
Proof. unfold call, bind, record, perform. simpl. now intros ->. Qed.

Lemma ensureInitialized_run s :
  Processor.initialized s = true -> ensureInitialized s = (Returned tt, s).
Proof. unfold ensureInitialized. now intros ->. Qed.
End Run.

Section Frames.
Context {Ext : Type} (P : Call -> bool).
Implicit Types s : Processor.t Ext.

Lemma only_calls_refl s : only_calls P s s.
Proof.
  repeat split. exists []. split; [now rewrite app_nil_r | reflexivity].
Qed.

Lemma only_calls_trans s1 s2 s3 :
  only_calls P s1 s2 -> only_calls P s2 s3 -> only_calls P s1 s3.
Proof.
  intros (C1 & R1 & I1 & cs1 & L1 & F1) (C2 & R2 & I2 & cs2 & L2 & F2).
  repeat split; try congruence.
  exists (cs1 ++ cs2). split.
  - rewrite L2, L1. now rewrite app_assoc.
  - rewrite forallb_app, F1, F2. reflexivity.
Qed.

Lemma only_calls_called cs (e' : Ext) s :
  forallb P cs = true -> only_calls P s (called cs e' s).
Proof. intros F. repeat split. exists cs. split; [reflexivity | exact F]. Qed.

Lemma framed_ret {A} (a : A) : framed (Ext := Ext) P (ret a).
Proof. intros s o s' [= <- <-]. apply only_calls_refl. Qed.

Lemma framed_throw {A} e : framed (Ext := Ext) (A := A) P (throw e).
Proof. intros s o s' [= <- <-]. apply only_calls_refl. Qed.

Lemma framed_get_config : framed (Ext := Ext) P get_config.
Proof. intros s o s' [= <- <-]. apply only_calls_refl. Qed.

Lemma framed_ensureInitialized : framed (Ext := Ext) P ensureInitialized.
Proof.
  intros s o s'. unfold ensureInitialized.
  destruct (Processor.initialized s); intros [= <- <-]; apply only_calls_refl.
Qed.

Lemma framed_getProvider ty : framed (Ext := Ext) P (getProviderForPaymentMethod ty).
Proof. intros s o s' [= <- <-]. apply only_calls_refl. Qed.

Lemma framed_record c : P c = true -> framed (Ext := Ext) P (record c).
Proof.
  intros Hc s o s' [= <- <-].
  apply (only_calls_called [c] (Processor.ext s)). simpl. now rewrite Hc.
Qed.

Lemma framed_call {A} c (a : Action Ext A) : P c = true -> framed P (call c a).
Proof.
  intros Hc s o s'. destruct (a (Processor.ext s)) as [o1 e1] eqn:E.
  rewrite (call_run c a s o1 e1 E). intros [= <- <-].
  apply only_calls_called. simpl. now rewrite Hc.
Qed.

Lemma framed_bind {A B} (m : M Ext A) (k : A -> M Ext B) :
  framed P m -> (forall a, framed P (k a)) -> framed P (bind m k).
Proof.
  intros Hm Hk s o s'. unfold bind.
  destruct (m s) as [[a|e] s1] eqn:E.
  - intros H. eapply only_calls_trans; [eapply Hm, E | eapply Hk, H].
  - intros [= <- <-]. eapply Hm, E.
Qed.

Lemma framed_try {A} (m : M Ext A) h :
  framed P m -> (forall e, framed P (h e)) -> framed P (try_catch m h).
Proof.
  intros Hm Hh s o s'. unfold try_catch.
  destruct (m s) as [[a|e] s1] eqn:E.
  - intros [= <- <-]. eapply Hm, E.
  - intros H. eapply only_calls_trans; [eapply Hm, E | eapply Hh, H].
Qed.

Lemma framed_catch_to_envelope {T} log e :
  P (LoggerError log) = true ->
  framed (Ext := Ext) P (catch_to_envelope (T := T) log e).
Proof.
  intros H. unfold catch_to_envelope.
  apply framed_bind; [now apply framed_record | intros _; apply framed_ret].
Qed.
End Frames.

(** Break a method into its steps; the goals left are the conditions on the
    calls it makes. *)
Ltac frame_steps :=
  repeat first
    [ apply framed_ret
    | apply framed_throw
    | apply framed_get_config
    | apply framed_ensureInitialized
    | apply framed_getProvider
    | apply framed_catch_to_envelope
    | apply framed_record
    | apply framed_call
    | apply framed_bind; [|intros ?]
    | apply framed_try; [|intros ?]
    | match goal with
      | |- framed _ (match ?x with _ => _ end) => destruct x
      end ].

Section OrchestratorFrames.
Context {Ext : Type} (co : Collaborators.t Ext).
Implicit Types s : Processor.t Ext.

Lemma framed_assessRisk_combined request :
  framed is_risk_call (assessRisk_combined co request).
Proof. unfold assessRisk_combined. frame_steps; reflexivity. Qed.

Lemma framed_assessRisk request : framed is_risk_call (assessRisk co request).
Proof.
  unfold assessRisk. frame_steps; reflexivity.
Qed.

Lemma framed_fraud_gate request : framed is_risk_call (fraud_gate co request).
Proof.
  unfold fraud_gate. frame_steps; reflexivity.
Qed.

(** On an initialized processor [assessRisk] never throws: a failure comes
    back as an envelope. *)
Lemma assessRisk_returns request s :
  Processor.initialized s = true ->
  exists r s', assessRisk co request s = (Returned r, s').
Proof.
  intros Hinit. unfold assessRisk.
  rewrite (bind_returned _ _ _ _ _ (ensureInitialized_run s Hinit)).
  unfold bind at 1, get_config at 1.
  destruct (negb _); [unfold ret; eauto|].
  unfold try_catch.
  destruct (bind (assessRisk_combined co request) _ s) as [[r|e] s1]; [eauto|].
  unfold catch_to_envelope, bind, record, ret. eauto.
Qed.
End OrchestratorFrames.

(** ** The orchestrator's operations *)

Section OrchestratorProps.
Context {Ext : Type} (co : Collaborators.t Ext).
Implicit Types s : Processor.t Ext.

Lemma called_called cs1 cs2 (e1 e2 : Ext) s :
  called cs2 e2 (called cs1 e1 s) = called (cs1 ++ cs2) e2 s.
Proof. unfold called. simpl. now rewrite app_assoc. Qed.

Lemma called_registry cs (e : Ext) s :
  Processor.providerRegistry (called cs e s) = Processor.providerRegistry s.
Proof. reflexivity. Qed.

Lemma called_config cs (e : Ext) s :
  Processor.config (called cs e s) = Processor.config s.
Proof. reflexivity. Qed.

Lemma record_run c s : record c s = (Returned tt, called [c] (Processor.ext s) s).
Proof. reflexivity. Qed.

Lemma getProvider_run ty s :
  getProviderForPaymentMethod ty s
    = (Returned (Processor.providerRegistry s !! ty), s).
Proof. reflexivity. Qed.

(** C5. With fraud detection disabled, [assessRisk] on an initialized
    processor returns, for every request, the same successful envelope:
    score 0, level [low], no factors, no triggered rules and the single
    recommendation [allow]. The state is returned as it was: nothing is
    added to the call log, so neither a provider nor the internal fraud
    detector is invoked. *)
Theorem assessRisk_fraud_disabled :
  forall (request : PaymentRequest.t) s,
    Processor.initialized s = true ->
    PaymentConfiguration.fraud_enabled (Processor.config s) = false ->
    assessRisk co request s =
      (Returned
         (Result.mk true
            (Some (RiskAssessment.mk 0%float low []
                     [Recommendation.mk allow "Fraud detection disabled"] []))
            None None None),
       s).
Proof.
  intros request s Hinit Hoff. unfold assessRisk.
  rewrite (bind_returned _ _ _ _ _ (ensureInitialized_run s Hinit)).
  unfold bind, get_config. rewrite Hoff. reflexivity.
Qed.

(** C1. With fraud detection enabled, when the provider bound to the
    payment method's type has a risk assessment of its own that succeeds and
    the internal fraud detector's assessment succeeds too, [assessRisk]
    returns a successful envelope with a merged assessment: its score is
    [Math.max] of the two scores (so, for scores that are numbers, it is
    one of the two and at least both); its level is [high] iff the score is
    [>=] the configured [highRisk] threshold (0.8 when unset), otherwise
    [medium] iff it is [>=] the configured [mediumRisk] threshold (0.5 when
    unset), otherwise [low]; its factors, recommendations and triggered
    rules are the provider's lists followed by the internal ones. *)
Theorem assessRisk_merges_provider_and_internal :
  forall (request : PaymentRequest.t) s
         (paymentMethod : Result.t PaymentMethod.t) (method : PaymentMethod.t)
         (provider : PaymentProvider.t Ext) provider_assessRisk
         (providerRiskResult ownRiskResult : Result.t RiskAssessment.t)
         (providerRisk ownRisk : RiskAssessment.t) (e1 e2 e3 : Ext),
    Processor.initialized s = true ->
    PaymentConfiguration.fraud_enabled (Processor.config s) = true ->
    Collaborators.getPaymentMethod co (PaymentRequest.paymentMethodId request)
      (Processor.ext s) = (Returned paymentMethod, e1) ->
    Result.success paymentMethod = true ->
    Result.data paymentMethod = Some method ->
    Processor.providerRegistry s !! PaymentMethod.type method = Some provider ->
    PaymentProvider.assessRisk provider = Some provider_assessRisk ->
    provider_assessRisk request e1 = (Returned providerRiskResult, e2) ->
    Result.success providerRiskResult = true ->
    Result.data providerRiskResult = Some providerRisk ->
    Collaborators.fraudAssessRisk co request e2 = (Returned ownRiskResult, e3) ->
    Result.success ownRiskResult = true ->
    Result.data ownRiskResult = Some ownRisk ->
    let highRisk :=
      Js.nullish (PaymentConfiguration.highRisk (Processor.config s)) default_highRisk in
    let mediumRisk :=
      Js.nullish (PaymentConfiguration.mediumRisk (Processor.config s))
        default_mediumRisk in
    exists merged : RiskAssessment.t,
      assessRisk co request s =
        (Returned (Result.mk true (Some merged) None None None),
         called [GetPaymentMethod (PaymentRequest.paymentMethodId request);
                 ProviderAssessRisk (PaymentProvider.id provider) request;
                 FraudDetectorAssessRisk request] e3 s)
      /\ RiskAssessment.score merged =
           Js.Math_max (RiskAssessment.score providerRisk) (RiskAssessment.score ownRisk)
      /\ (is_nan (RiskAssessment.score providerRisk) = false ->
          is_nan (RiskAssessment.score ownRisk) = false ->
          Js.ge (RiskAssessment.score merged) (RiskAssessment.score providerRisk) = true
          /\ Js.ge (RiskAssessment.score merged) (RiskAssessment.score ownRisk) = true
          /\ (RiskAssessment.score merged = RiskAssessment.score providerRisk
              \/ RiskAssessment.score merged = RiskAssessment.score ownRisk))
      /\ (RiskAssessment.level merged = high <->
            Js.ge (RiskAssessment.score merged) highRisk = true)
      /\ (RiskAssessment.level merged = medium <->
            Js.ge (RiskAssessment.score merged) highRisk = false
            /\ Js.ge (RiskAssessment.score merged) mediumRisk = true)
      /\ (RiskAssessment.level merged = low <->
            Js.ge (RiskAssessment.score merged) highRisk = false
            /\ Js.ge (RiskAssessment.score merged) mediumRisk = false)
      /\ RiskAssessment.factors merged =
           RiskAssessment.factors providerRisk ++ RiskAssessment.factors ownRisk
      /\ RiskAssessment.recommendations merged =
           RiskAssessment.recommendations providerRisk
             ++ RiskAssessment.recommendations ownRisk
      /\ RiskAssessment.triggeredRules merged =
           RiskAssessment.triggeredRules providerRisk
             ++ RiskAssessment.triggeredRules ownRisk.
Proof.
  intros request s pm method p f pr own P I e1 e2 e3
    Hinit Hon Hpm Hpm1 Hpm2 Hreg Hf Hpr Hpr1 Hpr2 Hown Hown1 Hown2 hi med.
  exists (merge_assessments (Processor.config s) P I).
  split.
  { unfold assessRisk.
    rewrite (bind_returned _ _ _ _ _ (ensureInitialized_run s Hinit)).
    unfold bind at 1, get_config at 1. rewrite Hon. cbn [negb].
    erewrite try_returned; [reflexivity|].
    assert (assessRisk_combined co request s =
              (Returned (Some (Result.ok (merge_assessments (Processor.config s) P I))),
               called [GetPaymentMethod (PaymentRequest.paymentMethodId request);
                       ProviderAssessRisk (PaymentProvider.id p) request;
                       FraudDetectorAssessRisk request] e3 s)) as Hc.
    { unfold assessRisk_combined.
      erewrite bind_returned by (apply call_run; eassumption).
      rewrite Hpm1, Hpm2.
      rewrite (bind_returned _ _ _ _ _ (getProvider_run _ _)).
      rewrite called_registry, Hreg, Hf.
      erewrite bind_returned by (apply call_run; simpl; eassumption).
      rewrite Hpr1, Hpr2.
      erewrite bind_returned by (apply call_run; simpl; eassumption).
      rewrite Hown1, Hown2.
      unfold bind, get_config, ret. rewrite !called_called. reflexivity. }
    erewrite bind_returned by exact Hc. reflexivity. }
  unfold merge_assessments. cbn [RiskAssessment.score RiskAssessment.level
    RiskAssessment.factors RiskAssessment.recommendations RiskAssessment.triggeredRules].
  fold hi med. set (combinedScore := Js.Math_max _ _).
  split; [reflexivity|]. split.
  { intros Hp Ho. destruct (Math_max_ge _ _ Hp Ho) as [G1 G2].
    repeat split; try assumption. now apply Math_max_cases. }
  destruct (Js.ge combinedScore hi), (Js.ge combinedScore med);
    intuition congruence.
Qed.

(** C3. When the transaction found for the id is in a status other than
    [authorized], [capturePayment] returns [success = false] with
    [errorCode = "invalid_transaction_state"] and a message naming the id
    and the status. Nothing else happens: the call log gains the log line
    and the lookup only (no provider call, no store update), and the
    collaborators are in the state the lookup left them in. *)
Theorem capturePayment_rejects_unless_authorized :
  forall (transactionId : string) (amount : option float) s
         (found : Result.t Transaction.t) (transaction : Transaction.t) (e1 : Ext),
    Processor.initialized s = true ->
    Collaborators.getTransaction co transactionId (Processor.ext s)
      = (Returned found, e1) ->
    Result.success found = true ->
    Result.data found = Some transaction ->
    Transaction.status transaction <> authorized ->
    capturePayment co transactionId amount s =
      (Returned
         (Result.mk false None None (Some "invalid_transaction_state")
            (Some ("Transaction with ID " +:+ transactionId
                     +:+ " cannot be captured (status: "
                     +:+ TransactionStatus_string (Transaction.status transaction)
                     +:+ ")"))),
       called [LoggerInfo ("Capturing payment for transaction: " +:+ transactionId);
               GetTransaction transactionId] e1 s).
Proof.
  intros id amount s found tx e1 Hinit Hget Hok Hdata Hst.
  unfold capturePayment.
  rewrite (bind_returned _ _ _ _ _ (ensureInitialized_run s Hinit)).
  rewrite (bind_returned _ _ _ _ _ (record_run _ s)).
  erewrite try_returned; [reflexivity|].
  erewrite bind_returned by (apply call_run; simpl; eassumption).
  rewrite Hok, Hdata. rewrite bool_decide_eq_false_2 by assumption. simpl.
  unfold ret. rewrite called_called. reflexivity.
Qed.

(** C8. When the transaction found for the id is in a status other than
    [initialized], [authorized] and [pending], [cancelPayment] returns
    [success = false] with [errorCode = "invalid_transaction_state"]. The
    call log gains the log line and the lookup only (no provider call, no
    store update), and the collaborators are in the state the lookup left
    them in. *)
Theorem cancelPayment_rejects_unless_cancelable :
  forall (transactionId : string) s
         (found : Result.t Transaction.t) (transaction : Transaction.t) (e1 : Ext),
    Processor.initialized s = true ->
    Collaborators.getTransaction co transactionId (Processor.ext s)
      = (Returned found, e1) ->
    Result.success found = true ->
    Result.data found = Some transaction ->
    Transaction.status transaction <> initialized ->
    Transaction.status transaction <> authorized ->
    Transaction.status transaction <> pending ->
    cancelPayment co transactionId s =
      (Returned
         (Result.mk false None None (Some "invalid_transaction_state")
            (Some ("Transaction with ID " +:+ transactionId
                     +:+ " cannot be canceled (status: "
                     +:+ TransactionStatus_string (Transaction.status transaction)
                     +:+ ")"))),
       called [LoggerInfo ("Canceling payment for transaction: " +:+ transactionId);
               GetTransaction transactionId] e1 s).
Proof.
  intros id s found tx e1 Hinit Hget Hok Hdata H1 H2 H3.
  unfold cancelPayment.
  rewrite (bind_returned _ _ _ _ _ (ensureInitialized_run s Hinit)).
  rewrite (bind_returned _ _ _ _ _ (record_run _ s)).
  erewrite try_returned; [reflexivity|].
  erewrite bind_returned by (apply call_run; simpl; eassumption).
  rewrite Hok, Hdata. unfold not_cancelable.
  rewrite !bool_decide_eq_false_2 by assumption. simpl.
  unfold ret. rewrite called_called. reflexivity.
Qed.
End OrchestratorProps.

Section ProcessPaymentProps.
Context {Ext : Type} (co : Collaborators.t Ext).
Implicit Types s : Processor.t Ext.

Lemma forallb_weaken (P Q : Call -> bool) (cs : list Call) :
  (forall c, P c = true -> Q c = true) -> forallb P cs = true -> forallb Q cs = true.
Proof.
  intros HPQ. induction cs as [|c cs IH]; simpl; [reflexivity|].
  intros [Hc Hcs]%andb_prop. now rewrite (HPQ c Hc), IH.
Qed.

Lemma risk_call_quiet c : is_risk_call c = true -> is_quiet c = true.
Proof. destruct c; try discriminate; reflexivity. Qed.

Lemma only_calls_weaken (P Q : Call -> bool) s s' :
  (forall c, P c = true -> Q c = true) -> only_calls P s s' -> only_calls Q s s'.
Proof.
  intros HPQ (C & R & I & cs & L & F). repeat split; try assumption.
  exists cs. split; [assumption | now apply (forallb_weaken P Q)].
Qed.

(** The state in which [processPayment] has logged its first line and
    resolved the payment method, the lookup having left the collaborators
    in [e1]. *)
Lemma processPayment_resolves request s paymentMethod method (e1 : Ext) :
  Processor.initialized s = true ->
  Collaborators.validatePaymentRequest co request = Returned tt ->
  Collaborators.getPaymentMethod co (PaymentRequest.paymentMethodId request)
    (Processor.ext s) = (Returned paymentMethod, e1) ->
  Result.success paymentMethod = true ->
  Result.data paymentMethod = Some method ->
  processPayment co request s =
    try_catch (processPayment_resolved co request (PaymentMethod.type method))
      (catch_to_envelope "Payment processing failed")
      (called [LoggerInfo "Processing payment";
               GetPaymentMethod (PaymentRequest.paymentMethodId request)] e1 s).
Proof.
  intros Hinit Hval Hpm Hok Hdata. unfold processPayment.
  rewrite (bind_returned _ _ _ _ _ (ensureInitialized_run s Hinit)).
  rewrite (bind_returned _ _ _ _ _ (record_run _ s)).
  unfold try_catch.
  erewrite (bind_returned _ _ _ tt) by (rewrite Hval; reflexivity).
  erewrite bind_returned by (apply call_run; simpl; eassumption).
  rewrite Hok, Hdata, called_called. reflexivity.
Qed.

(** The fraud gate when the assessment fails. *)
Lemma fraud_gate_assessment_failed request s riskAssessment s2 :
  PaymentConfiguration.fraud_enabled (Processor.config s) = true ->
  assessRisk co request s = (Returned riskAssessment, s2) ->
  Result.success riskAssessment = false ->
  fraud_gate co request s =
    (Returned
       (Some (Result.fail "fraud_detection_error"
                (Js.string_or (Result.errorMessage riskAssessment)
                   "Could not complete fraud assessment"))),
     s2).
Proof.
  intros Hon Hra Hfail. unfold fraud_gate.
  unfold bind at 1, get_config at 1. rewrite Hon.
  erewrite bind_returned by eassumption. rewrite Hfail. reflexivity.
Qed.

(** The fraud gate when the assessment is [high] and the configured
    [highRisk] threshold is truthy. *)
Lemma fraud_gate_blocks_high_risk request s riskAssessment assessment h s2 :
  PaymentConfiguration.fraud_enabled (Processor.config s) = true ->
  assessRisk co request s = (Returned riskAssessment, s2) ->
  Result.success riskAssessment = true ->
  Result.data riskAssessment = Some assessment ->
  RiskAssessment.level assessment = high ->
  PaymentConfiguration.highRisk (Processor.config s) = Some h ->
  Js.number_truthy h = true ->
  fraud_gate co request s =
    (Returned
       (Some (Result.mk false (Some (RiskOnly assessment)) None
                (Some "high_risk_payment") (Some "Payment flagged as high risk"))),
     s2).
Proof.
  intros Hon Hra Hok Hdata Hlvl Hth Htruthy. unfold fraud_gate.
  unfold bind at 1, get_config at 1. rewrite Hon.
  erewrite bind_returned by eassumption.
  rewrite Hok, Hdata, Hth, Htruthy, bool_decide_eq_true_2 by assumption.
  reflexivity.
Qed.

(** The calls made between [s] and the end of a run that resolved the
    payment method and then made only risk calls. *)
Lemma calls_after_gate s (e1 : Ext) id s2 :
  only_calls is_risk_call (called [LoggerInfo "Processing payment"; GetPaymentMethod id] e1 s) s2 ->
  exists cs : list Call,
    Processor.calls s2 = Processor.calls s ++ cs /\ forallb is_quiet cs = true.
Proof.
  intros (_ & _ & _ & cs & L & F).
  exists ([LoggerInfo "Processing payment"; GetPaymentMethod id] ++ cs). split.
  - rewrite L. unfold called. simpl. now rewrite <- app_assoc.
  - simpl. now apply (forallb_weaken is_risk_call is_quiet), F; apply risk_call_quiet.
Qed.

(** C9. With fraud detection enabled, when the risk assessment run by
    [processPayment] comes back as a failure envelope, [processPayment]
    returns [success = false] with [errorCode = "fraud_detection_error"],
    a code that none of the error classes carries. The run ends in the
    state the assessment left: among the calls it made there is no
    money-moving provider call and no write to the transaction store. *)
Theorem processPayment_fraud_detection_error :
  forall (request : PaymentRequest.t) s
         (paymentMethod : Result.t PaymentMethod.t) (method : PaymentMethod.t)
         (e1 : Ext) (riskAssessment : Result.t RiskAssessment.t) s2,
    Processor.initialized s = true ->
    Collaborators.validatePaymentRequest co request = Returned tt ->
    Collaborators.getPaymentMethod co (PaymentRequest.paymentMethodId request)
      (Processor.ext s) = (Returned paymentMethod, e1) ->
    Result.success paymentMethod = true ->
    Result.data paymentMethod = Some method ->
    PaymentConfiguration.fraud_enabled (Processor.config s) = true ->
    assessRisk co request
      (called [LoggerInfo "Processing payment";
               GetPaymentMethod (PaymentRequest.paymentMethodId request)] e1 s)
      = (Returned riskAssessment, s2) ->
    Result.success riskAssessment = false ->
    processPayment co request s =
      (Returned
         (Result.mk false None None (Some "fraud_detection_error")
            (Some (Js.string_or (Result.errorMessage riskAssessment)
                     "Could not complete fraud assessment"))),
       s2)
    /\ (exists cs : list Call,
          Processor.calls s2 = Processor.calls s ++ cs
          /\ forallb is_quiet cs = true)
    /\ "fraud_detection_error" ∉ error_class_codes.
Proof.
  intros request s pm method e1 ra s2 Hinit Hval Hpm Hok Hdata Hon Hra Hfail.
  split; [|split].
  - rewrite (processPayment_resolves request s pm method e1) by assumption.
    erewrite try_returned; [reflexivity|].
    unfold processPayment_resolved.
    erewrite bind_returned
      by (apply fraud_gate_assessment_failed; [exact Hon | exact Hra | exact Hfail]).
    reflexivity.
  - eapply calls_after_gate, framed_assessRisk, Hra.
  - vm_compute. intros H. repeat (inversion H as [|? ? ? H']; subst; clear H; rename H' into H).
Qed.
End ProcessPaymentProps.

Section UnboundProvider.
Context {Ext : Type} (co : Collaborators.t Ext).
Implicit Types s : Processor.t Ext.

Lemma assessRisk_combined_unbound request s :
  resolves_unbound co (PaymentRequest.paymentMethodId request) s ->
  exists o e1,
    assessRisk_combined co request s =
      (o, called [GetPaymentMethod (PaymentRequest.paymentMethodId request)] e1 s)
    /\ (o = Returned None \/ exists e, o = Thrown e).
Proof.
  intros Hun. unfold assessRisk_combined.
  destruct (Collaborators.getPaymentMethod co (PaymentRequest.paymentMethodId request)
              (Processor.ext s)) as [[pm|e] e1] eqn:Ea.
  - exists (Returned None), e1. split; [|now left].
    erewrite bind_returned by (apply call_run; exact Ea).
    destruct (Result.success pm), (Result.data pm) as [m|] eqn:Ed; try reflexivity.
    rewrite (bind_returned _ _ _ _ _ (getProvider_run _ _)).
    rewrite called_registry, (Hun _ _ _ _ Ea Ed). reflexivity.
  - exists (Thrown e), e1. split; [|right; eauto].
    erewrite bind_thrown by (apply call_run; exact Ea). reflexivity.
Qed.

Lemma catch_to_envelope_run {T} log e s :
  catch_to_envelope (T := T) log e s =
    (Returned (Result.of_error (toPaymentError e default_unknown_message)),
     called [LoggerError log] (Processor.ext s) s).
Proof. reflexivity. Qed.

Lemma assessRisk_no_provider_call request s o s' :
  resolves_unbound co (PaymentRequest.paymentMethodId request) s ->
  assessRisk co request s = (o, s') ->
  only_calls no_provider_call s s'.
Proof.
  intros Hun. unfold assessRisk, bind at 1, ensureInitialized.
  destruct (Processor.initialized s);
    [|intros [= <- <-]; apply only_calls_refl].
  unfold ret at 1, bind at 1, get_config at 1.
  destruct (negb _); [intros [= <- <-]; apply only_calls_refl|].
  destruct (assessRisk_combined_unbound request s Hun) as (oc & e1 & Hc & Hoc).
  unfold try_catch. destruct Hoc as [-> | [e ->]].
  - rewrite (bind_returned _ _ _ _ _ Hc).
    destruct (Collaborators.fraudAssessRisk co request e1) as [[r|e] e2] eqn:Ef;
      erewrite call_run by exact Ef.
    + intros [= <- <-]. rewrite called_called.
      now apply only_calls_called.
    + cbv beta iota. rewrite catch_to_envelope_run.
      intros [= <- <-]. rewrite !called_called.
      now apply only_calls_called.
  - rewrite (bind_thrown _ _ _ _ _ Hc), catch_to_envelope_run.
    intros [= <- <-]. rewrite !called_called. now apply only_calls_called.
Qed.

Lemma fraud_gate_no_provider_call request s o s' :
  resolves_unbound co (PaymentRequest.paymentMethodId request) s ->
  fraud_gate co request s = (o, s') ->
  only_calls no_provider_call s s'.
Proof.
  intros Hun. unfold fraud_gate, bind at 1, get_config at 1.
  destruct (PaymentConfiguration.fraud_enabled _);
    [|intros [= <- <-]; apply only_calls_refl].
  unfold bind.
  destruct (assessRisk co request s) as [[ra|e] s1] eqn:Era;
    pose proof (assessRisk_no_provider_call request s _ _ Hun Era) as H1.
  - destruct (negb _); [intros [= <- <-]; exact H1|].
    destruct (Result.data ra); [destruct (_ && _)|]; intros [= <- <-]; exact H1.
  - intros [= <- <-]. exact H1.
Qed.
End UnboundProvider.

Section Dispatch.
Context {Ext : Type} (co : Collaborators.t Ext).
Implicit Types s : Processor.t Ext.

(** C7. When the payment method of a valid request resolves to a type to
    which no provider is bound, and the fraud gate lets the request
    through, [processPayment] returns [success = false] with
    [errorCode = "provider_not_found"]. The run ends in the state the
    fraud gate left: among the calls made there is no money-moving provider
    call and no write to the transaction store; and when every lookup of
    the payment method resolves to an unbound type, no method of any
    provider is called at all. *)
Theorem processPayment_provider_not_found :
  forall (request : PaymentRequest.t) s
         (paymentMethod : Result.t PaymentMethod.t) (method : PaymentMethod.t)
         (e1 : Ext) s2,
    Processor.initialized s = true ->
    Collaborators.validatePaymentRequest co request = Returned tt ->
    Collaborators.getPaymentMethod co (PaymentRequest.paymentMethodId request)
      (Processor.ext s) = (Returned paymentMethod, e1) ->
    Result.success paymentMethod = true ->
    Result.data paymentMethod = Some method ->
    Processor.providerRegistry s !! PaymentMethod.type method = None ->
    fraud_gate co request
      (called [LoggerInfo "Processing payment";
               GetPaymentMethod (PaymentRequest.paymentMethodId request)] e1 s)
      = (Returned None, s2) ->
    processPayment co request s =
      (Returned
         (Result.mk false None None (Some "provider_not_found")
            (Some ("No provider available for payment method type: "
                     +:+ PaymentMethodType_string (PaymentMethod.type method)))),
       s2)
    /\ exists cs : list Call,
         Processor.calls s2 = Processor.calls s ++ cs
         /\ forallb is_quiet cs = true
         /\ (resolves_unbound co (PaymentRequest.paymentMethodId request) s ->
             forallb no_provider_call cs = true).
Proof.
  intros request s pm method e1 s2 Hinit Hval Hpm Hok Hdata Hreg Hgate.
  pose proof (framed_fraud_gate co request _ _ _ Hgate) as (_ & R & _ & cs & L & F).
  split.
  - rewrite (processPayment_resolves co request s pm method e1) by assumption.
    erewrite try_returned; [reflexivity|].
    unfold processPayment_resolved.
    rewrite (bind_returned _ _ _ _ _ Hgate).
    rewrite (bind_returned _ _ _ _ _ (getProvider_run _ _)).
    rewrite R, called_registry, Hreg. reflexivity.
  - exists ([LoggerInfo "Processing payment";
             GetPaymentMethod (PaymentRequest.paymentMethodId request)] ++ cs).
    split; [|split].
    + rewrite L. unfold called. simpl. now rewrite <- app_assoc.
    + simpl. now apply (forallb_weaken is_risk_call is_quiet), F; apply risk_call_quiet.
    + intros Hun.
      assert (resolves_unbound co (PaymentRequest.paymentMethodId request)
                (called [LoggerInfo "Processing payment";
                         GetPaymentMethod (PaymentRequest.paymentMethodId request)]
                   e1 s)) as Hun' by exact Hun.
      destruct (fraud_gate_no_provider_call co request _ _ _ Hun' Hgate)
        as (_ & _ & _ & cs' & L' & F').
      rewrite L in L'. apply app_inv_head in L'. subst cs'.
      simpl. exact F'.
Qed.

(** The provider method [processPayment] calls for a request. *)
Lemma dispatch_run provider request s result (e3 : Ext) :
  (match PaymentRequest.authorizeOnly request with
   | Some true => PaymentProvider.authorizePayment provider request
   | _ => PaymentProvider.processPayment provider request
   end) (Processor.ext s) = (result, e3) ->
  dispatch provider request s = (result, called [dispatch_call provider request] e3 s).
Proof.
  unfold dispatch, dispatch_call.
  destruct (PaymentRequest.authorizeOnly request) as [[]|]; apply call_run.
Qed.

(** C4, as the code has it. For a request that reaches the provider
    dispatch, [processPayment] calls the provider's [authorizePayment] when
    [request.authorizeOnly] is true and its [processPayment] otherwise.
    When the provider returns an envelope, [saveTransaction] is called
    exactly when the envelope has [success = true] and carries a
    transaction. The provider's envelope is returned as it is when no save
    is made or the save returns; when the save throws, the failure is
    converted by [toPaymentError] and a failure envelope is returned
    instead. *)
Theorem processPayment_dispatch :
  forall (request : PaymentRequest.t) s
         (paymentMethod : Result.t PaymentMethod.t) (method : PaymentMethod.t)
         (e1 : Ext) s2 (provider : PaymentProvider.t Ext)
         (result : Result.t Transaction.t) (e3 : Ext),
    Processor.initialized s = true ->
    Collaborators.validatePaymentRequest co request = Returned tt ->
    Collaborators.getPaymentMethod co (PaymentRequest.paymentMethodId request)
      (Processor.ext s) = (Returned paymentMethod, e1) ->
    Result.success paymentMethod = true ->
    Result.data paymentMethod = Some method ->
    fraud_gate co request
      (called [LoggerInfo "Processing payment";
               GetPaymentMethod (PaymentRequest.paymentMethodId request)] e1 s)
      = (Returned None, s2) ->
    Processor.providerRegistry s !! PaymentMethod.type method = Some provider ->
    (match PaymentRequest.authorizeOnly request with
     | Some true => PaymentProvider.authorizePayment provider request
     | _ => PaymentProvider.processPayment provider request
     end) (Processor.ext s2) = (Returned result, e3) ->
    let verb :=
      match PaymentRequest.authorizeOnly request with
      | Some true => ProviderAuthorizePayment (PaymentProvider.id provider) request
      | _ => ProviderProcessPayment (PaymentProvider.id provider) request
      end in
    match Result.success result, Result.data result with
    | true, Some tx =>
        match Collaborators.saveTransaction co tx e3 with
        | (Returned _, e4) =>
            processPayment co request s =
              (Returned (Result.cast IsTransaction result),
               called [verb; SaveTransaction tx] e4 s2)
        | (Thrown error, e4) =>
            processPayment co request s =
              (Returned (Result.of_error (toPaymentError error default_unknown_message)),
               called [verb; SaveTransaction tx;
                       LoggerError "Payment processing failed"] e4 s2)
        end
    | _, _ =>
        processPayment co request s =
          (Returned (Result.cast IsTransaction result), called [verb] e3 s2)
    end.
Proof.
  intros request s pm method e1 s2 p result e3
    Hinit Hval Hpm Hok Hdata Hgate Hreg Hverb verb.
  pose proof (framed_fraud_gate co request _ _ _ Hgate) as (_ & R & _).
  rewrite (processPayment_resolves co request s pm method e1) by assumption.
  unfold try_catch, processPayment_resolved.
  rewrite (bind_returned _ _ _ _ _ Hgate).
  rewrite (bind_returned _ _ _ _ _ (getProvider_run _ _)).
  rewrite R, called_registry, Hreg.
  rewrite (bind_returned _ _ _ _ _ (dispatch_run p request s2 _ e3 Hverb)).
  fold verb. change (dispatch_call p request) with verb.
  destruct (Result.success result), (Result.data result) as [tx|]; try reflexivity.
  destruct (Collaborators.saveTransaction co tx e3) as [[r|error] e4] eqn:Es.
  - erewrite bind_returned by (apply call_run; exact Es).
    unfold ret. now rewrite called_called.
  - erewrite bind_thrown by (apply call_run; exact Es).
    rewrite catch_to_envelope_run, !called_called. reflexivity.
Qed.
End Dispatch.

Section HighRisk.
Context {Ext : Type} (co : Collaborators.t Ext).
Implicit Types s : Processor.t Ext.

(** X6. The high-risk rejection of [processPayment], for a configured
    [highRisk] threshold that is truthy (neither [0] nor [NaN]): the
    request is rejected with [high_risk_payment], the envelope carries the
    assessment, and no money-moving provider call or store write is made. *)
Lemma processPayment_blocks_high_risk :
  forall (request : PaymentRequest.t) s
         (paymentMethod : Result.t PaymentMethod.t) (method : PaymentMethod.t)
         (e1 : Ext) (riskAssessment : Result.t RiskAssessment.t)
         (assessment : RiskAssessment.t) (h : float) s2,
    Processor.initialized s = true ->
    Collaborators.validatePaymentRequest co request = Returned tt ->
    Collaborators.getPaymentMethod co (PaymentRequest.paymentMethodId request)
      (Processor.ext s) = (Returned paymentMethod, e1) ->
    Result.success paymentMethod = true ->
    Result.data paymentMethod = Some method ->
    PaymentConfiguration.fraud_enabled (Processor.config s) = true ->
    assessRisk co request
      (called [LoggerInfo "Processing payment";
               GetPaymentMethod (PaymentRequest.paymentMethodId request)] e1 s)
      = (Returned riskAssessment, s2) ->
    Result.success riskAssessment = true ->
    Result.data riskAssessment = Some assessment ->
    RiskAssessment.level assessment = high ->
    PaymentConfiguration.highRisk (Processor.config s) = Some h ->
    Js.number_truthy h = true ->
    processPayment co request s =
      (Returned
         (Result.mk false (Some (RiskOnly assessment)) None
            (Some "high_risk_payment") (Some "Payment flagged as high risk")),
       s2)
    /\ exists cs : list Call,
         Processor.calls s2 = Processor.calls s ++ cs /\ forallb is_quiet cs = true.
Proof.
  intros request s pm method e1 ra a h s2
    Hinit Hval Hpm Hok Hdata Hon Hra Hra1 Hra2 Hlvl Hth Htruthy.
  split.
  - rewrite (processPayment_resolves co request s pm method e1) by assumption.
    erewrite try_returned; [reflexivity|].
    unfold processPayment_resolved.
    erewrite bind_returned
      by (eapply fraud_gate_blocks_high_risk; eassumption).
    reflexivity.
  - eapply calls_after_gate, framed_assessRisk, Hra.
Qed.
End HighRisk.

(** C2, at a configured [highRisk] threshold of [0]. Fraud detection is
    enabled, the thresholds are [{ highRisk: 0, mediumRisk: 0.5 }], the
    provider scores the request 0.3 and the internal detector 0.9: the merged
    assessment succeeds with level [high], and [processPayment] does not
    reject the request. It calls the provider's [processPayment], saves the
    transaction and returns the provider's successful envelope. *)
Theorem processPayment_zero_threshold_not_blocked :
  let s := Demo.zero_threshold in
  let tx := Demo.transaction_for Demo.request captured in
  PaymentConfiguration.fraud_enabled (Processor.config s) = true
  /\ PaymentConfiguration.highRisk (Processor.config s) = Some 0%float
  /\ (exists assessment s1,
        assessRisk Demo.co Demo.request
          (called [LoggerInfo "Processing payment"; GetPaymentMethod "pm_1"]
             (Processor.ext s) s)
          = (Returned (Result.ok assessment), s1)
        /\ RiskAssessment.level assessment = high)
  /\ exists s',
       processPayment Demo.co Demo.request s
         = (Returned (Result.mk true (Some (IsTransaction tx)) None None None), s')
       /\ Processor.calls s' =
            [LoggerInfo "Processing payment"; GetPaymentMethod "pm_1";
             GetPaymentMethod "pm_1";
             ProviderAssessRisk "generic-card" Demo.request;
             FraudDetectorAssessRisk Demo.request;
             ProviderProcessPayment "generic-card" Demo.request;
             SaveTransaction tx].
Proof.
  cbv zeta. split; [reflexivity|]. split; [reflexivity|]. split.
  - eexists _, _. split; [vm_compute; reflexivity | reflexivity].
  - eexists. split; vm_compute; reflexivity.
Qed.

Section Initialize.
Context {Ext : Type} (co : Collaborators.t Ext).
Implicit Types s : Processor.t Ext.

Lemma initialize_when_initialized s :
  Processor.initialized s = true -> initialize co s = (Returned tt, s).
Proof. unfold initialize. now intros ->. Qed.

Lemma repeat_initialize n s :
  Processor.initialized s = true ->
  repeat_call (initialize co) n s = (Returned tt, s).
Proof.
  intros Hinit. induction n as [|n IH]; [reflexivity|]. simpl.
  now rewrite (bind_returned _ _ _ _ _ (initialize_when_initialized s Hinit)).
Qed.

Lemma record_keeps_initialized c s o s' :
  record c s = (o, s') -> Processor.initialized s' = Processor.initialized s.
Proof. now intros [= <- <-]. Qed.

(** A successful [initialize] leaves the processor initialized. *)
Lemma initialize_sets_initialized s s' :
  initialize co s = (Returned tt, s') -> Processor.initialized s' = true.
Proof.
  unfold initialize. destruct (Processor.initialized s) eqn:Hinit.
  - now intros [= <-].
  - intros H. apply bind_returned_inv in H as ([] & s1 & _ & H).
    unfold try_catch in H.
    match type of H with
    | match ?body s1 with _ => _ end = _ =>
        destruct (body s1) as [[[]|e] s3] eqn:Hbody
    end.
    + injection H as <-.
      do 7 (apply bind_returned_inv in Hbody as (? & ? & _ & Hbody)).
      apply bind_returned_inv in Hbody as (? & s4 & Hset & Hbody).
      rewrite (record_keeps_initialized _ _ _ _ Hbody).
      unfold set_initialized in Hset. now simplify_eq.
    + unfold bind, record, throw in H. discriminate.
Qed.

(** The operations never reset the flag: they leave the configuration, the
    registry and [initialized] as they are. *)
Lemma operations_keep_processor request transactionId amount :
  framed (fun _ => true) (processPayment co request)
  /\ framed (fun _ => true) (assessRisk co request)
  /\ framed (fun _ => true) (capturePayment co transactionId amount)
  /\ framed (fun _ => true) (cancelPayment co transactionId).
Proof.
  assert (forall A (o : Outcome A),
            framed (Ext := Ext) (fun _ => true) (fun s => (o, s))) as Hpure
    by (intros A o s o' s' [= <- <-]; apply only_calls_refl).
  split; [|split; [|split]].
  - unfold processPayment, processPayment_resolved, fraud_gate, dispatch, assessRisk.
    frame_steps; try reflexivity; apply Hpure.
  - unfold assessRisk. frame_steps; reflexivity.
  - unfold capturePayment. frame_steps; reflexivity.
  - unfold cancelPayment. frame_steps; reflexivity.
Qed.

(** C10. After a call of [initialize] that succeeded, the processor is
    initialized, and every further call of [initialize], however many,
    returns at once and leaves the whole state as it is: the registry is
    the same (no provider is registered again), the call log is the same
    (no adapter is built, no component is initialized, nothing is logged),
    and the processor is still initialized. *)
Theorem initialize_idempotent :
  forall s s',
    initialize co s = (Returned tt, s') ->
    Processor.initialized s' = true
    /\ initialize co s' = (Returned tt, s')
    /\ forall n : nat, repeat_call (initialize co) n s' = (Returned tt, s').
Proof.
  intros s s' H. pose proof (initialize_sets_initialized s s' H) as Hinit.
  split; [exact Hinit|]. split.
  - now apply initialize_when_initialized.
  - intros n. now apply repeat_initialize.
Qed.
End Initialize.

(** ** The theorems on the sample deployment *)

Module Samples.
Import Demo.

Lemma assessRisk_fraud_disabled_witness :
  assessRisk co request plain =
    (Returned
       (Result.mk true
          (Some (RiskAssessment.mk 0%float low []
                   [Recommendation.mk allow "Fraud detection disabled"] []))
          None None None),
     plain).
Proof.
  apply (assessRisk_fraud_disabled co request plain); reflexivity.
Defined.

#[warnings="-inexact-float"]
Lemma assessRisk_merges_provider_and_internal_witness :
  exists merged s',
    assessRisk co request assessing
      = (Returned (Result.mk true (Some merged) None None None), s')
    /\ RiskAssessment.score merged = 0.9%float
    /\ RiskAssessment.level merged = high
    /\ RiskAssessment.triggeredRules merged = ["provider_velocity"; "internal_geo"].
Proof.
  destruct (assessRisk_merges_provider_and_internal co request assessing
              (Result.ok pm_1) pm_1 (provider "generic-card" (Some (Result.ok provider_risk)))
              (fun _ w => (Returned (Result.ok provider_risk), w))
              (Result.ok provider_risk) (Result.ok internal_risk)
              provider_risk internal_risk
              (Processor.ext assessing) (Processor.ext assessing) (Processor.ext assessing)
              eq_refl eq_refl eq_refl eq_refl eq_refl eq_refl eq_refl eq_refl eq_refl
              eq_refl eq_refl eq_refl eq_refl)
    as (merged & Hrun & Hscore & _ & Hhigh & _ & _ & _ & _ & Hrules).
  exists merged. eexists. split; [exact Hrun|]. split; [|split].
  - rewrite Hscore. reflexivity.
  - apply Hhigh. rewrite Hscore. reflexivity.
  - rewrite Hrules. reflexivity.
Defined.

Lemma capturePayment_rejects_unless_authorized_witness :
  capturePayment co "tx_1" None plain =
    (Returned
       (Result.mk false None None (Some "invalid_transaction_state")
          (Some "Transaction with ID tx_1 cannot be captured (status: captured)")),
     called [LoggerInfo "Capturing payment for transaction: tx_1";
             GetTransaction "tx_1"] (Processor.ext plain) plain).
Proof.
  apply (capturePayment_rejects_unless_authorized co "tx_1" None plain
           (Result.ok tx_1) tx_1 (Processor.ext plain));
    [reflexivity | reflexivity | reflexivity | reflexivity | discriminate].
Defined.

Lemma cancelPayment_rejects_unless_cancelable_witness :
  cancelPayment co "tx_1" plain =
    (Returned
       (Result.mk false None None (Some "invalid_transaction_state")
          (Some "Transaction with ID tx_1 cannot be canceled (status: captured)")),
     called [LoggerInfo "Canceling payment for transaction: tx_1";
             GetTransaction "tx_1"] (Processor.ext plain) plain).
Proof.
  apply (cancelPayment_rejects_unless_cancelable co "tx_1" plain
           (Result.ok tx_1) tx_1 (Processor.ext plain));
    [reflexivity | reflexivity | reflexivity | reflexivity
     | discriminate | discriminate | discriminate].
Defined.

Lemma processPayment_fraud_detection_error_witness :
  fst (processPayment co request detector_down) =
    Returned
      (Result.mk false None None (Some "fraud_detection_error")
         (Some "Fraud service unavailable")).
Proof.
  destruct (processPayment_fraud_detection_error co request detector_down
              (Result.ok pm_1) pm_1 (Processor.ext detector_down)
              (Result.fail "fraud_unavailable" "Fraud service unavailable")
              (called [LoggerInfo "Processing payment"; GetPaymentMethod "pm_1";
                       GetPaymentMethod "pm_1"; FraudDetectorAssessRisk request]
                 (Processor.ext detector_down) detector_down)
              eq_refl eq_refl eq_refl eq_refl eq_refl eq_refl eq_refl eq_refl)
    as [Hrun _].
  rewrite Hrun. reflexivity.
Defined.

Lemma processPayment_provider_not_found_witness :
  processPayment co request_crypto plain =
    (Returned
       (Result.mk false None None (Some "provider_not_found")
          (Some "No provider available for payment method type: crypto")),
     called [LoggerInfo "Processing payment"; GetPaymentMethod "pm_2"]
       (Processor.ext plain) plain).
Proof.
  apply (processPayment_provider_not_found co request_crypto plain
           (Result.ok pm_2) pm_2 (Processor.ext plain)
           (called [LoggerInfo "Processing payment"; GetPaymentMethod "pm_2"]
              (Processor.ext plain) plain)
           eq_refl eq_refl eq_refl eq_refl eq_refl eq_refl eq_refl).
Defined.

Lemma processPayment_dispatch_witness :
  processPayment co (PaymentRequest.with_authorizeOnly request) plain =
    (Returned
       (Result.mk true
          (Some (IsTransaction
                   (transaction_for (PaymentRequest.with_authorizeOnly request)
                      authorized)))
          None None None),
     called
       [LoggerInfo "Processing payment"; GetPaymentMethod "pm_1";
        ProviderAuthorizePayment "generic-card"
          (PaymentRequest.with_authorizeOnly request);
        SaveTransaction
          (transaction_for (PaymentRequest.with_authorizeOnly request) authorized)]
       (mkWorld
          (<["tx_new" :=
               transaction_for (PaymentRequest.with_authorizeOnly request) authorized]>
             (transactions (Processor.ext plain)))
          (paymentMethods (Processor.ext plain))
          (internalRisk (Processor.ext plain)) true)
       plain).
Proof.
  exact (processPayment_dispatch co (PaymentRequest.with_authorizeOnly request) plain
           (Result.ok pm_1) pm_1 (Processor.ext plain)
           (called [LoggerInfo "Processing payment"; GetPaymentMethod "pm_1"]
              (Processor.ext plain) plain)
           (provider "generic-card" None)
           (Result.ok (transaction_for (PaymentRequest.with_authorizeOnly request)
                         authorized))
           (Processor.ext plain)
           eq_refl eq_refl eq_refl eq_refl eq_refl eq_refl eq_refl eq_refl).
Defined.

(** C4 fails as stated. The request is valid, its payment method resolves,
    fraud detection is off, a provider is bound and its [processPayment]
    returns a successful envelope with a transaction; the store is offline,
    so [saveTransaction] throws: [processPayment] returns a failure
    envelope, not the envelope the provider returned. *)
Lemma processPayment_dispatch_counterexample :
  let provider_envelope := Result.ok (transaction_for request captured) in
  Processor.initialized offline = true
  /\ Collaborators.validatePaymentRequest co request = Returned tt
  /\ Collaborators.getPaymentMethod co "pm_1" (Processor.ext offline)
     = (Returned (Result.ok pm_1), Processor.ext offline)
  /\ PaymentConfiguration.fraud_enabled (Processor.config offline) = false
  /\ Processor.providerRegistry offline !! card = Some (provider "generic-card" None)
  /\ PaymentProvider.processPayment (provider "generic-card" None) request
       (Processor.ext offline)
     = (Returned provider_envelope, Processor.ext offline)
  /\ fst (processPayment co request offline)
     <> Returned (Result.cast IsTransaction provider_envelope)
  /\ fst (processPayment co request offline)
     = Returned
         (Result.of_error
            (new_PaymentError "transaction store unavailable"
               {| opt_code := None; opt_statusCode := None; opt_retryable := None;
                  opt_details := None;
                  opt_cause := Some (JsError "Error" "transaction store unavailable") |})).
Proof.
  cbv zeta. repeat split; try reflexivity.
  vm_compute. discriminate.
Qed.

Lemma initialize_idempotent_witness :
  Processor.initialized initialized_plain = true
  /\ initialize co initialized_plain = (Returned tt, initialized_plain)
  /\ forall n : nat,
       repeat_call (initialize co) n initialized_plain = (Returned tt, initialized_plain).
Proof.
  apply (initialize_idempotent co (fresh None (world (Result.ok internal_risk) true))).
  vm_compute. reflexivity.
Defined.
End Samples.

(** * Further properties *)

(** ** The order on doubles and the merged assessment *)

Section OrderFacts.
Local Open Scope float_scope.

Lemma SFleb_trans x y z :
  SFleb x y = true -> SFleb y z = true -> SFleb x z = true.
Proof.
  unfold SFleb.
  destruct x as [[]|[]| |[] m1 e1], y as [[]|[]| |[] m2 e2], z as [[]|[]| |[] m3 e3];
    simpl; try congruence;
    change (Pos.compare_cont Eq m1 m2) with (Pos.compare m1 m2);
    change (Pos.compare_cont Eq m2 m3) with (Pos.compare m2 m3);
    change (Pos.compare_cont Eq m1 m3) with (Pos.compare m1 m3);
    destruct (Z.compare_spec e1 e2), (Z.compare_spec e2 e3), (Z.compare_spec e1 e3);
    try congruence; try lia;
    destruct (Pos.compare_spec m1 m2), (Pos.compare_spec m2 m3),
      (Pos.compare_spec m1 m3);
    simpl; try congruence; lia.
Qed.

Lemma leb_trans a b c : (a <=? b) = true -> (b <=? c) = true -> (a <=? c) = true.
Proof. rewrite !leb_spec. apply SFleb_trans. Qed.

Lemma SFcompare_Eq x y :
  SFcompare x y = Some Eq ->
  x = y \/ exists s s', x = S754_zero s /\ y = S754_zero s'.
Proof.
  destruct x as [[]|[]| |[] m1 e1], y as [[]|[]| |[] m2 e2]; simpl;
    try discriminate; eauto;
    change (Pos.compare_cont Eq m1 m2) with (Pos.compare m1 m2);
    destruct (Z.compare_spec e1 e2); try discriminate;
    destruct (Pos.compare_spec m1 m2); try discriminate; subst; auto.
Qed.

Lemma ltb_antisym a b : (a <? b) = true -> (b <? a) = false.
Proof.
  rewrite !ltb_spec. unfold SFltb.
  rewrite (SFcompare_antisym (Prim2SF a) (Prim2SF b)).
  destruct (SFcompare _ _) as [[]|]; simpl; congruence.
Qed.

Lemma zero_classes n s :
  Prim2SF n = S754_zero s -> Js.is_pzero n = negb s /\ Js.is_nzero n = s.
Proof.
  unfold Js.is_pzero, Js.is_nzero. rewrite classify_spec. intros ->.
  destruct s; split; reflexivity.
Qed.

Lemma is_nan_true x : is_nan x = true -> Prim2SF x = S754_nan.
Proof.
  intros H. destruct (Prim2SF x) eqn:E; try reflexivity;
    assert (is_nan x = false) by (apply is_nan_false; rewrite E; discriminate);
    congruence.
Qed.

Lemma is_nan_true_eq x y : is_nan x = true -> is_nan y = true -> x = y.
Proof.
  intros Hx%is_nan_true Hy%is_nan_true. apply Prim2SF_inj. congruence.
Qed.

(** [Math.max] does not depend on the order of its two arguments. *)
Lemma Math_max_comm a b : Js.Math_max a b = Js.Math_max b a.
Proof.
  destruct (is_nan a) eqn:Ha.
  { apply is_nan_true_eq; apply Math_max_nan; auto. }
  destruct (is_nan b) eqn:Hb.
  { apply is_nan_true_eq; apply Math_max_nan; auto. }
  rewrite !Math_max_unfold by assumption.
  destruct (Js.is_pzero b && Js.is_nzero a) eqn:Z1.
  { apply andb_prop in Z1 as [->%is_pzero_eq ->%is_nzero_eq]. reflexivity. }
  destruct (Js.is_pzero a && Js.is_nzero b) eqn:Z2.
  { apply andb_prop in Z2 as [->%is_pzero_eq ->%is_nzero_eq]. reflexivity. }
  destruct (a <? b) eqn:L1.
  { now rewrite (ltb_antisym a b L1). }
  destruct (b <? a) eqn:L2; [reflexivity|].
  apply is_nan_false in Ha, Hb.
  rewrite ltb_spec in L1, L2. unfold SFltb in L1, L2.
  rewrite (SFcompare_antisym (Prim2SF a) (Prim2SF b)) in L2.
  destruct (SFcompare (Prim2SF a) (Prim2SF b)) as [[]|] eqn:C; try discriminate.
  - apply SFcompare_Eq in C as [E | (s & s' & Ea & Eb)].
    + now apply Prim2SF_inj.
    + destruct (zero_classes a s Ea) as [Pa Na], (zero_classes b s' Eb) as [Pb Nb].
      rewrite Pb, Na in Z1. rewrite Pa, Nb in Z2.
      apply Prim2SF_inj. rewrite Ea, Eb.
      destruct s, s'; simpl in *; congruence.
  - destruct (Prim2SF a) as [[]|[]| |[] m1 e1], (Prim2SF b) as [[]|[]| |[] m2 e2];
      simpl in C; congruence.
Qed.
End OrderFacts.

Section MergeProps.
Local Open Scope float_scope.

Lemma ge_nan t x : is_nan x = true -> Js.ge x t = false.
Proof.
  intros H%is_nan_true. unfold Js.ge. rewrite leb_spec, H. unfold SFleb.
  destruct (Prim2SF t) as [[]|[]| |[] m e]; reflexivity.
Qed.

(** [Math.max] reaches a threshold exactly when one of its arguments does. *)
Lemma Math_max_reaches a b t :
  is_nan a = false -> is_nan b = false ->
  Js.ge (Js.Math_max a b) t = Js.ge a t || Js.ge b t.
Proof.
  intros Ha Hb. destruct (Math_max_ge a b Ha Hb) as [Ga Gb]. unfold Js.ge in *.
  destruct (t <=? a) eqn:Ta; [exact (leb_trans _ _ _ Ta Ga)|].
  destruct (t <=? b) eqn:Tb; [exact (leb_trans _ _ _ Tb Gb)|].
  destruct (Math_max_cases a b Ha Hb) as [-> | ->]; assumption.
Qed.

(** X18. The level of the merged assessment, read off the two scores: [high] as
    soon as one of them reaches the [highRisk] threshold, otherwise [medium]
    as soon as one of them reaches the [mediumRisk] threshold, otherwise
    [low]. The levels the two assessments carry play no part. *)
Theorem merge_level_by_scores :
  forall (config : PaymentConfiguration.t) (providerRisk ownRisk : RiskAssessment.t),
    is_nan (RiskAssessment.score providerRisk) = false ->
    is_nan (RiskAssessment.score ownRisk) = false ->
    let highRisk := Js.nullish (PaymentConfiguration.highRisk config) default_highRisk in
    let mediumRisk :=
      Js.nullish (PaymentConfiguration.mediumRisk config) default_mediumRisk in
    RiskAssessment.level (merge_assessments config providerRisk ownRisk) =
      if Js.ge (RiskAssessment.score providerRisk) highRisk
         || Js.ge (RiskAssessment.score ownRisk) highRisk
      then high
      else if Js.ge (RiskAssessment.score providerRisk) mediumRisk
              || Js.ge (RiskAssessment.score ownRisk) mediumRisk
      then medium
      else low.
Proof.
  intros config p o Hp Ho hi med. unfold merge_assessments.
  cbn [RiskAssessment.level]. fold hi med.
  now rewrite !Math_max_reaches by assumption.
Qed.

(** X19. Swapping the two assessments changes neither the merged score nor the
    merged level (only the order of the concatenated lists). *)
Theorem merge_symmetric :
  forall (config : PaymentConfiguration.t) (providerRisk ownRisk : RiskAssessment.t),
    RiskAssessment.score (merge_assessments config providerRisk ownRisk)
    = RiskAssessment.score (merge_assessments config ownRisk providerRisk)
    /\ RiskAssessment.level (merge_assessments config providerRisk ownRisk)
       = RiskAssessment.level (merge_assessments config ownRisk providerRisk).
Proof.
  intros config p o. unfold merge_assessments.
  cbn [RiskAssessment.score RiskAssessment.level].
  now rewrite (Math_max_comm (RiskAssessment.score p) (RiskAssessment.score o)).
Qed.

(** X20. When one of the two scores is [NaN], the merged score is [NaN] and the
    merged level is [low], whatever the other score and the thresholds. *)
Theorem merge_nan_is_low :
  forall (config : PaymentConfiguration.t) (providerRisk ownRisk : RiskAssessment.t),
    is_nan (RiskAssessment.score providerRisk) = true
    \/ is_nan (RiskAssessment.score ownRisk) = true ->
    is_nan (RiskAssessment.score (merge_assessments config providerRisk ownRisk)) = true
    /\ RiskAssessment.level (merge_assessments config providerRisk ownRisk) = low.
Proof.
  intros config p o H. apply Math_max_nan in H. unfold merge_assessments.
  cbn [RiskAssessment.score RiskAssessment.level].
  split; [exact H|]. now rewrite !ge_nan by exact H.
Qed.
End MergeProps.

(** ** Initialization guard and failure containment *)

Section Guard.
Context {Ext : Type} (co : Collaborators.t Ext).
Implicit Types s : Processor.t Ext.

Lemma guard_throws {A} (k : M Ext A) s :
  Processor.initialized s = false ->
  (ensureInitialized ;;; k) s = (Thrown not_initialized_thrown, s).
Proof. intros H. unfold bind, ensureInitialized. now rewrite H. Qed.

(** X1. Before [initialize] has succeeded, every operation throws the same
    [PaymentError] (code [payment_error], status 500, not retryable) and
    does nothing else: the state, call log included, is unchanged. *)
Theorem operations_require_initialization :
  forall s (request : PaymentRequest.t) (transactionId : string) (amount : option float),
    Processor.initialized s = false ->
    processPayment co request s = (Thrown not_initialized_thrown, s)
    /\ authorizePayment co request s = (Thrown not_initialized_thrown, s)
    /\ capturePayment co transactionId amount s = (Thrown not_initialized_thrown, s)
    /\ cancelPayment co transactionId s = (Thrown not_initialized_thrown, s)
    /\ assessRisk co request s = (Thrown not_initialized_thrown, s)
    /\ getTransaction co transactionId s = (Thrown not_initialized_thrown, s).
Proof.
  intros s request id amount H.
  unfold authorizePayment, processPayment, capturePayment, cancelPayment, assessRisk,
    getTransaction.
  repeat split; now apply guard_throws.
Qed.

Lemma try_envelope_returns {T} (m : M Ext (Result.t T)) log s :
  exists r s', try_catch m (catch_to_envelope log) s = (Returned r, s').
Proof.
  unfold try_catch. destruct (m s) as [[r|e] s1]; [eauto|].
  rewrite catch_to_envelope_run. eauto.
Qed.

Lemma guarded_returns {T} (info : string) (m : M Ext (Result.t T)) log s :
  Processor.initialized s = true ->
  exists r s',
    (ensureInitialized ;;; record (LoggerInfo info) ;;;
     try_catch m (catch_to_envelope log)) s = (Returned r, s').
Proof.
  intros H.
  rewrite (bind_returned _ _ _ _ _ (ensureInitialized_run s H)).
  rewrite (bind_returned _ _ _ _ _ (record_run _ s)).
  apply try_envelope_returns.
Qed.

Lemma framed_getTransaction transactionId :
  framed (fun _ => true) (getTransaction co transactionId).
Proof. unfold getTransaction. frame_steps; reflexivity. Qed.

(** X2. On an initialized processor no operation throws: whatever the
    collaborators and the providers do, return or throw, each operation
    returns an envelope, and the processor is still initialized afterwards. *)
Theorem operations_never_throw :
  forall s (request : PaymentRequest.t) (transactionId : string) (amount : option float),
    Processor.initialized s = true ->
    (exists r s', processPayment co request s = (Returned r, s')
                  /\ Processor.initialized s' = true)
    /\ (exists r s', authorizePayment co request s = (Returned r, s')
                     /\ Processor.initialized s' = true)
    /\ (exists r s', capturePayment co transactionId amount s = (Returned r, s')
                     /\ Processor.initialized s' = true)
    /\ (exists r s', cancelPayment co transactionId s = (Returned r, s')
                     /\ Processor.initialized s' = true)
    /\ (exists r s', assessRisk co request s = (Returned r, s')
                     /\ Processor.initialized s' = true)
    /\ (exists r s', getTransaction co transactionId s = (Returned r, s')
                     /\ Processor.initialized s' = true).
Proof.
  intros s request id amount H.
  assert (forall T (m : M Ext (Result.t T)),
            framed (fun _ => true) m ->
            (exists r s', m s = (Returned r, s')) ->
            exists r s', m s = (Returned r, s') /\ Processor.initialized s' = true)
    as Hkeep.
  { intros T m Hm (r & s' & E). exists r, s'. split; [exact E|].
    destruct (Hm _ _ _ E) as (_ & _ & I & _). congruence. }
  destruct (operations_keep_processor co request id amount) as (F1 & F2 & F3 & F4).
  destruct (operations_keep_processor co (PaymentRequest.with_authorizeOnly request)
              id amount) as (F1' & _).
  repeat split; apply Hkeep; try assumption.
  - now apply guarded_returns.
  - now apply guarded_returns.
  - now apply guarded_returns.
  - now apply guarded_returns.
  - now apply assessRisk_returns.
  - apply framed_getTransaction.
  - now apply guarded_returns.
Qed.

(** X3. When validation throws, [processPayment] returns the failure envelope
    built from the thrown value by [toPaymentError]; the payment method is
    not looked up and no collaborator is called: the log gains the two log
    lines only. *)
Theorem processPayment_validation_failure :
  forall s (request : PaymentRequest.t) (thrown : JsValue),
    Processor.initialized s = true ->
    Collaborators.validatePaymentRequest co request = Thrown thrown ->
    processPayment co request s =
      (Returned (Result.of_error (toPaymentError thrown default_unknown_message)),
       called [LoggerInfo "Processing payment";
               LoggerError "Payment processing failed"] (Processor.ext s) s).
Proof.
  intros s request e Hinit Hval. unfold processPayment.
  rewrite (bind_returned _ _ _ _ _ (ensureInitialized_run s Hinit)).
  rewrite (bind_returned _ _ _ _ _ (record_run _ s)).
  erewrite try_thrown by (apply bind_thrown; rewrite Hval; reflexivity).
  rewrite catch_to_envelope_run, called_called. reflexivity.
Qed.

(** X4. When the payment method's lookup comes back without success or without
    data, [processPayment] returns [payment_method_error]; fraud detection is
    not run, even when enabled, and no provider is looked up or called. *)
Theorem processPayment_payment_method_error :
  forall s (request : PaymentRequest.t) (paymentMethod : Result.t PaymentMethod.t)
         (e1 : Ext),
    Processor.initialized s = true ->
    Collaborators.validatePaymentRequest co request = Returned tt ->
    Collaborators.getPaymentMethod co (PaymentRequest.paymentMethodId request)
      (Processor.ext s) = (Returned paymentMethod, e1) ->
    Result.success paymentMethod = false \/ Result.data paymentMethod = None ->
    processPayment co request s =
      (Returned
         (Result.mk false None None (Some "payment_method_error")
            (Some "Invalid payment method ID or payment method not found")),
       called [LoggerInfo "Processing payment";
               GetPaymentMethod (PaymentRequest.paymentMethodId request)] e1 s).
Proof.
  intros s request pm e1 Hinit Hval Hpm Hbad. unfold processPayment.
  rewrite (bind_returned _ _ _ _ _ (ensureInitialized_run s Hinit)).
  rewrite (bind_returned _ _ _ _ _ (record_run _ s)).
  erewrite try_returned; [reflexivity|].
  erewrite (bind_returned _ _ _ tt) by (rewrite Hval; reflexivity).
  erewrite bind_returned by (apply call_run; simpl; eassumption).
  rewrite called_called.
  destruct Hbad as [-> | ->]; [reflexivity|].
  destruct (Result.success pm); reflexivity.
Qed.

(** X5. When the provider's payment method throws, [processPayment] returns the
    failure envelope built from the thrown value, which keeps the code of a
    typed error; nothing is saved. *)
Theorem processPayment_provider_throws :
  forall (request : PaymentRequest.t) s
         (paymentMethod : Result.t PaymentMethod.t) (method : PaymentMethod.t)
         (e1 : Ext) s2 (provider : PaymentProvider.t Ext) (thrown : JsValue) (e3 : Ext),
    Processor.initialized s = true ->
    Collaborators.validatePaymentRequest co request = Returned tt ->
    Collaborators.getPaymentMethod co (PaymentRequest.paymentMethodId request)
      (Processor.ext s) = (Returned paymentMethod, e1) ->
    Result.success paymentMethod = true ->
    Result.data paymentMethod = Some method ->
    fraud_gate co request
      (called [LoggerInfo "Processing payment";
               GetPaymentMethod (PaymentRequest.paymentMethodId request)] e1 s)
      = (Returned None, s2) ->
    Processor.providerRegistry s !! PaymentMethod.type method = Some provider ->
    (match PaymentRequest.authorizeOnly request with
     | Some true => PaymentProvider.authorizePayment provider request
     | _ => PaymentProvider.processPayment provider request
     end) (Processor.ext s2) = (Thrown thrown, e3) ->
    processPayment co request s =
      (Returned (Result.of_error (toPaymentError thrown default_unknown_message)),
       called [dispatch_call provider request;
               LoggerError "Payment processing failed"] e3 s2).
Proof.
  intros request s pm method e1 s2 p e e3 Hinit Hval Hpm Hok Hdata Hgate Hreg Hverb.
  pose proof (framed_fraud_gate co request _ _ _ Hgate) as (_ & R & _).
  rewrite (processPayment_resolves co request s pm method e1) by assumption.
  unfold try_catch, processPayment_resolved.
  rewrite (bind_returned _ _ _ _ _ Hgate).
  rewrite (bind_returned _ _ _ _ _ (getProvider_run _ _)).
  rewrite R, called_registry, Hreg.
  rewrite (bind_thrown _ _ _ _ _ (dispatch_run p request s2 _ e3 Hverb)).
  rewrite catch_to_envelope_run, called_called. reflexivity.
Qed.

Lemma framed_authorizePayment request :
  framed not_process_call (authorizePayment co request).
Proof.
  unfold authorizePayment, processPayment, processPayment_resolved, fraud_gate,
    dispatch, assessRisk.
  cbn [PaymentRequest.with_authorizeOnly PaymentRequest.authorizeOnly].
  frame_steps; try reflexivity.
  intros s o s' [= <- <-]. apply only_calls_refl.
Qed.

(** X7. [authorizePayment] runs [processPayment] on the request with
    [authorizeOnly] forced to true, so whatever flag the request carries no
    provider's [processPayment] is ever called: every call it makes is
    another one. *)
Theorem authorizePayment_never_processes :
  forall (request : PaymentRequest.t) s o s',
    authorizePayment co request s = (o, s') ->
    processPayment co (PaymentRequest.with_authorizeOnly request) s = (o, s')
    /\ exists cs : list Call,
         Processor.calls s' = Processor.calls s ++ cs
         /\ forallb not_process_call cs = true.
Proof.
  intros request s o s' H. split; [exact H|].
  destruct (framed_authorizePayment request s o s' H) as (_ & _ & _ & cs & L & F).
  eauto.
Qed.

Lemma framed_processPayment_capture request :
  PaymentRequest.authorizeOnly request <> Some true ->
  framed not_authorize_call (processPayment co request).
Proof.
  intros Hflag.
  unfold processPayment, processPayment_resolved, fraud_gate, dispatch, assessRisk.
  destruct (PaymentRequest.authorizeOnly request) as [[]|]; [congruence| |];
    (frame_steps; try reflexivity; intros s o s' [= <- <-]; apply only_calls_refl).
Qed.

(** X8. A request whose [authorizeOnly] flag is absent or false is never sent to
    a provider's [authorizePayment]. *)
Theorem processPayment_never_authorizes :
  forall (request : PaymentRequest.t) s o s',
    PaymentRequest.authorizeOnly request <> Some true ->
    processPayment co request s = (o, s') ->
    exists cs : list Call,
      Processor.calls s' = Processor.calls s ++ cs
      /\ forallb not_authorize_call cs = true.
Proof.
  intros request s o s' Hflag H.
  destruct (framed_processPayment_capture request Hflag s o s' H)
    as (_ & _ & _ & cs & L & F).
  eauto.
Qed.
End Guard.

(** ** Capture, cancel and lookup *)

Section CaptureCancel.
Context {Ext : Type} (co : Collaborators.t Ext).
Implicit Types s : Processor.t Ext.

(** [capturePayment] and [cancelPayment] up to the lookup of the transaction. *)
Lemma capturePayment_looks_up transactionId amount s found (e1 : Ext) k :
  Processor.initialized s = true ->
  Collaborators.getTransaction co transactionId (Processor.ext s) = (Returned found, e1) ->
  (forall s1,
     s1 = called [LoggerInfo ("Capturing payment for transaction: " +:+ transactionId);
                  GetTransaction transactionId] e1 s ->
     try_catch
       (match Result.success found, Result.data found with
        | true, Some transaction =>
            if negb (bool_decide (Transaction.status transaction = authorized)) then
              ret (Result.fail "invalid_transaction_state"
                     ("Transaction with ID " +:+ transactionId
                        +:+ " cannot be captured (status: "
                        +:+ TransactionStatus_string (Transaction.status transaction)
                        +:+ ")"))
            else
              provider <-
                getProviderForPaymentMethod (Transaction.paymentMethodType transaction) ;;
              match provider with
              | None =>
                  ret (Result.fail "provider_not_found"
                         ("No provider available for payment method type: "
                            +:+ PaymentMethodType_string
                                  (Transaction.paymentMethodType transaction)))
              | Some provider =>
                  result <-
                    call (ProviderCapturePayment (PaymentProvider.id provider)
                            transactionId amount)
                      (PaymentProvider.capturePayment provider transactionId amount) ;;
                  match Result.success result, Result.data result with
                  | true, Some tx =>
                      call (UpdateTransaction tx) (Collaborators.updateTransaction co tx) ;;;
                      ret result
                  | _, _ => ret result
                  end
              end
        | _, _ =>
            ret (Result.fail "transaction_not_found"
                   ("Transaction with ID " +:+ transactionId +:+ " not found"))
        end)
       (catch_to_envelope
          ("Failed to capture payment for transaction: " +:+ transactionId)) s1 = k) ->
  capturePayment co transactionId amount s = k.
Proof.
  intros Hinit Hget Hk. unfold capturePayment.
  rewrite (bind_returned _ _ _ _ _ (ensureInitialized_run s Hinit)).
  rewrite (bind_returned _ _ _ _ _ (record_run _ s)).
  rewrite <- (Hk _ eq_refl). unfold try_catch.
  erewrite bind_returned by (apply call_run; simpl; eassumption).
  now rewrite called_called.
Qed.

Lemma cancelPayment_looks_up transactionId s found (e1 : Ext) k :
  Processor.initialized s = true ->
  Collaborators.getTransaction co transactionId (Processor.ext s) = (Returned found, e1) ->
  (forall s1,
     s1 = called [LoggerInfo ("Canceling payment for transaction: " +:+ transactionId);
                  GetTransaction transactionId] e1 s ->
     try_catch
       (match Result.success found, Result.data found with
        | true, Some transaction =>
            if not_cancelable (Transaction.status transaction) then
              ret (Result.fail "invalid_transaction_state"
                     ("Transaction with ID " +:+ transactionId
                        +:+ " cannot be canceled (status: "
                        +:+ TransactionStatus_string (Transaction.status transaction)
                        +:+ ")"))
            else
              provider <-
                getProviderForPaymentMethod (Transaction.paymentMethodType transaction) ;;
              match provider with
              | None =>
                  ret (Result.fail "provider_not_found"
                         ("No provider available for payment method type: "
                            +:+ PaymentMethodType_string
                                  (Transaction.paymentMethodType transaction)))
              | Some provider =>
                  result <-
                    call (ProviderCancelPayment (PaymentProvider.id provider) transactionId)
                      (PaymentProvider.cancelPayment provider transactionId) ;;
                  match Result.success result, Result.data result with
                  | true, Some tx =>
                      call (UpdateTransaction tx) (Collaborators.updateTransaction co tx) ;;;
                      ret result
                  | _, _ => ret result
                  end
              end
        | _, _ =>
            ret (Result.fail "transaction_not_found"
                   ("Transaction with ID " +:+ transactionId +:+ " not found"))
        end)
       (catch_to_envelope
          ("Failed to cancel payment for transaction: " +:+ transactionId)) s1 = k) ->
  cancelPayment co transactionId s = k.
Proof.
  intros Hinit Hget Hk. unfold cancelPayment.
  rewrite (bind_returned _ _ _ _ _ (ensureInitialized_run s Hinit)).
  rewrite (bind_returned _ _ _ _ _ (record_run _ s)).
  rewrite <- (Hk _ eq_refl). unfold try_catch.
  erewrite bind_returned by (apply call_run; simpl; eassumption).
  now rewrite called_called.
Qed.

(** X9. When the transaction's lookup comes back without success or without
    data, [capturePayment] and [cancelPayment] return
    [transaction_not_found] with a message naming the id; no provider is
    looked up or called and nothing is written. *)
Theorem capture_cancel_transaction_not_found :
  forall (transactionId : string) (amount : option float) s
         (found : Result.t Transaction.t) (e1 : Ext),
    Processor.initialized s = true ->
    Collaborators.getTransaction co transactionId (Processor.ext s)
      = (Returned found, e1) ->
    Result.success found = false \/ Result.data found = None ->
    let envelope : Result.t Transaction.t :=
      Result.mk false None None (Some "transaction_not_found")
        (Some ("Transaction with ID " +:+ transactionId +:+ " not found")) in
    capturePayment co transactionId amount s =
      (Returned envelope,
       called [LoggerInfo ("Capturing payment for transaction: " +:+ transactionId);
               GetTransaction transactionId] e1 s)
    /\ cancelPayment co transactionId s =
         (Returned envelope,
          called [LoggerInfo ("Canceling payment for transaction: " +:+ transactionId);
                  GetTransaction transactionId] e1 s).
Proof.
  intros id amount s found e1 Hinit Hget Hbad envelope. split.
  - apply (capturePayment_looks_up id amount s found e1); try assumption.
    intros s1 ->. unfold try_catch.
    destruct Hbad as [-> | ->]; [reflexivity|].
    destruct (Result.success found); reflexivity.
  - apply (cancelPayment_looks_up id s found e1); try assumption.
    intros s1 ->. unfold try_catch.
    destruct Hbad as [-> | ->]; [reflexivity|].
    destruct (Result.success found); reflexivity.
Qed.

(** X10. For an authorized transaction whose payment-method type has no provider
    bound, [capturePayment] and [cancelPayment] return [provider_not_found],
    naming the type; nothing is written. *)
Theorem capture_cancel_provider_not_found :
  forall (transactionId : string) (amount : option float) s
         (found : Result.t Transaction.t) (transaction : Transaction.t) (e1 : Ext),
    Processor.initialized s = true ->
    Collaborators.getTransaction co transactionId (Processor.ext s)
      = (Returned found, e1) ->
    Result.success found = true ->
    Result.data found = Some transaction ->
    Transaction.status transaction = authorized ->
    Processor.providerRegistry s !! Transaction.paymentMethodType transaction = None ->
    let envelope : Result.t Transaction.t :=
      Result.mk false None None (Some "provider_not_found")
        (Some ("No provider available for payment method type: "
                 +:+ PaymentMethodType_string
                       (Transaction.paymentMethodType transaction))) in
    capturePayment co transactionId amount s =
      (Returned envelope,
       called [LoggerInfo ("Capturing payment for transaction: " +:+ transactionId);
               GetTransaction transactionId] e1 s)
    /\ cancelPayment co transactionId s =
         (Returned envelope,
          called [LoggerInfo ("Canceling payment for transaction: " +:+ transactionId);
                  GetTransaction transactionId] e1 s).
Proof.
  intros id amount s found tx e1 Hinit Hget Hok Hdata Hst Hreg envelope. split.
  - apply (capturePayment_looks_up id amount s found e1); try assumption.
    intros s1 ->. rewrite Hok, Hdata, Hst. cbn [bool_decide negb].
    rewrite bool_decide_eq_true_2 by reflexivity. cbn [negb].
    erewrite try_returned; [reflexivity|].
    rewrite (bind_returned _ _ _ _ _ (getProvider_run _ _)).
    now rewrite called_registry, Hreg.
  - apply (cancelPayment_looks_up id s found e1); try assumption.
    intros s1 ->. rewrite Hok, Hdata, Hst.
    change (not_cancelable authorized) with false. cbv iota.
    erewrite try_returned; [reflexivity|].
    rewrite (bind_returned _ _ _ _ _ (getProvider_run _ _)).
    now rewrite called_registry, Hreg.
Qed.

(** The tail shared by capture and cancel: the provider's envelope, the
    update when it carries a transaction, and what is returned. *)
Lemma update_and_return (c : Call) (result : Result.t Transaction.t) log (e3 : Ext) s :
  try_catch
    (result <- (fun s1 => (Returned result, called [c] e3 s1)) ;;
     match Result.success result, Result.data result with
     | true, Some tx =>
         call (UpdateTransaction tx) (Collaborators.updateTransaction co tx) ;;;
         ret result
     | _, _ => ret result
     end)
    (catch_to_envelope log) s =
  match Result.success result, Result.data result with
  | true, Some tx =>
      match Collaborators.updateTransaction co tx e3 with
      | (Returned _, e4) => (Returned result, called [c; UpdateTransaction tx] e4 s)
      | (Thrown error, e4) =>
          (Returned (Result.of_error (toPaymentError error default_unknown_message)),
           called [c; UpdateTransaction tx; LoggerError log] e4 s)
      end
  | _, _ => (Returned result, called [c] e3 s)
  end.
Proof.
  unfold try_catch, bind at 1.
  destruct (Result.success result), (Result.data result) as [tx|]; try reflexivity.
  destruct (Collaborators.updateTransaction co tx e3) as [[r|error] e4] eqn:Eu.
  - erewrite bind_returned by (apply call_run; exact Eu).
    unfold ret. now rewrite called_called.
  - erewrite bind_thrown by (apply call_run; exact Eu).
    now rewrite catch_to_envelope_run, !called_called.
Qed.

(** X11. For an authorized transaction whose type has a provider, when the
    provider's [capturePayment], called with the same id and amount,
    returns an envelope: [updateTransaction] is called exactly when the
    envelope has [success = true] and carries a transaction; the provider's
    envelope is returned as it is unless the update throws, in which case
    the failure envelope built from the thrown value is returned. *)
Theorem capturePayment_dispatch :
  forall (transactionId : string) (amount : option float) s
         (found : Result.t Transaction.t) (transaction : Transaction.t) (e1 : Ext)
         (provider : PaymentProvider.t Ext) (result : Result.t Transaction.t) (e3 : Ext),
    Processor.initialized s = true ->
    Collaborators.getTransaction co transactionId (Processor.ext s)
      = (Returned found, e1) ->
    Result.success found = true ->
    Result.data found = Some transaction ->
    Transaction.status transaction = authorized ->
    Processor.providerRegistry s !! Transaction.paymentMethodType transaction
      = Some provider ->
    PaymentProvider.capturePayment provider transactionId amount e1
      = (Returned result, e3) ->
    let log1 := LoggerInfo ("Capturing payment for transaction: " +:+ transactionId) in
    let verb := ProviderCapturePayment (PaymentProvider.id provider) transactionId amount in
    match Result.success result, Result.data result with
    | true, Some tx =>
        match Collaborators.updateTransaction co tx e3 with
        | (Returned _, e4) =>
            capturePayment co transactionId amount s =
              (Returned result,
               called [log1; GetTransaction transactionId; verb; UpdateTransaction tx] e4 s)
        | (Thrown error, e4) =>
            capturePayment co transactionId amount s =
              (Returned (Result.of_error (toPaymentError error default_unknown_message)),
               called [log1; GetTransaction transactionId; verb; UpdateTransaction tx;
                       LoggerError ("Failed to capture payment for transaction: "
                                      +:+ transactionId)] e4 s)
        end
    | _, _ =>
        capturePayment co transactionId amount s =
          (Returned result, called [log1; GetTransaction transactionId; verb] e3 s)
    end.
Proof.
  intros id amount s found tx e1 p result e3 Hinit Hget Hok Hdata Hst Hreg Hcap log1 verb.
  assert (capturePayment co id amount s =
            try_catch
              (result <- (fun s1 => (Returned result, called [verb] e3 s1)) ;;
               match Result.success result, Result.data result with
               | true, Some tx =>
                   call (UpdateTransaction tx) (Collaborators.updateTransaction co tx) ;;;
                   ret result
               | _, _ => ret result
               end)
              (catch_to_envelope ("Failed to capture payment for transaction: " +:+ id))
              (called [log1; GetTransaction id] e1 s)) as ->.
  { apply (capturePayment_looks_up id amount s found e1); try assumption.
    intros s1 ->. rewrite Hok, Hdata, Hst.
    rewrite bool_decide_eq_true_2 by reflexivity. cbn [negb].
    unfold try_catch.
    rewrite (bind_returned _ _ _ _ _ (getProvider_run _ _)).
    rewrite called_registry, Hreg.
    erewrite (bind_returned (call _ _)) by (apply call_run; exact Hcap).
    reflexivity. }
  rewrite update_and_return.
  destruct (Result.success result), (Result.data result) as [tx'|];
    rewrite ?called_called; try reflexivity.
  destruct (Collaborators.updateTransaction co tx' e3) as [[r|error] e4];
    rewrite called_called; reflexivity.
Qed.

(** X12. The same for [cancelPayment], from each of the three statuses it accepts:
    [initialized], [authorized], [pending]. *)
Theorem cancelPayment_dispatch :
  forall (transactionId : string) s
         (found : Result.t Transaction.t) (transaction : Transaction.t) (e1 : Ext)
         (provider : PaymentProvider.t Ext) (result : Result.t Transaction.t) (e3 : Ext),
    Processor.initialized s = true ->
    Collaborators.getTransaction co transactionId (Processor.ext s)
      = (Returned found, e1) ->
    Result.success found = true ->
    Result.data found = Some transaction ->
    Transaction.status transaction = initialized
    \/ Transaction.status transaction = authorized
    \/ Transaction.status transaction = pending ->
    Processor.providerRegistry s !! Transaction.paymentMethodType transaction
      = Some provider ->
    PaymentProvider.cancelPayment provider transactionId e1 = (Returned result, e3) ->
    let log1 := LoggerInfo ("Canceling payment for transaction: " +:+ transactionId) in
    let verb := ProviderCancelPayment (PaymentProvider.id provider) transactionId in
    match Result.success result, Result.data result with
    | true, Some tx =>
        match Collaborators.updateTransaction co tx e3 with
        | (Returned _, e4) =>
            cancelPayment co transactionId s =
              (Returned result,
               called [log1; GetTransaction transactionId; verb; UpdateTransaction tx] e4 s)
        | (Thrown error, e4) =>
            cancelPayment co transactionId s =
              (Returned (Result.of_error (toPaymentError error default_unknown_message)),
               called [log1; GetTransaction transactionId; verb; UpdateTransaction tx;
                       LoggerError ("Failed to cancel payment for transaction: "
                                      +:+ transactionId)] e4 s)
        end
    | _, _ =>
        cancelPayment co transactionId s =
          (Returned result, called [log1; GetTransaction transactionId; verb] e3 s)
    end.
Proof.
  intros id s found tx e1 p result e3 Hinit Hget Hok Hdata Hst Hreg Hcan log1 verb.
  assert (not_cancelable (Transaction.status tx) = false) as Hnc
    by (destruct Hst as [-> | [-> | ->]]; reflexivity).
  assert (cancelPayment co id s =
            try_catch
              (result <- (fun s1 => (Returned result, called [verb] e3 s1)) ;;
               match Result.success result, Result.data result with
               | true, Some tx =>
                   call (UpdateTransaction tx) (Collaborators.updateTransaction co tx) ;;;
                   ret result
               | _, _ => ret result
               end)
              (catch_to_envelope ("Failed to cancel payment for transaction: " +:+ id))
              (called [log1; GetTransaction id] e1 s)) as ->.
  { apply (cancelPayment_looks_up id s found e1); try assumption.
    intros s1 ->. rewrite Hok, Hdata, Hnc.
    unfold try_catch.
    rewrite (bind_returned _ _ _ _ _ (getProvider_run _ _)).
    rewrite called_registry, Hreg.
    erewrite (bind_returned (call _ _)) by (apply call_run; exact Hcan).
    reflexivity. }
  rewrite update_and_return.
  destruct (Result.success result), (Result.data result) as [tx'|];
    rewrite ?called_called; try reflexivity.
  destruct (Collaborators.updateTransaction co tx' e3) as [[r|error] e4];
    rewrite called_called; reflexivity.
Qed.

(** X13. [getTransaction] hands back the store's envelope as it is, found or not,
    and turns a throw of the store into a failure envelope. *)
Theorem getTransaction_passes_through :
  forall (transactionId : string) s,
    Processor.initialized s = true ->
    let log1 := LoggerInfo ("Retrieving transaction: " +:+ transactionId) in
    match Collaborators.getTransaction co transactionId (Processor.ext s) with
    | (Returned found, e1) =>
        getTransaction co transactionId s =
          (Returned found, called [log1; GetTransaction transactionId] e1 s)
    | (Thrown error, e1) =>
        getTransaction co transactionId s =
          (Returned (Result.of_error (toPaymentError error default_unknown_message)),
           called [log1; GetTransaction transactionId;
                   LoggerError ("Failed to retrieve transaction: " +:+ transactionId)]
             e1 s)
    end.
Proof.
  intros id s Hinit log1. unfold getTransaction.
  rewrite (bind_returned _ _ _ _ _ (ensureInitialized_run s Hinit)).
  rewrite (bind_returned _ _ _ _ _ (record_run _ s)).
  destruct (Collaborators.getTransaction co id (Processor.ext s)) as [[found|error] e1]
    eqn:Eg.
  - erewrite try_returned by (apply call_run; exact Eg). now rewrite called_called.
  - erewrite try_thrown by (apply call_run; exact Eg).
    now rewrite catch_to_envelope_run, !called_called.
Qed.
End CaptureCancel.

(** ** The paths of [assessRisk] that do not merge *)

Section RiskFallback.
Context {Ext : Type} (co : Collaborators.t Ext).
Implicit Types s : Processor.t Ext.

(** [assessRisk] with detection enabled, once the provider branch has run
    through the calls [cs] and fallen through: the internal detector is
    asked, and its envelope is the result. *)
Lemma assessRisk_falls_back request s cs (e1 : Ext) :
  Processor.initialized s = true ->
  PaymentConfiguration.fraud_enabled (Processor.config s) = true ->
  assessRisk_combined co request s = (Returned None, called cs e1 s) ->
  match Collaborators.fraudAssessRisk co request e1 with
  | (Returned r, e2) =>
      assessRisk co request s =
        (Returned r, called (cs ++ [FraudDetectorAssessRisk request]) e2 s)
  | (Thrown error, e2) =>
      assessRisk co request s =
        (Returned (Result.of_error (toPaymentError error default_unknown_message)),
         called (cs ++ [FraudDetectorAssessRisk request;
                        LoggerError "Failed to assess risk"]) e2 s)
  end.
Proof.
  intros Hinit Hon Hc.
  assert (forall k,
            try_catch
              (combined <- assessRisk_combined co request ;;
               match combined with
               | Some r => ret r
               | None =>
                   call (FraudDetectorAssessRisk request)
                     (Collaborators.fraudAssessRisk co request)
               end)
              (catch_to_envelope "Failed to assess risk") s = k ->
            assessRisk co request s = k) as Hrun.
  { intros k <-. unfold assessRisk.
    rewrite (bind_returned _ _ _ _ _ (ensureInitialized_run s Hinit)).
    unfold bind at 1, get_config at 1. now rewrite Hon. }
  destruct (Collaborators.fraudAssessRisk co request e1) as [[r|error] e2] eqn:Ef;
    apply Hrun; unfold try_catch; rewrite (bind_returned _ _ _ _ _ Hc).
  - erewrite call_run by exact Ef. now rewrite called_called.
  - erewrite call_run by exact Ef. cbv beta iota.
    now rewrite catch_to_envelope_run, !called_called.
Qed.

(** X14. With detection enabled, when no provider assessment is to be had (the
    payment method is not resolved, or no provider is bound to its type, or
    the provider has no [assessRisk]), [assessRisk] asks the internal
    detector once and returns its envelope as it is, successful or not. *)
Theorem assessRisk_internal_only :
  forall (request : PaymentRequest.t) s (paymentMethod : Result.t PaymentMethod.t)
         (e1 : Ext),
    Processor.initialized s = true ->
    PaymentConfiguration.fraud_enabled (Processor.config s) = true ->
    Collaborators.getPaymentMethod co (PaymentRequest.paymentMethodId request)
      (Processor.ext s) = (Returned paymentMethod, e1) ->
    (Result.success paymentMethod = false
     \/ Result.data paymentMethod = None
     \/ exists method,
          Result.data paymentMethod = Some method
          /\ (Processor.providerRegistry s !! PaymentMethod.type method = None
              \/ exists provider,
                   Processor.providerRegistry s !! PaymentMethod.type method
                     = Some provider
                   /\ PaymentProvider.assessRisk provider = None)) ->
    let lookup := GetPaymentMethod (PaymentRequest.paymentMethodId request) in
    match Collaborators.fraudAssessRisk co request e1 with
    | (Returned r, e2) =>
        assessRisk co request s =
          (Returned r, called [lookup; FraudDetectorAssessRisk request] e2 s)
    | (Thrown error, e2) =>
        assessRisk co request s =
          (Returned (Result.of_error (toPaymentError error default_unknown_message)),
           called [lookup; FraudDetectorAssessRisk request;
                   LoggerError "Failed to assess risk"] e2 s)
    end.
Proof.
  intros request s pm e1 Hinit Hon Hpm Hno lookup.
  apply (assessRisk_falls_back request s [lookup] e1 Hinit Hon).
  unfold assessRisk_combined.
  erewrite bind_returned by (apply call_run; exact Hpm).
  destruct (Result.success pm); [|reflexivity].
  destruct Hno as [Hf | [-> | (m & -> & Hreg)]]; [discriminate | reflexivity |].
  rewrite (bind_returned _ _ _ _ _ (getProvider_run _ _)), called_registry.
  destruct Hreg as [-> | (p & -> & ->)]; reflexivity.
Qed.

(** X15. With detection enabled, when the provider's own assessment comes back
    without success or without data, it is dropped: the internal detector is
    asked and its envelope is returned as it is. *)
Theorem assessRisk_provider_assessment_dropped :
  forall (request : PaymentRequest.t) s
         (paymentMethod : Result.t PaymentMethod.t) (method : PaymentMethod.t)
         (provider : PaymentProvider.t Ext) provider_assessRisk
         (providerRiskResult : Result.t RiskAssessment.t) (e1 e2 : Ext),
    Processor.initialized s = true ->
    PaymentConfiguration.fraud_enabled (Processor.config s) = true ->
    Collaborators.getPaymentMethod co (PaymentRequest.paymentMethodId request)
      (Processor.ext s) = (Returned paymentMethod, e1) ->
    Result.success paymentMethod = true ->
    Result.data paymentMethod = Some method ->
    Processor.providerRegistry s !! PaymentMethod.type method = Some provider ->
    PaymentProvider.assessRisk provider = Some provider_assessRisk ->
    provider_assessRisk request e1 = (Returned providerRiskResult, e2) ->
    Result.success providerRiskResult = false \/ Result.data providerRiskResult = None ->
    let before :=
      [GetPaymentMethod (PaymentRequest.paymentMethodId request);
       ProviderAssessRisk (PaymentProvider.id provider) request] in
    match Collaborators.fraudAssessRisk co request e2 with
    | (Returned r, e3) =>
        assessRisk co request s =
          (Returned r, called (before ++ [FraudDetectorAssessRisk request]) e3 s)
    | (Thrown error, e3) =>
        assessRisk co request s =
          (Returned (Result.of_error (toPaymentError error default_unknown_message)),
           called (before ++ [FraudDetectorAssessRisk request;
                              LoggerError "Failed to assess risk"]) e3 s)
    end.
Proof.
  intros request s pm method p f pr e1 e2 Hinit Hon Hpm Hok Hdata Hreg Hf Hpr Hbad before.
  apply (assessRisk_falls_back request s before e2 Hinit Hon).
  unfold assessRisk_combined.
  erewrite bind_returned by (apply call_run; exact Hpm).
  rewrite Hok, Hdata.
  rewrite (bind_returned _ _ _ _ _ (getProvider_run _ _)), called_registry, Hreg, Hf.
  erewrite bind_returned by (apply call_run; exact Hpr).
  rewrite called_called.
  destruct Hbad as [-> | ->]; [reflexivity|].
  destruct (Result.success pr); reflexivity.
Qed.

(** X16. With detection enabled, when the provider's assessment succeeds and the
    internal detector's comes back without success or without data, the
    provider's assessment is dropped and the internal detector is asked a
    second time; the envelope of that second call is the result. *)
Theorem assessRisk_internal_asked_twice :
  forall (request : PaymentRequest.t) s
         (paymentMethod : Result.t PaymentMethod.t) (method : PaymentMethod.t)
         (provider : PaymentProvider.t Ext) provider_assessRisk
         (providerRiskResult ownRiskResult : Result.t RiskAssessment.t)
         (providerRisk : RiskAssessment.t) (e1 e2 e3 : Ext),
    Processor.initialized s = true ->
    PaymentConfiguration.fraud_enabled (Processor.config s) = true ->
    Collaborators.getPaymentMethod co (PaymentRequest.paymentMethodId request)
      (Processor.ext s) = (Returned paymentMethod, e1) ->
    Result.success paymentMethod = true ->
    Result.data paymentMethod = Some method ->
    Processor.providerRegistry s !! PaymentMethod.type method = Some provider ->
    PaymentProvider.assessRisk provider = Some provider_assessRisk ->
    provider_assessRisk request e1 = (Returned providerRiskResult, e2) ->
    Result.success providerRiskResult = true ->
    Result.data providerRiskResult = Some providerRisk ->
    Collaborators.fraudAssessRisk co request e2 = (Returned ownRiskResult, e3) ->
    Result.success ownRiskResult = false \/ Result.data ownRiskResult = None ->
    let before :=
      [GetPaymentMethod (PaymentRequest.paymentMethodId request);
       ProviderAssessRisk (PaymentProvider.id provider) request;
       FraudDetectorAssessRisk request] in
    match Collaborators.fraudAssessRisk co request e3 with
    | (Returned r, e4) =>
        assessRisk co request s =
          (Returned r, called (before ++ [FraudDetectorAssessRisk request]) e4 s)
    | (Thrown error, e4) =>
        assessRisk co request s =
          (Returned (Result.of_error (toPaymentError error default_unknown_message)),
           called (before ++ [FraudDetectorAssessRisk request;
                              LoggerError "Failed to assess risk"]) e4 s)
    end.
Proof.
  intros request s pm method p f pr own P e1 e2 e3
    Hinit Hon Hpm Hok Hdata Hreg Hf Hpr Hpr1 Hpr2 Hown Hbad before.
  apply (assessRisk_falls_back request s before e3 Hinit Hon).
  unfold assessRisk_combined.
  erewrite bind_returned by (apply call_run; exact Hpm).
  rewrite Hok, Hdata.
  rewrite (bind_returned _ _ _ _ _ (getProvider_run _ _)), called_registry, Hreg, Hf.
  erewrite bind_returned by (apply call_run; exact Hpr).
  rewrite Hpr1, Hpr2.
  erewrite bind_returned by (apply call_run; exact Hown).
  rewrite !called_called.
  destruct Hbad as [-> | ->]; [reflexivity|].
  destruct (Result.success own); reflexivity.
Qed.

(** X17. With detection enabled, when the provider's [assessRisk] throws,
    [assessRisk] returns the failure envelope built from the thrown value;
    the internal detector is not asked. *)
Theorem assessRisk_provider_throws :
  forall (request : PaymentRequest.t) s
         (paymentMethod : Result.t PaymentMethod.t) (method : PaymentMethod.t)
         (provider : PaymentProvider.t Ext) provider_assessRisk
         (thrown : JsValue) (e1 e2 : Ext),
    Processor.initialized s = true ->
    PaymentConfiguration.fraud_enabled (Processor.config s) = true ->
    Collaborators.getPaymentMethod co (PaymentRequest.paymentMethodId request)
      (Processor.ext s) = (Returned paymentMethod, e1) ->
    Result.success paymentMethod = true ->
    Result.data paymentMethod = Some method ->
    Processor.providerRegistry s !! PaymentMethod.type method = Some provider ->
    PaymentProvider.assessRisk provider = Some provider_assessRisk ->
    provider_assessRisk request e1 = (Thrown thrown, e2) ->
    assessRisk co request s =
      (Returned (Result.of_error (toPaymentError thrown default_unknown_message)),
       called [GetPaymentMethod (PaymentRequest.paymentMethodId request);
               ProviderAssessRisk (PaymentProvider.id provider) request;
               LoggerError "Failed to assess risk"] e2 s).
Proof.
  intros request s pm method p f e e1 e2 Hinit Hon Hpm Hok Hdata Hreg Hf Hthrow.
  unfold assessRisk.
  rewrite (bind_returned _ _ _ _ _ (ensureInitialized_run s Hinit)).
  unfold bind at 1, get_config at 1. rewrite Hon. cbn [negb].
  assert (assessRisk_combined co request s =
            (Thrown e,
             called [GetPaymentMethod (PaymentRequest.paymentMethodId request);
                     ProviderAssessRisk (PaymentProvider.id p) request] e2 s)) as Hc.
  { unfold assessRisk_combined.
    erewrite bind_returned by (apply call_run; exact Hpm).
    rewrite Hok, Hdata.
    rewrite (bind_returned _ _ _ _ _ (getProvider_run _ _)), called_registry, Hreg, Hf.
    erewrite bind_thrown by (apply call_run; exact Hthrow).
    now rewrite called_called. }
  erewrite try_thrown by (apply bind_thrown; exact Hc).
  now rewrite catch_to_envelope_run, called_called.
Qed.
End RiskFallback.

(** ** Initialization *)

Section InitializeMore.
Context {Ext : Type} (co : Collaborators.t Ext).
Implicit Types s : Processor.t Ext.

Lemma bind_inv {A B} (m : M Ext A) (k : A -> M Ext B) s o s' :
  bind m k s = (o, s') ->
  (exists e, m s = (Thrown e, s') /\ o = Thrown e)
  \/ exists a s1, m s = (Returned a, s1) /\ k a s1 = (o, s').
Proof.
  unfold bind. destruct (m s) as [[a|e] s1]; [eauto|].
  intros [= <- <-]. eauto.
Qed.

Lemma logs_only_ret {A} P (a : A) : logs_only (Ext := Ext) P (ret a).
Proof.
  intros s o s' [= <- <-]. repeat split. exists []. now rewrite app_nil_r.
Qed.

Lemma logs_only_get_config P : logs_only (Ext := Ext) P get_config.
Proof.
  intros s o s' [= <- <-]. repeat split. exists []. now rewrite app_nil_r.
Qed.

Lemma logs_only_call {A} (P : Call -> bool) c (a : Action Ext A) :
  P c = true -> logs_only P (call c a).
Proof.
  intros Hc s o s'. destruct (a (Processor.ext s)) as [o1 e1] eqn:E.
  rewrite (call_run c a s o1 e1 E). intros [= <- <-]. repeat split.
  exists [c]. simpl. now rewrite Hc.
Qed.

Lemma logs_only_registerProvider (P : Call -> bool) type (p : PaymentProvider.t Ext) :
  P (RegisterProvider type (PaymentProvider.id p)) = true ->
  logs_only P (registerProvider type p).
Proof.
  intros Hc s o s' [= <- <-]. repeat split.
  exists [RegisterProvider type (PaymentProvider.id p)]. simpl. now rewrite Hc.
Qed.

Lemma logs_only_bind {A B} P (m : M Ext A) (k : A -> M Ext B) :
  logs_only P m -> (forall a, logs_only P (k a)) -> logs_only P (bind m k).
Proof.
  intros Hm Hk s o s' H.
  apply bind_inv in H as [(e & E & ->) | (a & s1 & E & K)].
  - eapply Hm, E.
  - destruct (Hm _ _ _ E) as (C1 & I1 & cs1 & L1 & F1).
    destruct (Hk a _ _ _ K) as (C2 & I2 & cs2 & L2 & F2).
    repeat split; try congruence.
    exists (cs1 ++ cs2). rewrite L2, L1, app_assoc, forallb_app, F1, F2. auto.
Qed.

Lemma logs_only_register_new type cls options :
  logs_only is_registration (register_new co type cls options).
Proof.
  unfold register_new. apply logs_only_bind.
  - now apply logs_only_call.
  - intros p. now apply logs_only_registerProvider.
Qed.

Lemma logs_only_registerProviders : logs_only is_registration (registerProviders co).
Proof.
  unfold registerProviders.
  apply logs_only_bind; [apply logs_only_get_config | intros config].
  repeat (apply logs_only_bind; [|intros _]);
    repeat match goal with
      | |- logs_only _ (if ?b then _ else _) => destruct b
      end;
    first [apply logs_only_register_new | apply logs_only_ret].
Qed.




End InitializeMore.

Section InitializeOutcomes.
Context {Ext : Type} (co : Collaborators.t Ext).
Implicit Types s : Processor.t Ext.

Lemma initialize_component_inv c s s' :
  initialize_component co c s = (Returned tt, s') ->
  exists e', s' = called [InitializeComponent c] e' s.
Proof.
  unfold initialize_component.
  destruct (Collaborators.initializeComponent co c (Processor.ext s)) as [o1 e1] eqn:E.
  rewrite (call_run _ _ _ _ _ E). intros [= _ <-]. eauto.
Qed.

(** A successful first [initialize], step by step. *)
Lemma initialize_runs s s' :
  Processor.initialized s = false ->
  initialize co s = (Returned tt, s') ->
  exists s2 e',
    registerProviders co
      (called [LoggerInfo "Initializing PaymentProcessor..."] (Processor.ext s) s)
      = (Returned tt, s2)
    /\ s' = Processor.mk (Processor.config s2) (Processor.providerRegistry s2) true e'
              (Processor.calls s2 ++ after_registration).
Proof.
  intros Hflag. unfold initialize. rewrite Hflag.
  rewrite (bind_returned _ _ _ _ _ (record_run _ s)). unfold try_catch.
  match goal with
  | |- match ?body ?s1 with _ => _ end = _ -> _ =>
      destruct (body s1) as [[[]|e] s3] eqn:Hbody
  end; [|unfold bind, record, throw; discriminate].
  intros [= <-].
  apply bind_inv in Hbody as [(e & _ & [=]) | ([] & s2 & Hreg & H)].
  exists s2.
  do 6 (apply bind_inv in H as [(e & _ & [=]) | ([] & ? & ?%initialize_component_inv & H)]).
  apply bind_inv in H as [(e & _ & [=]) | ([] & ? & [= <-] & [= <-])].
  repeat match goal with H : exists _, _ |- _ => destruct H as [? ->] end.
  eexists. split; [exact Hreg|].
  unfold called, after_registration. simpl. rewrite <- !app_assoc. reflexivity.
Qed.


(** X22. A first [initialize] that succeeds builds and registers all its
    providers before it starts any component, then starts the six
    components once each, in a fixed order, and logs its last line. *)
Theorem initialize_call_order :
  forall s s',
    Processor.initialized s = false ->
    initialize co s = (Returned tt, s') ->
    exists registrations : list Call,
      forallb is_registration registrations = true
      /\ Processor.calls s' =
           Processor.calls s
             ++ [LoggerInfo "Initializing PaymentProcessor..."]
             ++ registrations
             ++ [InitializeComponent TransactionManager;
                 InitializeComponent PaymentMethodManager;
                 InitializeComponent RecurringBillingManager;
                 InitializeComponent RefundProcessor;
                 InitializeComponent DisputeManager;
                 InitializeComponent FraudDetector;
                 LoggerInfo "PaymentProcessor initialized successfully"].
Proof.
  intros s s' Hflag H.
  destruct (initialize_runs s s' Hflag H) as (s2 & e' & Hreg & ->).
  destruct (logs_only_registerProviders co _ _ _ Hreg) as (_ & _ & cs & L & F).
  exists cs. split; [exact F|].
  cbn [Processor.calls]. rewrite L. unfold called. cbn [Processor.calls].
  rewrite <- !app_assoc. reflexivity.
Qed.



End InitializeOutcomes.

(** ** Construction *)

Section Construction.
Context {Ext : Type}.
Implicit Types s : Processor.t Ext.

(** X24. [validateConfig] accepts exactly the arguments that carry an
    environment, a non-empty default currency and API keys; whatever it
    throws is a [ConfigurationError]: code [configuration_error], status 500,
    not retryable. *)
Theorem validateConfig_accepts_iff :
  forall config : option RawConfiguration.t,
    ((exists c l, validateConfig config = Returned (c, l)) <->
     (exists r environment defaultCurrency apiKeys,
        config = Some r
        /\ RawConfiguration.environment r = Some environment
        /\ RawConfiguration.defaultCurrency r = Some defaultCurrency
        /\ defaultCurrency <> ""
        /\ RawConfiguration.apiKeys r = Some apiKeys))
    /\ forall thrown,
         validateConfig config = Thrown thrown ->
         exists message,
           thrown =
             JsPaymentError
               (mkPaymentError "ConfigurationError" message "configuration_error"
                  500%float false None None).
Proof.
  intros config. split; [split|].
  - intros (c & l & H). destruct config as [r|]; [|discriminate].
    unfold validateConfig in H.
    destruct (RawConfiguration.environment r) as [env|] eqn:He; [|discriminate].
    destruct (RawConfiguration.defaultCurrency r) as [cur|] eqn:Hc; [|discriminate].
    destruct (Js.string_truthy cur) eqn:Ht; [|discriminate].
    destruct (RawConfiguration.apiKeys r) as [keys|] eqn:Hk; [|discriminate].
    exists r, env, cur, keys. repeat split; try assumption.
    intros ->. discriminate.
  - intros (r & env & cur & keys & -> & He & Hc & Hne & Hk).
    unfold validateConfig. rewrite He, Hc, Hk.
    destruct cur; [congruence|]. cbn [Js.string_truthy]. eauto.
  - intros thrown H. destruct config as [r|]; unfold validateConfig in H;
      repeat match type of H with
        | context [match ?x with _ => _ end] => destruct x
        end;
      try discriminate; injection H as <-; eexists; reflexivity.
Qed.

(** X25. What [validateConfig] returns: the three required fields as given;
    thresholds present whenever fraud detection is enabled, 0.8 and 0.5 when
    none was given and the given ones, untouched, otherwise; the given
    logging settings or the default ones. Validating the result again
    changes nothing. *)
Theorem validateConfig_normalizes :
  forall (r : RawConfiguration.t) (c : PaymentConfiguration.t) (l : Logging.t),
    validateConfig (Some r) = Returned (c, l) ->
    RawConfiguration.environment r = Some (PaymentConfiguration.environment c)
    /\ RawConfiguration.defaultCurrency r = Some (PaymentConfiguration.defaultCurrency c)
    /\ RawConfiguration.apiKeys r = Some (PaymentConfiguration.apiKeys c)
    /\ l = Js.nullish (RawConfiguration.logging r) (Logging.mk Logging.info true)
    /\ (forall fd,
          PaymentConfiguration.fraudDetection c = Some fd ->
          FraudDetection.enabled fd = true ->
          is_Some (FraudDetection.thresholds fd))
    /\ (forall fd,
          RawConfiguration.fraudDetection r = Some fd ->
          FraudDetection.enabled fd = false \/ is_Some (FraudDetection.thresholds fd) ->
          PaymentConfiguration.fraudDetection c = Some fd)
    /\ (forall fd,
          RawConfiguration.fraudDetection r = Some fd ->
          FraudDetection.enabled fd = true ->
          FraudDetection.thresholds fd = None ->
          PaymentConfiguration.fraud_enabled c = true
          /\ PaymentConfiguration.highRisk c = Some default_highRisk
          /\ PaymentConfiguration.mediumRisk c = Some default_mediumRisk)
    /\ validateConfig (Some (raw_of c l)) = Returned (c, l).
Proof.
  intros [[env|] [[|a cur]|] [keys|] fd lg] c l; unfold validateConfig;
    cbn [RawConfiguration.environment RawConfiguration.defaultCurrency
         RawConfiguration.apiKeys RawConfiguration.fraudDetection
         RawConfiguration.logging Js.string_truthy];
    try discriminate.
  intros [= <- <-].
  cbn [PaymentConfiguration.environment PaymentConfiguration.defaultCurrency
       PaymentConfiguration.apiKeys PaymentConfiguration.fraudDetection].
  do 3 (split; [reflexivity|]). split; [now destruct lg|].
  split; [|split; [|split]].
  - intros fd'. destruct fd as [[[] [th|] hc ma]|]; cbn; intros [= <-]; cbn;
      first [discriminate | eauto].
  - intros fd' -> [Hoff | [th Hth]]; destruct fd' as [en th' hc ma]; cbn in *; subst;
      [reflexivity | now rewrite andb_false_r].
  - intros fd' -> Hen Hth. destruct fd' as [en th' hc ma]. cbn in *. subst.
    repeat split.
  - unfold raw_of.
    cbn [RawConfiguration.environment RawConfiguration.defaultCurrency
         RawConfiguration.apiKeys RawConfiguration.fraudDetection
         RawConfiguration.logging Js.string_truthy
         PaymentConfiguration.environment PaymentConfiguration.defaultCurrency
         PaymentConfiguration.apiKeys PaymentConfiguration.fraudDetection].
    do 3 f_equal.
    destruct fd as [[[] [th|] hc ma]|]; reflexivity.
Qed.

(** X26. A processor made by [createPaymentProcessor] holds the configuration
    [validateConfig] returned and is not initialized: every payment throws
    until [initialize] has succeeded, and none throws after it has. *)
Theorem createPaymentProcessor_lifecycle :
  forall (co : Collaborators.t Ext) (config : option RawConfiguration.t) (ext0 : Ext) s,
    createPaymentProcessor config ext0 = Returned s ->
    (exists l, validateConfig config = Returned (Processor.config s, l))
    /\ Processor.initialized s = false
    /\ (forall request,
          processPayment co request s = (Thrown not_initialized_thrown, s))
    /\ (forall s',
          initialize co s = (Returned tt, s') ->
          forall request,
            exists r s'', processPayment co request s' = (Returned r, s'')).
Proof.
  intros co config ext0 s. unfold createPaymentProcessor, new_PaymentProcessor.
  destruct (validateConfig config) as [[c l]|e]; [|discriminate].
  intros [= <-]. cbn [Processor.initialized Processor.config].
  split; [eauto|]. split; [reflexivity|]. split.
  - intros request. now apply guard_throws.
  - intros s' H request. apply guarded_returns.
    apply (initialize_sets_initialized co _ _ H).
Qed.
End Construction.

(** ** Error classes *)

(** X28. A [ProviderError] takes its code, status and retry flag from its options
    where they are given, and defaults to [provider_error], 502, retryable.
    A given value that is falsy falls through to the defaults of
    [PaymentError] instead: an empty code becomes [payment_error], a status
    of 0 or [NaN] becomes 500; [retryable: false] is kept. *)
Theorem ProviderError_overrides :
  forall (text : string) (options : ErrorOptions),
    let e := new_ProviderError text options in
    name e = "ProviderError"
    /\ message e = text
    /\ code e =
         match opt_code options with
         | None => "provider_error"
         | Some c => if Js.string_truthy c then c else "payment_error"
         end
    /\ statusCode e =
         match opt_statusCode options with
         | None => 502%float
         | Some n => if Js.number_truthy n then n else 500%float
         end
    /\ retryable e =
         match opt_retryable options with
         | Some false => false
         | _ => true
         end
    /\ details e = opt_details options
    /\ cause e = opt_cause options.
Proof.
  intros text [c st rt d ca]. cbn.
  repeat split; try reflexivity.
  - now destruct c.
  - now destruct st.
  - now destruct rt as [[]|].
Qed.

(** ** The further properties on the sample deployments *)

Module MoreSamples.
Import Demo Scenarios.

Lemma merge_level_by_scores_witness :
  RiskAssessment.level (merge_assessments (config fraud_default) provider_risk internal_risk)
  = high.
Proof.
  rewrite (merge_level_by_scores (config fraud_default) provider_risk internal_risk
             eq_refl eq_refl).
  reflexivity.
Defined.

Lemma merge_nan_is_low_witness :
  RiskAssessment.level
    (merge_assessments (config fraud_default) (risk nan high "provider_broken")
       internal_risk)
  = low.
Proof.
  exact (proj2 (merge_nan_is_low (config fraud_default) (risk nan high "provider_broken")
                  internal_risk (or_introl eq_refl))).
Defined.

Lemma operations_require_initialization_witness :
  let s := fresh None (world (Result.ok internal_risk) true) in
  processPayment co request s = (Thrown not_initialized_thrown, s).
Proof.
  exact (proj1 (operations_require_initialization co
                  (fresh None (world (Result.ok internal_risk) true))
                  request "tx_1" None eq_refl)).
Defined.

Lemma operations_never_throw_witness :
  exists r s', capturePayment co "tx_1" None plain = (Returned r, s').
Proof.
  destruct (operations_never_throw co plain request "tx_1" None eq_refl)
    as (_ & _ & (r & s' & H & _) & _).
  exists r, s'. exact H.
Defined.

Lemma processPayment_validation_failure_witness :
  processPayment co request_zero plain =
    (Returned
       (Result.of_error (new_ValidationError "Amount must be positive" None None)),
     called [LoggerInfo "Processing payment"; LoggerError "Payment processing failed"]
       (Processor.ext plain) plain).
Proof.
  exact (processPayment_validation_failure co plain request_zero
           (JsPaymentError (new_ValidationError "Amount must be positive" None None))
           eq_refl eq_refl).
Defined.

Lemma processPayment_payment_method_error_witness :
  processPayment co request_unknown_method plain =
    (Returned
       (Result.mk false None None (Some "payment_method_error")
          (Some "Invalid payment method ID or payment method not found")),
     called [LoggerInfo "Processing payment"; GetPaymentMethod "pm_x"]
       (Processor.ext plain) plain).
Proof.
  apply (processPayment_payment_method_error co plain request_unknown_method
           (Result.fail "not_found_error" "Payment method not found")
           (Processor.ext plain));
    [reflexivity | reflexivity | vm_compute; reflexivity | left; reflexivity].
Defined.

Lemma processPayment_provider_throws_witness :
  processPayment co request with_failing_provider_plain =
    (Returned (Result.of_error (new_PaymentDeclinedError "Card declined" no_options)),
     called [LoggerInfo "Processing payment"; GetPaymentMethod "pm_1";
             ProviderProcessPayment "failing-card" request;
             LoggerError "Payment processing failed"]
       (Processor.ext with_failing_provider_plain) with_failing_provider_plain).
Proof.
  apply (processPayment_provider_throws co request with_failing_provider_plain
           (Result.ok pm_1) pm_1 (Processor.ext with_failing_provider_plain)
           (called [LoggerInfo "Processing payment"; GetPaymentMethod "pm_1"]
              (Processor.ext with_failing_provider_plain) with_failing_provider_plain)
           failing_provider declined);
    try reflexivity; vm_compute; reflexivity.
Defined.

Lemma authorizePayment_never_processes_witness :
  exists o s' cs,
    authorizePayment co request plain = (o, s')
    /\ Processor.calls s' = Processor.calls plain ++ cs
    /\ forallb not_process_call cs = true.
Proof.
  destruct (authorizePayment co request plain) as [o s'] eqn:E.
  destruct (authorizePayment_never_processes co request plain o s' E)
    as (_ & cs & L & F).
  exists o, s', cs. auto.
Defined.

Lemma processPayment_never_authorizes_witness :
  exists o s' cs,
    processPayment co request plain = (o, s')
    /\ Processor.calls s' = Processor.calls plain ++ cs
    /\ forallb not_authorize_call cs = true.
Proof.
  destruct (processPayment co request plain) as [o s'] eqn:E.
  assert (PaymentRequest.authorizeOnly request <> Some true) as Hflag by discriminate.
  destruct (processPayment_never_authorizes co request plain o s' Hflag E)
    as (cs & L & F).
  exists o, s', cs. auto.
Defined.

Lemma capture_cancel_transaction_not_found_witness :
  fst (capturePayment co "tx_x" None plain) =
    Returned (Result.mk false None None (Some "transaction_not_found")
                (Some "Transaction with ID tx_x not found")).
Proof.
  assert (Collaborators.getTransaction co "tx_x" (Processor.ext plain)
          = (Returned (Result.fail "not_found_error" "Transaction not found"),
             Processor.ext plain)) as Hget by (vm_compute; reflexivity).
  destruct (capture_cancel_transaction_not_found co "tx_x" None plain _ _
              eq_refl Hget (or_introl eq_refl)) as [Hc _].
  rewrite Hc. reflexivity.
Defined.

Lemma capture_cancel_provider_not_found_witness :
  fst (cancelPayment co "tx_crypto" (with_ledger true)) =
    Returned (Result.mk false None None (Some "provider_not_found")
                (Some "No provider available for payment method type: crypto")).
Proof.
  assert (Collaborators.getTransaction co "tx_crypto" (Processor.ext (with_ledger true))
          = (Returned (Result.ok tx_crypto), Processor.ext (with_ledger true)))
    as Hget by (vm_compute; reflexivity).
  assert (Processor.providerRegistry (with_ledger true)
            !! Transaction.paymentMethodType tx_crypto = None)
    as Hreg by (vm_compute; reflexivity).
  destruct (capture_cancel_provider_not_found co "tx_crypto" None (with_ledger true)
              _ tx_crypto _ eq_refl Hget eq_refl eq_refl eq_refl Hreg) as [_ Hc].
  rewrite Hc. reflexivity.
Defined.

Lemma capturePayment_dispatch_witness :
  exists s',
    capturePayment co "tx_auth" (Some 1999%float) (with_ledger true)
      = (Returned (Result.ok (with_status tx_auth captured)), s')
    /\ Processor.calls s' =
         [LoggerInfo "Capturing payment for transaction: tx_auth";
          GetTransaction "tx_auth";
          ProviderCapturePayment "generic-card" "tx_auth" (Some 1999%float);
          UpdateTransaction (with_status tx_auth captured)]
    /\ transactions (Processor.ext s') !! "tx_auth" = Some (with_status tx_auth captured).
Proof.
  assert (Collaborators.getTransaction co "tx_auth" (Processor.ext (with_ledger true))
          = (Returned (Result.ok tx_auth), Processor.ext (with_ledger true)))
    as Hget by (vm_compute; reflexivity).
  assert (Processor.providerRegistry (with_ledger true)
            !! Transaction.paymentMethodType tx_auth
          = Some (provider "generic-card" None))
    as Hreg by (vm_compute; reflexivity).
  assert (PaymentProvider.capturePayment (provider "generic-card" None) "tx_auth"
            (Some 1999%float) (Processor.ext (with_ledger true))
          = (Returned (Result.ok (with_status tx_auth captured)),
             Processor.ext (with_ledger true)))
    as Hcap by (vm_compute; reflexivity).
  pose proof (capturePayment_dispatch co "tx_auth" (Some 1999%float) (with_ledger true)
                _ tx_auth _ _ _ _ eq_refl Hget eq_refl eq_refl eq_refl Hreg Hcap) as H.
  cbv zeta in H. cbn [Result.success Result.data Result.ok] in H.
  destruct (Collaborators.updateTransaction co (with_status tx_auth captured)
              (Processor.ext (with_ledger true))) as [[r|e] e4] eqn:Eu;
    [|vm_compute in Eu; discriminate].
  eexists. split; [exact H|]. split; [reflexivity|].
  vm_compute in Eu. injection Eu as _ <-. vm_compute. reflexivity.
Defined.

Lemma cancelPayment_dispatch_witness :
  exists s',
    cancelPayment co "tx_pending" (with_ledger false)
      = (Returned (Result.of_error
                     (toPaymentError (JsError "Error" "transaction store unavailable")
                        default_unknown_message)),
         s')
    /\ Processor.calls s' =
         [LoggerInfo "Canceling payment for transaction: tx_pending";
          GetTransaction "tx_pending";
          ProviderCancelPayment "generic-card" "tx_pending";
          UpdateTransaction (with_status tx_pending canceled);
          LoggerError "Failed to cancel payment for transaction: tx_pending"].
Proof.
  assert (Collaborators.getTransaction co "tx_pending" (Processor.ext (with_ledger false))
          = (Returned (Result.ok tx_pending), Processor.ext (with_ledger false)))
    as Hget by (vm_compute; reflexivity).
  assert (Processor.providerRegistry (with_ledger false)
            !! Transaction.paymentMethodType tx_pending
          = Some (provider "generic-card" None))
    as Hreg by (vm_compute; reflexivity).
  assert (PaymentProvider.cancelPayment (provider "generic-card" None) "tx_pending"
            (Processor.ext (with_ledger false))
          = (Returned (Result.ok (with_status tx_pending canceled)),
             Processor.ext (with_ledger false)))
    as Hcan by (vm_compute; reflexivity).
  pose proof (cancelPayment_dispatch co "tx_pending" (with_ledger false)
                _ tx_pending _ _ _ _ eq_refl Hget eq_refl eq_refl
                (or_intror (or_intror eq_refl)) Hreg Hcan) as H.
  cbv zeta in H. cbn [Result.success Result.data Result.ok] in H.
  destruct (Collaborators.updateTransaction co (with_status tx_pending canceled)
              (Processor.ext (with_ledger false))) as [[r|e] e4] eqn:Eu;
    [vm_compute in Eu; discriminate|].
  vm_compute in Eu. injection Eu as <- <-.
  eexists. split; [exact H|]. reflexivity.
Defined.

Lemma getTransaction_passes_through_witness :
  getTransaction co "tx_x" plain =
    (Returned (Result.fail "not_found_error" "Transaction not found"),
     called [LoggerInfo "Retrieving transaction: tx_x"; GetTransaction "tx_x"]
       (Processor.ext plain) plain).
Proof.
  pose proof (getTransaction_passes_through co "tx_x" plain eq_refl) as H.
  cbv zeta in H.
  destruct (Collaborators.getTransaction co "tx_x" (Processor.ext plain))
    as [[found|e] e1] eqn:Eg; vm_compute in Eg; [|discriminate].
  injection Eg as <- <-. exact H.
Defined.

Lemma assessRisk_internal_only_witness :
  exists s', assessRisk co request internal_only = (Returned (Result.ok internal_risk), s')
             /\ Processor.calls s' =
                  [GetPaymentMethod "pm_1"; FraudDetectorAssessRisk request].
Proof.
  assert (Collaborators.getPaymentMethod co (PaymentRequest.paymentMethodId request)
            (Processor.ext internal_only)
          = (Returned (Result.ok pm_1), Processor.ext internal_only))
    as Hpm by (vm_compute; reflexivity).
  assert (Processor.providerRegistry internal_only !! PaymentMethod.type pm_1
          = Some (provider "generic-card" None)) as Hreg by (vm_compute; reflexivity).
  pose proof (assessRisk_internal_only co request internal_only _ _ eq_refl eq_refl Hpm
                (or_intror (or_intror
                   (ex_intro _ pm_1
                      (conj eq_refl
                         (or_intror (ex_intro _ _ (conj Hreg eq_refl)))))))) as H.
  cbv zeta in H.
  destruct (Collaborators.fraudAssessRisk co request (Processor.ext internal_only))
    as [[r|e] e2] eqn:Ef; vm_compute in Ef; [|discriminate].
  injection Ef as <- <-. eexists. split; [exact H|reflexivity].
Defined.

Lemma assessRisk_provider_assessment_dropped_witness :
  exists s',
    assessRisk co request provider_assessment_failed
      = (Returned (Result.ok internal_risk), s')
    /\ Processor.calls s' =
         [GetPaymentMethod "pm_1"; ProviderAssessRisk "generic-card" request;
          FraudDetectorAssessRisk request].
Proof.
  assert (Collaborators.getPaymentMethod co (PaymentRequest.paymentMethodId request)
            (Processor.ext provider_assessment_failed)
          = (Returned (Result.ok pm_1), Processor.ext provider_assessment_failed))
    as Hpm by (vm_compute; reflexivity).
  assert (Processor.providerRegistry provider_assessment_failed !! PaymentMethod.type pm_1
          = Some (provider "generic-card"
                    (Some (Result.fail "risk_unavailable" "No score"))))
    as Hreg by (vm_compute; reflexivity).
  pose proof (assessRisk_provider_assessment_dropped co request provider_assessment_failed
                _ pm_1 _ _ (Result.fail "risk_unavailable" "No score")
                _ (Processor.ext provider_assessment_failed)
                eq_refl eq_refl Hpm eq_refl eq_refl Hreg eq_refl eq_refl
                (or_introl eq_refl)) as H.
  cbv zeta in H.
  destruct (Collaborators.fraudAssessRisk co request
              (Processor.ext provider_assessment_failed))
    as [[r|e] e2] eqn:Ef; vm_compute in Ef; [|discriminate].
  injection Ef as <- <-. eexists. split; [exact H|reflexivity].
Defined.

Lemma assessRisk_internal_asked_twice_witness :
  exists s',
    assessRisk co request internal_assessment_failed
      = (Returned (Result.fail "fraud_unavailable" "Fraud service unavailable"), s')
    /\ Processor.calls s' =
         [GetPaymentMethod "pm_1"; ProviderAssessRisk "generic-card" request;
          FraudDetectorAssessRisk request; FraudDetectorAssessRisk request].
Proof.
  assert (Collaborators.getPaymentMethod co (PaymentRequest.paymentMethodId request)
            (Processor.ext internal_assessment_failed)
          = (Returned (Result.ok pm_1), Processor.ext internal_assessment_failed))
    as Hpm by (vm_compute; reflexivity).
  assert (Processor.providerRegistry internal_assessment_failed !! PaymentMethod.type pm_1
          = Some (provider "generic-card" (Some (Result.ok provider_risk))))
    as Hreg by (vm_compute; reflexivity).
  pose proof (assessRisk_internal_asked_twice co request internal_assessment_failed
                _ pm_1 _ _ (Result.ok provider_risk)
                (Result.fail "fraud_unavailable" "Fraud service unavailable")
                provider_risk
                _ (Processor.ext internal_assessment_failed)
                (Processor.ext internal_assessment_failed)
                eq_refl eq_refl Hpm eq_refl eq_refl Hreg eq_refl eq_refl
                eq_refl eq_refl eq_refl (or_introl eq_refl)) as H.
  cbv zeta in H.
  destruct (Collaborators.fraudAssessRisk co request
              (Processor.ext internal_assessment_failed))
    as [[r|e] e2] eqn:Ef; vm_compute in Ef; [|discriminate].
  injection Ef as <- <-. eexists. split; [exact H|reflexivity].
Defined.

Lemma assessRisk_provider_throws_witness :
  exists s',
    assessRisk co request with_failing_provider
      = (Returned (Result.of_error (new_PaymentDeclinedError "Card declined" no_options)),
         s')
    /\ Processor.calls s' =
         [GetPaymentMethod "pm_1"; ProviderAssessRisk "failing-card" request;
          LoggerError "Failed to assess risk"].
Proof.
  assert (Collaborators.getPaymentMethod co (PaymentRequest.paymentMethodId request)
            (Processor.ext with_failing_provider)
          = (Returned (Result.ok pm_1), Processor.ext with_failing_provider))
    as Hpm by (vm_compute; reflexivity).
  assert (Processor.providerRegistry with_failing_provider !! PaymentMethod.type pm_1
          = Some failing_provider) as Hreg by (vm_compute; reflexivity).
  eexists. split.
  - exact (assessRisk_provider_throws co request with_failing_provider
             _ pm_1 failing_provider _ declined _ (Processor.ext with_failing_provider)
             eq_refl eq_refl Hpm eq_refl eq_refl Hreg eq_refl eq_refl).
  - reflexivity.
Defined.


Lemma initialize_call_order_witness :
  exists s' registrations,
    initialize co (fresh None (world (Result.ok internal_risk) true)) = (Returned tt, s')
    /\ forallb is_registration registrations = true
    /\ Processor.calls s' =
         [LoggerInfo "Initializing PaymentProcessor..."]
           ++ registrations ++ after_registration.
Proof.
  destruct (initialize co (fresh None (world (Result.ok internal_risk) true)))
    as [o s'] eqn:E.
  assert (o = Returned tt) as -> by (vm_compute in E; now injection E as <- _).
  destruct (initialize_call_order co (fresh None (world (Result.ok internal_risk) true))
              s' eq_refl E) as (regs & F & L).
  exists s', regs. repeat split; assumption.
Defined.


Lemma validateConfig_normalizes_witness :
  exists c l,
    validateConfig (Some raw_enabled) = Returned (c, l)
    /\ PaymentConfiguration.highRisk c = Some default_highRisk
    /\ PaymentConfiguration.mediumRisk c = Some default_mediumRisk
    /\ validateConfig (Some (raw_of c l)) = Returned (c, l).
Proof.
  destruct (validateConfig (Some raw_enabled)) as [[c l]|e] eqn:E; [|discriminate].
  exists c, l. split; [reflexivity|].
  destruct (validateConfig_normalizes raw_enabled c l E)
    as (_ & _ & _ & _ & _ & _ & Hdefault & Hagain).
  destruct (Hdefault _ eq_refl eq_refl eq_refl) as (_ & Hh & Hm).
  repeat split; assumption.
Defined.

Lemma createPaymentProcessor_lifecycle_witness :
  exists s,
    createPaymentProcessor (Some raw_enabled) (world (Result.ok internal_risk) true)
      = Returned s
    /\ processPayment co request s = (Thrown not_initialized_thrown, s).
Proof.
  destruct (createPaymentProcessor (Some raw_enabled)
              (world (Result.ok internal_risk) true)) as [s|e] eqn:E; [|discriminate].
  exists s. split; [reflexivity|].
  destruct (createPaymentProcessor_lifecycle co _ _ s E) as (_ & _ & H & _).
  apply H.
Defined.

Lemma toPaymentError_generic_witness :
  message (toPaymentError (JsError "TypeError" "x is not a function")
             default_unknown_message)
  = "x is not a function"
  /\ code (toPaymentError (JsError "TypeError" "x is not a function")
             default_unknown_message)
     = "payment_error".
Proof.
  destruct (toPaymentError_generic (JsError "TypeError" "x is not a function")
              default_unknown_message eq_refl) as (_ & Hcode & _ & _ & Hmsg & _).
  split; [|exact Hcode].
  refine (proj1 (Hmsg "TypeError" "x is not a function" eq_refl _)). discriminate.
Defined.

Lemma processPayment_blocks_high_risk_witness :
  exists assessment s',
    processPayment co request
      (ready fraud_default (Some (Result.ok provider_risk))
         (world (Result.ok internal_risk) true))
    = (Returned
         (Result.mk false (Some (RiskOnly assessment)) None (Some "high_risk_payment")
            (Some "Payment flagged as high risk")),
       s')
    /\ RiskAssessment.level assessment = high.
Proof.
  set (s := ready fraud_default (Some (Result.ok provider_risk))
              (world (Result.ok internal_risk) true)).
  destruct (assessRisk co request
              (called [LoggerInfo "Processing payment";
                       GetPaymentMethod (PaymentRequest.paymentMethodId request)]
                 (Processor.ext s) s)) as [o s2] eqn:Era.
  assert (exists a, o = Returned (Result.ok a) /\ RiskAssessment.level a = high)
    as (a & -> & Hlvl)
    by (vm_compute in Era; injection Era as <- _; eexists; split; reflexivity).
  assert (Collaborators.getPaymentMethod co (PaymentRequest.paymentMethodId request)
            (Processor.ext s) = (Returned (Result.ok pm_1), Processor.ext s))
    as Hpm by (vm_compute; reflexivity).
  assert (PaymentConfiguration.highRisk (Processor.config s) = Some default_highRisk)
    as Hth by reflexivity.
  destruct (processPayment_blocks_high_risk co request s _ pm_1 _ _ a default_highRisk s2
              eq_refl eq_refl Hpm eq_refl eq_refl eq_refl Era eq_refl eq_refl Hlvl
              Hth eq_refl) as [H _].
  exists a, s2. split; assumption.
Defined.
End MoreSamples.
